(* ===== verification/_CoqProject ===== *)
-Q . S2P
Prelude.v
PyData.v
Bytes.v
Sha256.v
Hmac.v
Base64.v
Effects.v
Signing.v
Helpers.v
Bootstrap.v
Exceptions.v
PollLoop.v
Protocol.v
Confidential.v
CloudApi.v
CloudMain.v
CloudInvariant.v
CloudRuns.v
CloudCount.v
Scenarios.v
