(* ===== verification/Prelude.v ===== *)
(** * Verification of the Couchbase Cloud quick-start provisioning client

    The repository ([src/src/]) is a small Python program that provisions a
    Couchbase Capella ("Couchbase Cloud") cluster through the control-plane
    HTTP API.  It has three parts:

    - [couchbase_cloud.py], class [CouchbaseCloud]: the signed request client.
      [request(endpoint, method, data)] reads the clock (epoch milliseconds),
      builds the message ["METHOD\nENDPOINT\nTIMESTAMP"], signs it with
      HMAC-SHA256 under the secret key, base64-encodes the digest, attaches
      the [Authorization: Bearer key:signature] and [Couchbase-Timestamp]
      headers and sends a GET, POST (with a JSON body) or DELETE.
    - [cloud_helpers.py]: one function per API step.  Each calls
      [cloud.request] once, passes the response to
      [check_response_for_errors] (success iff the status code is in the
      step's allow-list; on failure it prints the body's [errorType] and
      [message]) and extracts the field the step needs.
    - [cloud_bootstrap.py], [main]: the orchestrator.  It discovers the
      cloud, creates a project, creates a cluster, resolves the cluster id,
      polls the cluster status at most 30 times one minute apart, opens the
      allow-list and creates the database user, calling [exit()] when a step
      fails.

    [cloud_sdk_test.py] is a separate smoke-test script that talks to the
    cluster through the Couchbase Python SDK; it is not modelled (every line
    of it is a call into the SDK).

    ** Files of the development, in dependency order

    - [Prelude] (this file): the string notation [+:+], the development's
      tactics and hint databases, generic lemmas on lists and strings.
    - [PyData]: the Python values a JSON response decodes to ([PyVal]),
      Python exceptions ([PyExc]), the result of a Python computation
      ([Result]), subscripting ([py_getitem], the semantics of [d["k"]] and
      [l[0]] with [KeyError], [IndexError], [TypeError]), truthiness,
      [str()] and [repr()] of values, and [str()] of integers.
    - [Sha256], [Hmac], [Base64]: the digest and encoding that
      [CouchbaseCloud.request] computes with [hashlib.sha256], [hmac.new]
      and [base64.b64encode], written from FIPS 180-4, RFC 2104 and
      RFC 4648, bytes as integers in [0, 256).
    - [Effects]: the state of a run ([World]: the remote control plane's
      state, the log of HTTP requests sent, the console output and the
      clock) and the exception-and-state monad [M] in which the Python
      functions are written; the control plane is an interface
      ([ControlPlane] class) so that every theorem about the client holds
      for every server.
    - [Signing]: [CouchbaseCloud] and [request].
    - [Helpers]: every function of [cloud_helpers.py].
    - [Bootstrap]: [main] of [cloud_bootstrap.py] with its poll loop.
    - [Exceptions]: the exceptions a run of [main] can end with, by the
      framework [raises_only] of [Effects].
    - [PollLoop]: the readiness loop as written ([timeout = 30],
      [while timeout > 0], [break], [timeout -= 1]) with fuel, and its
      equivalence with the recursion [poll_cluster].
    - [Protocol]: the provisioning protocol of spec sections 4.2 and 6 as
      a step relation [proto_step] on phases, a program logic [spec] over
      [M] (a run from a phase sends protocol steps and ends in a phase
      related to its outcome), one rule per helper, and the refinement
      theorem for [main].
    - [Confidential]: the relation [low_run] between two programs (from
      worlds that agree on the control plane, the console, the clock and
      the requests but for their headers, they reach such worlds with
      equal results), its rules for [bind], [try] and the primitive steps,
      the tactic [low_tac], and the confidentiality of the credentials.
    - [CloudApi]: a stateful model of the control-plane API of spec
      section 6 as a [ControlPlane] instance ([cloud_api]): it checks each
      request with [verify_request], routes its path to the table's eight
      endpoints ([route]) and keeps the account, the clouds, the projects
      and the clusters (each with the time its deployment ends, its
      allow-list and its users).  Runs against it are followed with the
      total-correctness predicate [ok_wp] of [Effects], one lemma per
      helper of [cloud_helpers.py].
    - [CloudMain]: whole runs of [main] against [cloud_api], composed
      from the step lemmas of [CloudApi] by one tactic ([run_main]) that
      follows the seven steps and the guards between them.
    - [CloudInvariant]: the well-formedness invariant of the
      control-plane model (unique ids drawn from its counter, clusters
      in known projects), preserved by every request, and the total
      success of [main] on every well-formed state with a connected cloud.
    - [CloudRuns]: further runs against the model: a client with the
      wrong access key, and the disabled step [delete_cluster].
    - [CloudCount]: the number of projects and clusters a run of [main]
      adds to the model, by the [grows] framework with the counts as
      measures; a Section proves, once for either count, what a single
      request can add, from what the route adds and which endpoints can
      reach it under any base URL ([avoids]).
    - [Scenarios]: the readiness poll on any script of answers of the
      scripted control plane, and on a status answer without ["status"]
      from any control plane; the witnesses run the scenarios of the
      specification.

    ** What is proved (the theorems of the manifest, by group)

    - Response check ([Helpers]): the success flag is exactly "status in
      the allow-list" ([check_response_for_errors_flag]); a refused status
      with a non-JSON body raises [JSONDecodeError]
      ([check_response_undecodable]).
    - Steps ([Helpers]), for every control plane answering as stated:
      [create_project] returns the body's id; [get_cloud_status] and
      [get_clusters] raise [IndexError] on an empty list.
    - Signing ([Signing], [Sha256], [Hmac], [Base64]): every request that
      [request] sends is accepted by the control plane's authentication
      check of spec section 6 ([request_authenticated]: key, then the
      Base64 signature after the last colon, decoded and compared with the
      HMAC-SHA256 of ["METHOD\nPATH\nTIMESTAMP"]); a signature is 44
      colon-free characters that decode to the MAC
      ([cbc_api_signature_props]); unknown methods raise [UnboundLocalError] and a [None] secret raises
      [TypeError], both before sending anything; the signed message
      determines the method, the path and the timestamp
      ([cbc_api_message_injective]).
    - Orchestrator ([Bootstrap]), for every control plane: a run sends at
      most 36 requests ([main_sent]) and sleeps at most 30 minutes
      ([main_clock]) (the measure framework [grows] of [Effects]); every
      request of a run is authenticated ([main_authenticated], from the
      preorder framework [stable] of [Effects] with the Section
      [MainStable]).
    - Confidentiality ([Confidential]), for every control plane whose
      answers do not depend on the headers (the scripted one, say): two
      runs of [main] whose environments differ only in the access key and
      the secret (both set or both unset) print the same lines, end alike
      and send the same methods, URLs and bodies
      ([main_credentials_confidential]), by following the two runs step by
      step with [low_run].
    - Exceptions ([Exceptions]), for every control plane: a run ends
      normally or with [SystemExit] without a code, a lookup error,
      [JSONDecodeError], [TypeError] or [RequestException], never with
      [UnboundLocalError] ([main_exceptions]).
    - The loop ([PollLoop]): the while loop as written ends in the same
      world with the same outcome as [poll_cluster] when the fuel exceeds
      the counter ([while_loop_poll_cluster]); since [poll_cluster] never
      raises [UnboundLocalError], the loop does not run out of such fuel.
    - Protocol ([Protocol]), for every control plane: the requests of a
      run of [main], read as (method, path under the base URL), are a run
      of [proto_step] from [Start], and a run that returns normally has
      reached [UserRequested] ([main_follows_protocol]).
    - Against the control-plane model ([CloudMain] and the files after
      it), for any account,
      names, clock and deployment time: when deployments take at most 29
      minutes, a run returns normally and leaves exactly one cluster,
      ready, with the allow-list rule and the user ([main_provisions]);
      when they take more than 30 minutes, the run still returns
      normally after 30 minutes, on a cluster that is still deploying
      ([main_unready_success]); on an account that already holds a
      cluster, the run configures that first listed cluster (allow-list,
      user, printed URL) and not the one it created
      ([main_configures_first_cluster]); whatever the environment and the
      model's state, a run adds at most one project and one cluster
      ([main_creates_at_most_one]); from any well-formed state with a
      connected cloud, whatever the clusters already there and the
      deployment time, a run with the account's credentials returns
      normally and the cluster whose URL it prints has the rule and the
      user ([main_succeeds]); run twice on an account with no cluster,
      [main] succeeds both times but configures the first run's cluster
      again, which ends with the allow-list rule and the user twice while
      the second cluster has neither ([main_rerun], using the model's
      invariants: well-formedness, account and clouds unchanged, each
      preserved by every request, by rule induction on [reachable]); a client
      whose access key is not the account's is refused and [main] stops
      at its first guard with exit status 0 ([main_wrong_key]);
      [delete_cluster] removes exactly the cluster it names
      ([delete_cluster_removes]).
    - The poll ([Scenarios]): on a scripted control plane, the loop stops
      at the (k+1)-th check after k "not ready" answers
      ([poll_cluster_stops_when_ready]), and on n "not ready" answers
      returns normally after n checks and n minutes
      ([poll_cluster_exhausted]); on any control plane, a status answer
      without ["status"] raises [KeyError] out of the loop right after the
      check, with no sleep ([poll_cluster_status_missing]).

    ** Lemmas that check the models of the libraries

    The models of [hashlib.sha256], [hmac] and [base64] are checked
    against their standards, not against the repository: SHA-256 and
    HMAC-SHA256 give the FIPS 180-4 and RFC 4231 test vectors
    ([sha256_abc], [hmac_rfc4231_case2], [hmac_rfc4231_case6]), digests
    are 32 bytes, the padded message is whole blocks, the HMAC key block
    is 64 bytes, and Base64 decoding inverts encoding
    ([b64decode_encode], which the proof of [request_authenticated]
    uses).

    ** Bounds and fuel

    The poll loop [poll_cluster] recurses on [timeout] (30, the code's
    own counter), without fuel.  The literal [while] loop of [PollLoop]
    takes fuel; [timeout + 1] iterations suffice (the last one only
    tests [timeout > 0]), and any fuel above [timeout] gives the same
    run ([while_loop_poll_cluster]).  [Sha256.icbrt] bisects for 200 steps, enough for every
    argument below [2^200] (its arguments are below [2^105]); the
    constants it yields are fixed at definition time and checked against
    FIPS 180-4 ([constants_head]) and by the test vectors.

    ** Not modelled

    [cloud_sdk_test.py] (SDK calls only); reading the [.env] file by
    [load_dotenv()] (library I/O, and secret loading is out of the
    specification's scope, section 1; the values [os.getenv] returns are
    the inputs [Env]); the vendor's real control plane
    (theorems about [main] hold for every [ControlPlane]; [CloudApi] is a
    model of the API table of the specification, not of the vendor's
    service); JSON floats; the transport's timeouts (a transport failure
    is [RequestException]).

    ** Further work

    1. The [Protocol] phases of a run against [cloud_api] related to the
       model's state (the project and the cluster the phases name exist),
       as a simulation between [proto_step] and [serve].
    2. Two interleaved runs of [main] on one account, which needs [main]
       as a step machine rather than a function of the world.
*)

From Stdlib Require Import String Ascii ZArith List Lia Bool.
Import ListNotations.

(** ** String notation *)

Declare Scope pystr_scope.
Delimit Scope pystr_scope with pystr.
Infix "+:+" := String.append (at level 60, right associativity) : pystr_scope.
Open Scope pystr_scope.

(** ** Hint databases of the development *)

Create HintDb pydata discriminated.
Create HintDb pyrun.
Create Rewrite HintDb pystr.

(** ** Tactics *)

(** [inv H]: invert [H] and clean up. *)
Ltac inv H := inversion H; subst; clear H.

(** [zlia]: [lia] after turning every [Z.div] and [Z.modulo] by a
    constant into its Euclidean equations ([lia] alone treats them as
    atoms). *)
Ltac zlia := Z.to_euclidean_division_equations; lia.

(** [destruct_if]: case on the first boolean test of the goal, keeping
    its equation. *)
Ltac destruct_if :=
  match goal with
  | |- context [if ?b then _ else _] =>
      let E := fresh "E" in destruct b eqn:E
  end.

(** ** Generic lemmas on strings *)

Lemma append_assoc_str (a b c : string) : (a +:+ b) +:+ c = a +:+ (b +:+ c).
Proof. induction a as [|x a IH]; simpl; [reflexivity | now rewrite IH]. Qed.

Lemma append_empty_r (a : string) : a +:+ "" = a.
Proof. induction a as [|x a IH]; simpl; [reflexivity | now rewrite IH]. Qed.

Lemma length_append_str (a b : string) :
  String.length (a +:+ b) = String.length a + String.length b.
Proof. induction a as [|x a IH]; simpl; [reflexivity | now rewrite IH]. Qed.

Lemma append_cancel_l (p a b : string) : p +:+ a = p +:+ b -> a = b.
Proof. induction p as [|x p IH]; simpl; [auto | intros E; injection E; exact IH]. Qed.

#[export] Hint Rewrite append_assoc_str append_empty_r length_append_str : pystr.

(** ** Generic lemmas on lists *)

Lemma Forall_snoc {A} (P : A -> Prop) (l : list A) (x : A) :
  Forall P l -> P x -> Forall P (l ++ [x]).
Proof. intros Hl Hx. apply Forall_app; auto. Qed.

#[export] Hint Resolve Forall_snoc : pydata.
