(* ===== verification/PyData.v ===== *)
(** Python values as [res.json()] returns them, Python exceptions, and the
    operations of the Python language that the client applies to them:
    subscripting ([d["k"]], [l[0]]), truthiness ([not], [or]), equality
    with a string literal, and the [str()] / [repr()] that f-strings use. *)

From Stdlib Require Import String Ascii ZArith List Lia Bool DecimalString DecimalPos DecimalZ.
From S2P Require Import Prelude.
Import ListNotations.
Open Scope pystr_scope.

(** ** Values *)

(** A decoded JSON document: [None], [True]/[False], an [int], a [str], a
    [list] or a [dict] (its items in insertion order; [json.loads] never
    produces two items with the same key). *)
Inductive PyVal : Type :=
| PNone
| PBool (b : bool)
| PInt (z : Z)
| PStr (s : string)
| PList (l : list PyVal)
| PDict (kv : list (string * PyVal)).

(** A subscript: [d["id"]] or [l[0]]. *)
Inductive PyKey : Type :=
| KStr (s : string)
| KInt (i : Z).

(** The exceptions the client can raise. *)
Inductive PyExc : Type :=
| SystemExit (code : PyVal)          (** [exit()] *)
| KeyError (k : PyKey)
| IndexError (msg : string)
| TypeError (msg : string)
| JSONDecodeError                    (** [res.json()] on a body that is not JSON *)
| UnboundLocalError (name : string)
| RequestException.                  (** raised by [requests] on a transport failure *)

(** The outcome of a Python computation: a value, or a raised exception. *)
Inductive Result (A : Type) : Type :=
| Ok (a : A)
| Raise (e : PyExc).
Arguments Ok {A} a.
Arguments Raise {A} e.

(** ** Subscripting *)

(** Python's index normalisation: a negative index counts from the end. *)
Definition py_index (len : nat) (i : Z) : option nat :=
  let j := if (i <? 0)%Z then (i + Z.of_nat len)%Z else i in
  if ((0 <=? j) && (j <? Z.of_nat len))%Z then Some (Z.to_nat j) else None.

(** [dict.__getitem__] on string keys: the first item with the key. *)
Fixpoint dict_get (k : string) (kv : list (string * PyVal)) : option PyVal :=
  match kv with
  | [] => None
  | (k', v) :: rest => if String.eqb k k' then Some v else dict_get k rest
  end.

(** [v[k]] for every kind of value a JSON document decodes to, with the
    exception CPython raises. *)
Definition py_getitem (v : PyVal) (k : PyKey) : Result PyVal :=
  match v, k with
  | PDict kv, KStr s =>
      match dict_get s kv with
      | Some x => Ok x
      | None => Raise (KeyError k)
      end
  | PDict _, KInt _ => Raise (KeyError k)
  | PList l, KInt i =>
      match py_index (length l) i with
      | Some n => match nth_error l n with
                  | Some x => Ok x
                  | None => Raise (IndexError "list index out of range")
                  end
      | None => Raise (IndexError "list index out of range")
      end
  | PList _, KStr _ => Raise (TypeError "list indices must be integers or slices, not str")
  | PStr s, KInt i =>
      match py_index (String.length s) i with
      | Some n => Ok (PStr (String.substring n 1 s))
      | None => Raise (IndexError "string index out of range")
      end
  | PStr _, KStr _ => Raise (TypeError "string indices must be integers, not 'str'")
  | PInt _, _ => Raise (TypeError "'int' object is not subscriptable")
  | PBool _, _ => Raise (TypeError "'bool' object is not subscriptable")
  | PNone, _ => Raise (TypeError "'NoneType' object is not subscriptable")
  end.

(** ** Truthiness, [or], [== "..."] *)

Definition py_truthy (v : PyVal) : bool :=
  match v with
  | PNone => false
  | PBool b => b
  | PInt z => negb (Z.eqb z 0)
  | PStr s => negb (String.eqb s "")
  | PList l => negb (Nat.eqb (length l) 0)
  | PDict kv => negb (Nat.eqb (length kv) 0)
  end.

(** [a or b] evaluates to [a] when [a] is true, to [b] otherwise. *)
Definition py_or (a b : PyVal) : PyVal := if py_truthy a then a else b.

(** [v == "s"]: only a string equal to [s] compares equal. *)
Definition py_eq_str (v : PyVal) (s : string) : bool :=
  match v with
  | PStr t => String.eqb t s
  | _ => false
  end.

(** ** [str()] and [repr()] *)

(** [str(n)] of an [int]: its decimal digits, with a minus sign when
    negative. *)
Definition py_int_str (z : Z) : string :=
  NilZero.string_of_int (Z.to_int z).

Definition hex_digit (n : nat) : ascii :=
  if Nat.ltb n 10 then ascii_of_nat (48 + n) else ascii_of_nat (87 + n).

(** The [\xhh] escape of a character below 256. *)
Definition hex_escape (c : ascii) : string :=
  let n := nat_of_ascii c in
  String "\" (String "x" (String (hex_digit (n / 16)) (String (hex_digit (n mod 16)) EmptyString))).

Definition dquote : ascii := "034"%char.
Definition squote : ascii := "'"%char.

(** [str.isprintable()] on the code points U+0080..U+00FF: the C1
    controls, the no-break space and the soft hyphen are not printable. *)
Definition latin1_printable (n : nat) : bool :=
  negb (Nat.leb n 160) && negb (Nat.eqb n 173).

(** One character of [repr(s)] when [q] is the quote chosen for [s]
    (CPython's [unicode_repr]). *)
Definition repr_char (q : ascii) (c : ascii) : string :=
  let n := nat_of_ascii c in
  if Ascii.eqb c q || Ascii.eqb c "\"%char then String "\" (String c EmptyString)
  else if Nat.eqb n 9 then "\t"
  else if Nat.eqb n 10 then "\n"
  else if Nat.eqb n 13 then "\r"
  else if Nat.ltb n 32 || Nat.eqb n 127 then hex_escape c
  else if Nat.ltb n 127 then String c EmptyString
  else if latin1_printable n then String c EmptyString
  else hex_escape c.

Fixpoint has_char (c : ascii) (s : string) : bool :=
  match s with
  | EmptyString => false
  | String d s' => Ascii.eqb c d || has_char c s'
  end.

Fixpoint repr_chars (q : ascii) (s : string) : string :=
  match s with
  | EmptyString => EmptyString
  | String c s' => repr_char q c +:+ repr_chars q s'
  end.

(** [repr(s)]: single quotes, unless [s] has a single quote and no double
    quote. *)
Definition py_repr_str (s : string) : string :=
  let q := if has_char squote s && negb (has_char dquote s) then dquote else squote in
  String q (repr_chars q s +:+ String q EmptyString).

Fixpoint py_repr (v : PyVal) : string :=
  match v with
  | PNone => "None"
  | PBool true => "True"
  | PBool false => "False"
  | PInt z => py_int_str z
  | PStr s => py_repr_str s
  | PList l => "[" +:+ String.concat ", " (map py_repr l) +:+ "]"
  | PDict kv =>
      "{" +:+ String.concat ", "
                (map (fun '(k, x) => py_repr_str k +:+ ": " +:+ py_repr x) kv) +:+ "}"
  end.

(** [str(v)], which an f-string [{v}] inserts: a string as it is, every
    other value as its [repr]. *)
Definition py_str (v : PyVal) : string :=
  match v with
  | PStr s => s
  | _ => py_repr v
  end.

(** [os.getenv] returns a [str] or [None]. *)
Definition of_env (o : option string) : PyVal :=
  match o with
  | Some s => PStr s
  | None => PNone
  end.

(** [int(s)] on the decimal strings [str()] produces. *)
Definition py_int_parse (s : string) : option Z := option_map Z.of_int (NilZero.int_of_string s).

(** ** Properties *)

(** The decimal text of [str(n)] is read back by the digit parser. *)
Lemma int_of_py_int_str (z : Z) : NilZero.int_of_string (py_int_str z) = Some (Z.to_int z).
Proof.
  unfold py_int_str. destruct z as [| p | p]; [reflexivity | |];
    (rewrite NilZero.isi; [reflexivity | |]);
    simpl; intros [=]; now apply (DecimalPos.Unsigned.to_uint_nonnil p).
Qed.

(** [int(str(n)) == n]: the decimal rendering of an integer (the
    timestamp header) reads back as the same integer. *)
Theorem py_int_str_roundtrip (z : Z) : py_int_parse (py_int_str z) = Some z.
Proof. unfold py_int_parse. rewrite int_of_py_int_str. cbn [option_map]. now rewrite DecimalZ.of_to. Qed.

(** [str] is injective on integers. *)
Lemma py_int_str_inj (z z' : Z) : py_int_str z = py_int_str z' -> z = z'.
Proof.
  intros E. apply (f_equal NilZero.int_of_string) in E. rewrite !int_of_py_int_str in E.
  injection E as E. now rewrite <- (DecimalZ.of_to z), E, DecimalZ.of_to.
Qed.

(** Two strings cut by a separator [c] that neither first part contains:
    the parts agree. *)
Lemma append_sep_inj (c : ascii) (a b a' b' : string) :
  has_char c a = false -> has_char c a' = false ->
  a +:+ String c b = a' +:+ String c b' -> a = a' /\ b = b'.
Proof.
  revert a'. induction a as [| x a IH]; intros [| y a'] Ha Ha' E; simpl in *.
  - now injection E.
  - injection E as -> _. now rewrite Ascii.eqb_refl in Ha'.
  - injection E as -> _. now rewrite Ascii.eqb_refl in Ha.
  - injection E as -> E. apply orb_false_iff in Ha as [_ Ha], Ha' as [_ Ha'].
    destruct (IH a' Ha Ha' E) as [-> ->]. auto.
Qed.

(** Subscripting follows Python's negative indices: [l[-1]] is the last
    element. *)
Lemma py_getitem_last (l : list PyVal) (x : PyVal) :
  py_getitem (PList (l ++ [x])) (KInt (-1)) = Ok x.
Proof.
  unfold py_getitem, py_index. rewrite length_app. simpl length.
  replace (-1 + Z.of_nat (length l + 1))%Z with (Z.of_nat (length l)) by lia.
  change (-1 <? 0)%Z with true. cbv iota.
  replace ((0 <=? Z.of_nat (length l)) && (Z.of_nat (length l) <? Z.of_nat (length l + 1)))%Z
    with true by (symmetry; apply andb_true_intro; split; [apply Z.leb_le | apply Z.ltb_lt]; lia).
  rewrite Nat2Z.id, nth_error_app2, Nat.sub_diag by lia. reflexivity.
Qed.
