(* ===== verification/Bytes.v ===== *)
(** Bytes as integers in [0, 256): the UTF-8 encoding that
    [bytes(s, "utf-8")] computes, big-endian packing of machine words, and
    the byte-wise exclusive or used by HMAC. *)

From Stdlib Require Import String Ascii ZArith List Lia Bool.
From S2P Require Import Prelude.
Import ListNotations.
Open Scope Z_scope.

Definition is_byte (b : Z) : Prop := 0 <= b < 256.
Definition bytes_ok (l : list Z) : Prop := Forall is_byte l.

(** [bytes(s, "utf-8")] of a string whose characters are the code points
    U+0000..U+00FF: one byte below 128, two bytes above
    ([0xC0 | c >> 6] and [0x80 | c & 0x3F], written with the arithmetic
    that these disjoint bit fields amount to). *)
Definition utf8_char (c : ascii) : list Z :=
  let n := Z.of_nat (nat_of_ascii c) in
  if n <? 128 then [n]
  else [192 + n / 64; 128 + n mod 64].

Fixpoint utf8_encode (s : string) : list Z :=
  match s with
  | EmptyString => []
  | String c s' => utf8_char c ++ utf8_encode s'
  end.

(** The [n] bytes of [x mod 256^n], most significant first. *)
Definition be_bytes (n : nat) (x : Z) : list Z :=
  map (fun i => Z.shiftr x (8 * Z.of_nat (n - 1 - i)) mod 256) (seq 0 n).

(** Big-endian 32-bit words of a byte string whose length is a multiple
    of four. *)
Fixpoint be_words (l : list Z) : list Z :=
  match l with
  | a :: b :: c :: d :: rest =>
      (((a * 256 + b) * 256 + c) * 256 + d) :: be_words rest
  | _ => []
  end.

Definition xor_bytes (k : list Z) (pad : Z) : list Z := map (Z.lxor pad) k.

(** Lower-case hexadecimal rendering of a byte string, to state test
    vectors as they are published. *)
Definition hex_nibble (n : Z) : Ascii.ascii :=
  if n <? 10 then Ascii.ascii_of_nat (Z.to_nat (48 + n)) else Ascii.ascii_of_nat (Z.to_nat (87 + n)).

Fixpoint hex (l : list Z) : string :=
  match l with
  | [] => EmptyString
  | b :: rest => String (hex_nibble (b / 16)) (String (hex_nibble (b mod 16)) (hex rest))
  end.

(** ** Lemmas *)

Lemma mod256_byte (x : Z) : is_byte (x mod 256).
Proof. unfold is_byte. apply Z.mod_pos_bound. lia. Qed.

Lemma be_bytes_ok (n : nat) (x : Z) : bytes_ok (be_bytes n x).
Proof.
  unfold bytes_ok, be_bytes. apply Forall_map, Forall_forall.
  intros i _. apply mod256_byte.
Qed.

Lemma length_be_bytes (n : nat) (x : Z) : length (be_bytes n x) = n.
Proof. unfold be_bytes. now rewrite length_map, length_seq. Qed.

Lemma bytes_ok_app (l1 l2 : list Z) : bytes_ok l1 -> bytes_ok l2 -> bytes_ok (l1 ++ l2).
Proof. intros; apply Forall_app; auto. Qed.

Lemma utf8_char_ok (c : ascii) : bytes_ok (utf8_char c).
Proof.
  unfold bytes_ok, utf8_char; cbv zeta.
  assert (Hc : Z.of_nat (nat_of_ascii c) < 256)
    by (apply (Nat2Z.inj_lt _ 256), nat_ascii_bounded).
  destruct (Z.of_nat (nat_of_ascii c) <? 128) eqn:E;
    [apply Z.ltb_lt in E | apply Z.ltb_ge in E];
    repeat (apply Forall_cons || apply Forall_nil); unfold is_byte; zlia.
Qed.

Lemma utf8_encode_ok (s : string) : bytes_ok (utf8_encode s).
Proof.
  induction s as [|c s IH]; simpl; [constructor |].
  apply Forall_app; split; [apply utf8_char_ok | exact IH].
Qed.

(** The exclusive or of two bytes is a byte: the bits from 8 up are 0. *)
Lemma lxor_byte (a b : Z) : is_byte a -> is_byte b -> is_byte (Z.lxor a b).
Proof.
  unfold is_byte. intros Ha Hb.
  assert (Hs : forall x, 0 <= x -> Z.shiftr x 8 = x / 256)
    by (intros; rewrite Z.shiftr_div_pow2; [reflexivity | lia]).
  assert (H0 : Z.shiftr (Z.lxor a b) 8 = 0)
    by (rewrite Z.shiftr_lxor, !Hs, !Z.div_small by lia; reflexivity).
  assert (0 <= Z.lxor a b) by (apply Z.lxor_nonneg; lia).
  rewrite Hs in H0 by lia.
  split; [lia |]. apply Z.div_small_iff in H0; lia.
Qed.

Lemma xor_bytes_ok (k : list Z) (pad : Z) :
  bytes_ok k -> is_byte pad -> bytes_ok (xor_bytes k pad).
Proof.
  intros Hk Hp. unfold bytes_ok, xor_bytes. apply Forall_map.
  eapply Forall_impl; [| exact Hk]. intros b Hb. now apply lxor_byte.
Qed.

#[export] Hint Resolve bytes_ok_app mod256_byte be_bytes_ok utf8_char_ok utf8_encode_ok lxor_byte xor_bytes_ok : pydata.
