(* ===== verification/Sha256.v ===== *)
(** SHA-256 (FIPS 180-4) on byte strings, the digest that
    [hmac.new(..., digestmod=hashlib.sha256)] applies in
    [CouchbaseCloud.request].  Words are 32-bit integers kept in
    [0, 2^32) by [w32]; every addition is reduced modulo [2^32] as the
    standard prescribes. *)

From Stdlib Require Import String ZArith List Lia.
From S2P Require Import Prelude Bytes.
Import ListNotations.
Open Scope Z_scope.

Module Sha256.

(** ** 32-bit words *)

Definition w32 (x : Z) : Z := x mod 2 ^ 32.

Definition rotr (x : Z) (n : Z) : Z :=
  Z.lor (Z.shiftr x n) (w32 (Z.shiftl x (32 - n))).

Definition ch (e f g : Z) : Z := Z.lxor (Z.land e f) (Z.land (Z.lxor e (2 ^ 32 - 1)) g).
Definition maj (a b c : Z) : Z := Z.lxor (Z.lxor (Z.land a b) (Z.land a c)) (Z.land b c).
Definition bsig0 (x : Z) : Z := Z.lxor (Z.lxor (rotr x 2) (rotr x 13)) (rotr x 22).
Definition bsig1 (x : Z) : Z := Z.lxor (Z.lxor (rotr x 6) (rotr x 11)) (rotr x 25).
Definition ssig0 (x : Z) : Z := Z.lxor (Z.lxor (rotr x 7) (rotr x 18)) (Z.shiftr x 3).
Definition ssig1 (x : Z) : Z := Z.lxor (Z.lxor (rotr x 17) (rotr x 19)) (Z.shiftr x 10).

(** ** Constants *)

(** FIPS 180-4, 4.2.2 and 5.3.3: the constants are the first 32 bits of
    the fractional parts of the cube roots (for [K]) and of the square
    roots (for [H0]) of the first primes. *)

Definition is_prime (p : Z) : bool :=
  (2 <=? p) && forallb (fun d => negb (p mod d =? 0)) (map Z.of_nat (seq 2 (Z.to_nat p - 2))).

(** The first [k] primes, all below 312. *)
Definition first_primes (k : nat) : list Z :=
  firstn k (filter is_prime (map Z.of_nat (seq 2 310))).

(** [icbrt_aux fuel lo hi n]: the integer cube root of [n] by bisection
    of [[lo, hi)] with [lo^3 <= n < hi^3]. *)
Fixpoint icbrt_aux (fuel : nat) (lo hi n : Z) : Z :=
  match fuel with
  | O => lo
  | S f =>
      if hi - lo <=? 1 then lo
      else let mid := (lo + hi) / 2 in
           if mid * mid * mid <=? n then icbrt_aux f mid hi n else icbrt_aux f lo mid n
  end.

(** 200 bisection steps are enough for every [n < 2^200]. *)
Definition icbrt (n : Z) : Z := icbrt_aux 200 0 (n + 1) n.

Definition K : list Z := Eval vm_compute in map (fun p => icbrt (p * 2 ^ 96) mod 2 ^ 32) (first_primes 64).

Definition H0_words : list Z := Eval vm_compute in map (fun p => Z.sqrt (p * 2 ^ 64) mod 2 ^ 32) (first_primes 8).

(** The hash state: the eight working variables [a..h]. *)
Record state := mkState { ha : Z; hb : Z; hc : Z; hd : Z; he : Z; hf : Z; hg : Z; hh : Z }.

Definition H0 : state :=
  mkState (nth 0 H0_words 0) (nth 1 H0_words 0) (nth 2 H0_words 0) (nth 3 H0_words 0)
          (nth 4 H0_words 0) (nth 5 H0_words 0) (nth 6 H0_words 0) (nth 7 H0_words 0).

(** ** Padding: [0x80], zeros up to 56 mod 64, the bit length on 8 bytes. *)

Definition pad (m : list Z) : list Z :=
  let len := length m in
  m ++ [128] ++ repeat 0 ((119 - len mod 64) mod 64) ++ be_bytes 8 (8 * Z.of_nat len).

(** ** Message schedule *)

(** [extend n rw]: [rw] holds [W(t-1), W(t-2), ...]; push [n] more words
    [W(t) = ssig1 W(t-2) + W(t-7) + ssig0 W(t-15) + W(t-16)]. *)
Fixpoint extend (n : nat) (rw : list Z) : list Z :=
  match n with
  | O => rw
  | S n' =>
      extend n' (w32 (ssig1 (nth 1 rw 0) + nth 6 rw 0 + ssig0 (nth 14 rw 0) + nth 15 rw 0) :: rw)
  end.

Definition schedule (block : list Z) : list Z := rev (extend 48 (rev (be_words block))).

(** ** Compression *)

Definition round (s : state) (kw : Z * Z) : state :=
  let '(k, w) := kw in
  let t1 := hh s + bsig1 (he s) + ch (he s) (hf s) (hg s) + k + w in
  let t2 := bsig0 (ha s) + maj (ha s) (hb s) (hc s) in
  mkState (w32 (t1 + t2)) (ha s) (hb s) (hc s) (w32 (hd s + t1)) (he s) (hf s) (hg s).

Definition add_state (s t : state) : state :=
  mkState (w32 (ha s + ha t)) (w32 (hb s + hb t)) (w32 (hc s + hc t)) (w32 (hd s + hd t))
          (w32 (he s + he t)) (w32 (hf s + hf t)) (w32 (hg s + hg t)) (w32 (hh s + hh t)).

Definition compress (s : state) (block : list Z) : state :=
  add_state s (fold_left round (combine K (schedule block)) s).

(** The 64-byte blocks of a padded message. *)
Fixpoint blocks (n : nat) (l : list Z) : list (list Z) :=
  match n with
  | O => []
  | S n' => firstn 64 l :: blocks n' (skipn 64 l)
  end.

Definition state_bytes (s : state) : list Z :=
  be_bytes 4 (ha s) ++ be_bytes 4 (hb s) ++ be_bytes 4 (hc s) ++ be_bytes 4 (hd s) ++
  be_bytes 4 (he s) ++ be_bytes 4 (hf s) ++ be_bytes 4 (hg s) ++ be_bytes 4 (hh s).

(** [hashlib.sha256(m).digest()]. *)
Definition sha256 (m : list Z) : list Z :=
  let p := pad m in
  state_bytes (fold_left compress (blocks (length p / 64) p) H0).

(** ** Properties *)

Lemma length_state_bytes (s : state) : length (state_bytes s) = 32%nat.
Proof. unfold state_bytes. now rewrite !length_app, !length_be_bytes. Qed.

Lemma state_bytes_ok (s : state) : bytes_ok (state_bytes s).
Proof. unfold state_bytes. repeat apply bytes_ok_app; apply be_bytes_ok. Qed.

(** every digest is 32 bytes, each in [0, 256). *)
Lemma sha256_length (m : list Z) : length (sha256 m) = 32%nat /\ bytes_ok (sha256 m).
Proof. split; [apply length_state_bytes | apply state_bytes_ok]. Qed.

(** The zero padding brings the remainder [r] to 55 or 119. *)
Lemma pad_zeros (r : nat) : (r < 64)%nat ->
  (r + (119 - r) mod 64 = 55 \/ r + (119 - r) mod 64 = 119)%nat.
Proof. intros H. do 64 (destruct r as [|r]; [now (left + right) |]). lia. Qed.

(** The padded message is a whole number of 64-byte blocks. *)
Lemma pad_length (m : list Z) : (length (pad m) mod 64 = 0)%nat.
Proof.
  unfold pad. rewrite !length_app, repeat_length, length_be_bytes. simpl length.
  rewrite (Nat.div_mod_eq (length m) 64) at 1.
  destruct (pad_zeros (length m mod 64)) as [E | E];
    [apply Nat.mod_upper_bound; lia | |].
  - replace (64 * (length m / 64) + length m mod 64 + (1 + ((119 - length m mod 64) mod 64 + 8)))%nat
      with ((length m / 64 + 1) * 64)%nat by lia.
    apply Nat.Div0.mod_mul.
  - replace (64 * (length m / 64) + length m mod 64 + (1 + ((119 - length m mod 64) mod 64 + 8)))%nat
      with ((length m / 64 + 2) * 64)%nat by lia.
    apply Nat.Div0.mod_mul.
Qed.

(** FIPS 180-4 example: the digest of ["abc"]. *)
Example sha256_abc :
  hex (sha256 (utf8_encode "abc"))
  = "ba7816bf8f01cfea414140de5dae2223b00361a396177a9cb410ff61f20015ad"%string.
Proof. vm_compute. reflexivity. Qed.

(** The digest of the empty message. *)
Example sha256_empty :
  hex (sha256 [])
  = "e3b0c44298fc1c149afbf4c8996fb92427ae41e4649b934ca495991b7852b855"%string.
Proof. vm_compute. reflexivity. Qed.

End Sha256.
