(* ===== verification/Hmac.v ===== *)
(** HMAC-SHA256 (RFC 2104) as Python's [hmac.new(key, msg, hashlib.sha256)]
    computes it: a key longer than the 64-byte block is first hashed, the
    key is padded with zero bytes to the block, and the digest is
    [H((K xor opad) ++ H((K xor ipad) ++ msg))]. *)

From Stdlib Require Import String ZArith List Lia.
From S2P Require Import Prelude Bytes Sha256.
Import ListNotations.
Open Scope Z_scope.

Module Hmac.

Definition block_size : nat := 64.
Definition ipad : Z := 0x36.
Definition opad : Z := 0x5c.

(** [key = digest(key) if len(key) > blocksize]; [key.ljust(blocksize, b'\0')]. *)
Definition key_block (k : list Z) : list Z :=
  let k' := if Nat.ltb block_size (length k) then Sha256.sha256 k else k in
  k' ++ repeat 0 (block_size - length k').

Definition hmac_sha256 (k m : list Z) : list Z :=
  let kb := key_block k in
  Sha256.sha256 (xor_bytes kb opad ++ Sha256.sha256 (xor_bytes kb ipad ++ m)).

(** ** Properties *)

(** The padded key is exactly one block, whatever the key's length. *)
Lemma key_block_length (k : list Z) : length (key_block k) = block_size.
Proof.
  unfold key_block. destruct (Nat.ltb block_size (length k)) eqn:E.
  - rewrite length_app, repeat_length, (proj1 (Sha256.sha256_length k)). reflexivity.
  - apply Nat.ltb_ge in E. rewrite length_app, repeat_length. unfold block_size in *. lia.
Qed.

(** The MAC is 32 bytes, each in [0, 256). *)
Lemma hmac_sha256_length (k m : list Z) :
  length (hmac_sha256 k m) = 32%nat /\ bytes_ok (hmac_sha256 k m).
Proof. apply Sha256.sha256_length. Qed.

(** RFC 4231 test case 2: a key shorter than the block. *)
Example hmac_rfc4231_case2 :
  hex (hmac_sha256 (utf8_encode "Jefe") (utf8_encode "what do ya want for nothing?"))
  = "5bdcc146bf60754e6a042426089575c75a003f089d2739839dec58b964ec3843"%string.
Proof. vm_compute. reflexivity. Qed.

(** RFC 4231 test case 6: a 131-byte key, hashed first. *)
Example hmac_rfc4231_case6 :
  hex (hmac_sha256 (repeat 0xaa 131)
         (utf8_encode "Test Using Larger Than Block-Size Key - Hash Key First"))
  = "60e431591ee0b67f0d8a26aacbf5b77f8e0bc6213728c5140546040f0ee37f54"%string.
Proof. vm_compute. reflexivity. Qed.

End Hmac.
