(* ===== verification/Base64.v ===== *)
(** Base64 (RFC 4648, standard alphabet, [=] padding) as
    [base64.b64encode(digest).decode()] computes it in
    [CouchbaseCloud.request], with the decoder that inverts it. *)

From Stdlib Require Import String Ascii ZArith List Lia Bool.
From S2P Require Import Prelude Bytes.
Import ListNotations.
Open Scope Z_scope.

Module Base64.

(** The character of a 6-bit index: [A-Z], [a-z], [0-9], [+], [/]. *)
Definition b64_char (i : Z) : ascii :=
  if i <? 26 then ascii_of_nat (Z.to_nat (65 + i))
  else if i <? 52 then ascii_of_nat (Z.to_nat (71 + i))
  else if i <? 62 then ascii_of_nat (Z.to_nat (i - 4))
  else if i =? 62 then "+"%char else "/"%char.

Definition pad_char : ascii := "="%char.

(** Three bytes [a b c] make the 24-bit group [n], cut in four 6-bit
    indices; a final group of one or two bytes is completed with zero bits
    and padded with [=]. *)
Fixpoint b64encode (l : list Z) : string :=
  match l with
  | a :: b :: c :: rest =>
      let n := a * 65536 + b * 256 + c in
      String (b64_char (n / 262144)) (String (b64_char (n / 4096 mod 64))
        (String (b64_char (n / 64 mod 64)) (String (b64_char (n mod 64)) (b64encode rest))))
  | [a; b] =>
      let n := a * 65536 + b * 256 in
      String (b64_char (n / 262144)) (String (b64_char (n / 4096 mod 64))
        (String (b64_char (n / 64 mod 64)) (String pad_char EmptyString)))
  | [a] =>
      let n := a * 65536 in
      String (b64_char (n / 262144)) (String (b64_char (n / 4096 mod 64))
        (String pad_char (String pad_char EmptyString)))
  | [] => EmptyString
  end.

(** The index of a Base64 character. *)
Definition b64_index (c : ascii) : option Z :=
  let n := Z.of_nat (nat_of_ascii c) in
  if (65 <=? n) && (n <=? 90) then Some (n - 65)
  else if (97 <=? n) && (n <=? 122) then Some (n - 71)
  else if (48 <=? n) && (n <=? 57) then Some (n + 4)
  else if n =? 43 then Some 62
  else if n =? 47 then Some 63
  else None.

Definition is_pad (c : ascii) : bool := Ascii.eqb c pad_char.

Fixpoint b64decode (s : string) : option (list Z) :=
  match s with
  | EmptyString => Some []
  | String c1 (String c2 (String c3 (String c4 rest))) =>
      match b64_index c1, b64_index c2, b64_index c3, b64_index c4 with
      | Some i1, Some i2, Some i3, Some i4 =>
          let n := ((i1 * 64 + i2) * 64 + i3) * 64 + i4 in
          match b64decode rest with
          | Some l => Some (n / 65536 :: n / 256 mod 256 :: n mod 256 :: l)
          | None => None
          end
      | Some i1, Some i2, Some i3, None =>
          if is_pad c4 && String.eqb rest "" then
            let n := (i1 * 64 + i2) * 64 + i3 in Some [n / 1024; n / 4 mod 256]
          else None
      | Some i1, Some i2, None, None =>
          if is_pad c3 && is_pad c4 && String.eqb rest "" then
            Some [(i1 * 64 + i2) / 16]
          else None
      | _, _, _, _ => None
      end
  | _ => None
  end.

(** [":" in s]. *)
Fixpoint has_colon (s : string) : bool :=
  match s with
  | EmptyString => false
  | String c s' => Ascii.eqb ":"%char c || has_colon s'
  end.

(** ** Properties *)

Lemma b64_index_char (i : Z) : 0 <= i < 64 -> b64_index (b64_char i) = Some i.
Proof.
  intros H. assert (Hi : i = Z.of_nat (Z.to_nat i)) by lia.
  remember (Z.to_nat i) as k eqn:Ek. subst i. clear Ek.
  do 64 (destruct k as [|k]; [reflexivity |]). lia.
Qed.

Lemma b64_index_pad : b64_index pad_char = None.
Proof. reflexivity. Qed.

(** The four indices of a group are 6-bit numbers. *)
Lemma div_mod64_range (n d : Z) : 0 < d -> 0 <= n / d mod 64 < 64.
Proof. intros. apply Z.mod_pos_bound. lia. Qed.

(** Putting the 6-bit field [x/d mod 64] back under the higher bits
    [x/(64d)] gives [x/d]. *)
Lemma recombine64 (x d : Z) : 0 < d -> 0 <= x -> x / (d * 64) * 64 + x / d mod 64 = x / d.
Proof.
  intros Hd Hx. rewrite <- Z.div_div by lia.
  rewrite (Z.div_mod (x / d) 64) at 3 by lia. lia.
Qed.

Lemma recombine_group (n : Z) : 0 <= n ->
  ((n / 262144 * 64 + n / 4096 mod 64) * 64 + n / 64 mod 64) * 64 + n mod 64 = n
  /\ (n / 262144 * 64 + n / 4096 mod 64) * 64 + n / 64 mod 64 = n / 64
  /\ n / 262144 * 64 + n / 4096 mod 64 = n / 4096.
Proof.
  intros Hn.
  assert (E1 : n / 262144 * 64 + n / 4096 mod 64 = n / 4096)
    by (apply (recombine64 n 4096); lia).
  assert (E2 : n / 4096 * 64 + n / 64 mod 64 = n / 64)
    by (apply (recombine64 n 64); lia).
  assert (E3 : n / 64 * 64 + n mod 64 = n)
    by (pose proof (Z.div_mod n 64); lia).
  rewrite E1, E2, E3. auto.
Qed.

(** Split the byte-range hypotheses of a list given by its elements. *)
Local Ltac inv_bytes :=
  unfold bytes_ok, is_byte in *;
  repeat match goal with H : Forall _ (_ :: _) |- _ => inv H end.

(** Decoding the encoding of bytes gives the bytes back. *)
Theorem b64decode_encode (l : list Z) : bytes_ok l -> b64decode (b64encode l) = Some l.
Proof.
  intros Hl.
  induction l as [[|a [|b [|c rest]]] IH] using (well_founded_induction
    (Wf_nat.well_founded_ltof _ (@length Z))); [reflexivity | | |].
  - inv_bytes. cbn [b64encode b64decode].
    rewrite !b64_index_char by zlia. rewrite !b64_index_pad. cbn.
    destruct (recombine_group (a * 65536)) as (_ & _ & ->); [lia |].
    f_equal. f_equal. zlia.
  - inv_bytes. cbn [b64encode b64decode].
    rewrite !b64_index_char by zlia. rewrite !b64_index_pad. cbn.
    destruct (recombine_group (a * 65536 + b * 256)) as (_ & -> & _); [lia |].
    f_equal. f_equal; [| f_equal]; zlia.
  - inv_bytes. cbn [b64encode b64decode].
    rewrite !b64_index_char by zlia.
    rewrite IH by (unfold ltof; simpl; lia || assumption).
    destruct (recombine_group (a * 65536 + b * 256 + c)) as (-> & _ & _); [lia |].
    f_equal. f_equal; [| f_equal; [| f_equal]]; zlia.
Qed.

(** The encoding has four characters per started group of three bytes. *)
Lemma b64encode_length (l : list Z) :
  String.length (b64encode l) = (4 * ((length l + 2) / 3))%nat.
Proof.
  induction l as [[|a [|b [|c rest]]] IH] using (well_founded_induction
    (Wf_nat.well_founded_ltof _ (@length Z))); try reflexivity.
  cbn [b64encode String.length length]. rewrite IH by (unfold ltof; simpl; lia).
  replace (S (S (S (length rest))) + 2)%nat with ((length rest + 2) + 1 * 3)%nat by lia.
  rewrite Nat.div_add by lia. lia.
Qed.

(** No Base64 character of an index below 64 is a colon. *)
Lemma b64_char_not_colon (i : Z) : 0 <= i < 64 -> Ascii.eqb ":"%char (b64_char i) = false.
Proof.
  intros H. assert (Hi : i = Z.of_nat (Z.to_nat i)) by lia.
  remember (Z.to_nat i) as k eqn:Ek. subst i. clear Ek.
  do 64 (destruct k as [|k]; [reflexivity |]). lia.
Qed.

(** The encoding of bytes has no colon. *)
Lemma b64encode_no_colon (l : list Z) : bytes_ok l -> has_colon (b64encode l) = false.
Proof.
  intros Hl.
  induction l as [[|a [|b [|c rest]]] IH] using (well_founded_induction
    (Wf_nat.well_founded_ltof _ (@length Z))); [reflexivity | | |];
    inv_bytes; cbn [b64encode has_colon];
    rewrite !b64_char_not_colon by zlia; [reflexivity | reflexivity |].
  apply IH; [unfold ltof; simpl; lia | assumption].
Qed.

End Base64.

(** The round trip on the four bytes [de ad be ef]. *)
Lemma b64decode_encode_witness :
  bytes_ok [222; 173; 190; 239] /\
  Base64.b64decode (Base64.b64encode [222; 173; 190; 239]) = Some [222; 173; 190; 239].
Proof.
  assert (H : bytes_ok [222; 173; 190; 239]) by (repeat constructor; unfold is_byte; lia).
  split; [exact H | exact (Base64.b64decode_encode _ H)].
Defined.
