(* ===== verification/Effects.v ===== *)
(** The effects of the client: HTTP requests and responses, the remote
    control plane as an interface ([ControlPlane]), the state of a run
    ([World]) and the exception-and-state monad [M] in which the Python
    functions are written.  Two reasoning tools over [M] are shared by the
    components: [stable R m] (every run of [m] relates its start and end
    worlds by the preorder [R]), [grows f n m] (a run of [m] raises the
    measure [f] of the world by at most [n]: requests sent, time slept),
    and [ok_wp m Q w] (from [w], [m] returns normally with a value and a
    world satisfying [Q]). *)

From Stdlib Require Import String ZArith List Lia RelationClasses.
From S2P Require Import Prelude PyData.
Import ListNotations.
Open Scope pystr_scope.

(** ** HTTP *)

(** The three methods [requests] is called with. *)
Inductive Verb : Type := GET | POST | DELETE.

Definition verb_name (v : Verb) : string :=
  match v with GET => "GET" | POST => "POST" | DELETE => "DELETE" end.

(** A request as [requests.get/post/delete] sends it: the method, the URL
    [f"{self.url}{endpoint}"], the headers, and the [json=] body (POST
    only). *)
Record HttpRequest : Type := mkRequest {
  rq_verb : Verb;
  rq_url : string;
  rq_headers : list (string * string);
  rq_json : option PyVal
}.

(** A response: its status code and what [res.json()] decodes its body to
    ([None]: the body is not JSON). *)
Record Response : Type := mkResponse {
  status_code : Z;
  body : option PyVal
}.

(** [res.json()]. *)
Definition res_json (r : Response) : Result PyVal :=
  match body r with
  | Some v => Ok v
  | None => Raise JSONDecodeError
  end.

(** The remote control plane: given its state and a request, its next
    state and the response, or [None] when [requests] raises (connection
    refused, invalid URL, ...). *)
Class ControlPlane (S : Type) := serve : S -> HttpRequest -> S * option Response.

(** ** The state of a run *)

Record World (S : Type) : Type := mkWorld {
  w_srv : S;                      (** the control plane *)
  w_log : list HttpRequest;       (** every request sent, in order *)
  w_out : list string;            (** every [print], in order *)
  w_clock : Z                     (** epoch time in milliseconds *)
}.
Arguments mkWorld {S}.
Arguments w_srv {S}. Arguments w_log {S}. Arguments w_out {S}. Arguments w_clock {S}.

Definition M (S A : Type) : Type := World S -> World S * Result A.

Section Monad.
Context {S : Type} `{ControlPlane S}.

Definition ret {A} (a : A) : M S A := fun w => (w, Ok a).

Definition bind {A B} (m : M S A) (k : A -> M S B) : M S B :=
  fun w => match m w with
           | (w', Ok a) => k a w'
           | (w', Raise e) => (w', Raise e)
           end.

Definition raise {A} (e : PyExc) : M S A := fun w => (w, Raise e).

(** A pure computation that may raise. *)
Definition lift {A} (r : Result A) : M S A := fun w => (w, r).

(** [try: m except KeyError: h]. *)
Definition catch_keyerror {A} (m : M S A) (h : M S A) : M S A :=
  fun w => match m w with
           | (w', Raise (KeyError _)) => h w'
           | r => r
           end.

Definition add_out (w : World S) (s : string) : World S :=
  mkWorld (w_srv w) (w_log w) (w_out w ++ [s]) (w_clock w).

Definition print (s : string) : M S unit := fun w => (add_out w s, Ok tt).

(** [int(datetime.datetime.now().timestamp() * 1000)]. *)
Definition now_ms : M S Z := fun w => (w, Ok (w_clock w)).

(** [time.sleep(secs)]. *)
Definition sleep (secs : Z) : M S unit :=
  fun w => (mkWorld (w_srv w) (w_log w) (w_out w) (w_clock w + secs * 1000)%Z, Ok tt).

(** The world after [r] was sent and the control plane moved to [s']. *)
Definition sent (w : World S) (s' : S) (r : HttpRequest) : World S :=
  mkWorld s' (w_log w ++ [r]) (w_out w) (w_clock w).

(** Send one request: it is logged, and the control plane answers. *)
Definition http (r : HttpRequest) : M S Response :=
  fun w => let '(s', o) := serve (w_srv w) r in
           let w' := sent w s' r in
           match o with
           | Some resp => (w', Ok resp)
           | None => (w', Raise RequestException)
           end.

(** [exit()]: raise [SystemExit] with no code. *)
Definition exit {A} : M S A := raise (SystemExit PNone).

End Monad.

Declare Scope pym_scope.
Delimit Scope pym_scope with pym.
Notation "x <- m ;; k" := (bind m (fun x => k))
  (at level 61, m at next level, right associativity) : pym_scope.
Notation "' p <- m ;; k" := (bind m (fun x => match x with p => k end))
  (at level 61, p pattern, m at next level, right associativity) : pym_scope.
Notation "m ;; k" := (bind m (fun _ => k))
  (at level 61, right associativity) : pym_scope.

(** A scripted control plane: it answers each request with the next
    response of its script, and refuses the connection when the script is
    exhausted.  The concrete runs of [Scenarios] use it. *)
#[export] Instance script_plane : ControlPlane (list Response) :=
  fun s _ => match s with
             | r :: rest => (rest, Some r)
             | [] => ([], None)
             end.

(** The exit status of the Python process whose [main] ended with [r]. *)
Definition exit_status (r : Result unit) : Z :=
  match r with
  | Ok _ => 0
  | Raise (SystemExit PNone) => 0
  | Raise (SystemExit (PInt n)) => n
  | Raise _ => 1
  end.

(** ** Stable relations

    [stable R m]: every run of [m] relates its start world to its end
    world by [R].  For a preorder [R] stability is closed under [bind],
    so it is proved for a whole program from its primitive steps. *)

Section Stable.
Context {S : Type} `{ControlPlane S}.
Context (R : World S -> World S -> Prop) `{PreOrder _ R}.

Definition stable {A} (m : M S A) : Prop := forall w, R w (fst (m w)).

Lemma stable_ret {A} (a : A) : stable (ret a).
Proof. intros w. simpl. reflexivity. Qed.

Lemma stable_raise {A} (e : PyExc) : stable (A := A) (raise e).
Proof. intros w. simpl. reflexivity. Qed.

Lemma stable_lift {A} (r : Result A) : stable (lift r).
Proof. intros w. simpl. reflexivity. Qed.

Lemma stable_now : stable now_ms.
Proof. intros w. simpl. reflexivity. Qed.

Lemma stable_bind {A B} (m : M S A) (k : A -> M S B) :
  stable m -> (forall a, stable (k a)) -> stable (bind m k).
Proof.
  intros Hm Hk w. unfold bind. specialize (Hm w).
  destruct (m w) as [w' [a | e]]; simpl in *; [| exact Hm].
  transitivity w'; [exact Hm | apply Hk].
Qed.

Lemma stable_catch {A} (m h : M S A) : stable m -> stable h -> stable (catch_keyerror m h).
Proof.
  intros Hm Hh w. unfold catch_keyerror. specialize (Hm w).
  destruct (m w) as [w' [a | [] ]]; simpl in *; try exact Hm.
  transitivity w'; [exact Hm | apply Hh].
Qed.

End Stable.

#[export] Hint Resolve stable_ret stable_raise stable_lift stable_now stable_bind stable_catch : pyrun.

(** [stable_tac]: split a program along its [bind], [catch_keyerror], [if]
    and [match] and close the primitive steps with [pyrun] and the
    hypotheses. *)
Ltac stable_tac :=
  repeat match goal with
  | |- stable ?R (bind _ _) => apply (@stable_bind _ R _); [| intros ?]
  | |- stable ?R (catch_keyerror _ _) => apply (@stable_catch _ R _)
  | |- stable _ (if ?b then _ else _) => destruct b
  | |- stable _ (match ?x with _ => _ end) => destruct x
  | |- stable ?R exit => apply (@stable_raise _ R _)
  | |- stable ?R (ret _) => apply (@stable_ret _ R _)
  | |- stable ?R (raise _) => apply (@stable_raise _ R _)
  | |- stable ?R (lift _) => apply (@stable_lift _ R _)
  | |- stable ?R now_ms => apply (@stable_now _ R _)
  | |- stable _ _ => solve [eauto with pyrun]
  | |- PreOrder _ => typeclasses eauto
  end.

(** ** Bounded growth of a measure

    [grows f n m]: a run of [m] raises the measure [f] of the world by at
    most [n].  With [f] the number of requests sent it bounds the traffic
    of a program; with [f] the clock it bounds its waiting time. *)

Section Grows.
Context {S : Type} `{ControlPlane S}.
Context (f : World S -> Z).

Definition grows {A} (n : Z) (m : M S A) : Prop := forall w, (f (fst (m w)) <= f w + n)%Z.

Lemma grows_ret {A} (a : A) : grows 0 (ret a).
Proof. intros w. simpl. lia. Qed.

Lemma grows_raise {A} (e : PyExc) : grows 0 (A := A) (raise e).
Proof. intros w. simpl. lia. Qed.

Lemma grows_lift {A} (r : Result A) : grows 0 (lift r).
Proof. intros w. simpl. lia. Qed.

Lemma grows_now : grows 0 now_ms.
Proof. intros w. simpl. lia. Qed.

(** The bound of a sequence is the sum of the bounds, when the first
    bound is not negative (a raise stops after the first part). *)
Lemma grows_bind {A B} (n k N : Z) (m : M S A) (g : A -> M S B) :
  grows n m -> (forall a, grows k (g a)) -> (0 <= k)%Z -> (n + k <= N)%Z -> grows N (bind m g).
Proof.
  intros Hm Hg Hk HN w. unfold bind. specialize (Hm w).
  destruct (m w) as [w' [a | e]]; simpl in *; [| lia].
  specialize (Hg a w'). lia.
Qed.

Lemma grows_catch {A} (n k N : Z) (m h : M S A) :
  grows n m -> grows k h -> (0 <= k)%Z -> (n + k <= N)%Z -> grows N (catch_keyerror m h).
Proof.
  intros Hm Hh Hk HN w. unfold catch_keyerror. specialize (Hm w).
  destruct (m w) as [w' [a | [] ]]; simpl in *; try lia.
  specialize (Hh w'). lia.
Qed.

Lemma grows_if {A} (n1 n2 : Z) (b : bool) (m1 m2 : M S A) :
  grows n1 m1 -> grows n2 m2 -> grows (Z.max n1 n2) (if b then m1 else m2).
Proof. intros H1 H2 w. destruct b; [specialize (H1 w) | specialize (H2 w)]; lia. Qed.

Lemma grows_weaken {A} (n N : Z) (m : M S A) : grows n m -> (n <= N)%Z -> grows N m.
Proof. intros Hm HN w. specialize (Hm w). lia. Qed.

Lemma grows_seq {A B} (n k : Z) (m : M S A) (g : A -> M S B) :
  grows n m -> (forall a, grows k (g a)) -> (0 <= k)%Z -> grows (n + k) (bind m g).
Proof. intros. eapply grows_bind; eauto; lia. Qed.

Lemma grows_try {A} (n k : Z) (m h : M S A) :
  grows n m -> grows k h -> (0 <= k)%Z -> grows (n + k) (catch_keyerror m h).
Proof. intros. eapply grows_catch; eauto; lia. Qed.

End Grows.

(** The two measures. *)
Definition sent_count {S} (w : World S) : Z := Z.of_nat (length (w_log w)).
Definition clock {S} (w : World S) : Z := w_clock w.

Section Measures.
Context {S : Type} `{ControlPlane S}.

Lemma sent_print (s : string) : grows (@sent_count S) 0 (print s).
Proof. intros w. unfold sent_count. simpl. lia. Qed.

Lemma sent_sleep (secs : Z) : grows (@sent_count S) 0 (sleep secs).
Proof. intros w. unfold sent_count. simpl. lia. Qed.

Lemma sent_http (r : HttpRequest) : grows (@sent_count S) 1 (http r).
Proof.
  intros w. unfold sent_count, http. destruct (serve (w_srv w) r) as [s' [resp |]];
    simpl; rewrite length_app; simpl; lia.
Qed.

Lemma clock_print (s : string) : grows (@clock S) 0 (print s).
Proof. intros w. unfold clock. simpl. lia. Qed.

Lemma clock_sleep (secs : Z) : grows (@clock S) (secs * 1000) (sleep secs).
Proof. intros w. unfold clock. simpl. lia. Qed.

Lemma clock_http (r : HttpRequest) : grows (@clock S) 0 (http r).
Proof. intros w. unfold clock, http. destruct (serve (w_srv w) r) as [s' [resp |]]; simpl; lia. Qed.

End Measures.

(** [grows_tac]: split a program along its [bind], [catch_keyerror], [if]
    and [match], close the primitive steps with the hints of [pyrun], and
    the arithmetic with [lia]. *)
Ltac grows_split :=
  repeat match goal with
  | |- grows _ _ (bind _ _) => eapply grows_seq; [| intros ? |]
  | |- grows _ _ (catch_keyerror _ _) => eapply grows_try
  | |- grows _ _ (if _ then _ else _) => eapply grows_if
  | |- grows _ _ (match ?x with _ => _ end) => destruct x
  | |- grows _ _ (ret _) => apply grows_ret
  | |- grows _ _ (raise _) => apply grows_raise
  | |- grows _ _ exit => apply grows_raise
  | |- grows _ _ (lift _) => apply grows_lift
  | |- grows _ _ now_ms => apply grows_now
  | |- grows _ _ _ => solve [eauto with pyrun]
  | |- (_ <= _)%Z => lia
  end.

Ltac grows_tac := eapply grows_weaken; [grows_split | lia].

#[export] Hint Resolve sent_print sent_sleep sent_http clock_print clock_sleep clock_http : pyrun.

(** ** The exceptions a computation can raise

    [raises_only P m]: every run of [m] that raises, raises an exception
    satisfying [P]. *)

Section RaisesOnly.
Context {S : Type} `{ControlPlane S}.
Context (P : PyExc -> Prop).

Definition raises_only {A} (m : M S A) : Prop :=
  forall w, match snd (m w) with Raise e => P e | Ok _ => True end.

Lemma ro_ret {A} (a : A) : raises_only (ret a).
Proof. easy. Qed.

Lemma ro_raise {A} (e : PyExc) : P e -> raises_only (A := A) (raise e).
Proof. easy. Qed.

Lemma ro_lift {A} (r : Result A) : (forall e, r = Raise e -> P e) -> raises_only (lift r).
Proof. intros Hr w. destruct r as [a | e]; [exact I | now apply Hr]. Qed.

Lemma ro_now : raises_only now_ms.
Proof. easy. Qed.

Lemma ro_print (s : string) : raises_only (print s).
Proof. easy. Qed.

Lemma ro_sleep (secs : Z) : raises_only (sleep secs).
Proof. easy. Qed.

Lemma ro_http (r : HttpRequest) : P RequestException -> raises_only (http r).
Proof. intros HP w. unfold http. destruct (serve (w_srv w) r) as [s' [resp |]]; easy. Qed.

Lemma ro_bind {A B} (m : M S A) (k : A -> M S B) :
  raises_only m -> (forall a, raises_only (k a)) -> raises_only (bind m k).
Proof.
  intros Hm Hk w. unfold bind. specialize (Hm w).
  destruct (m w) as [w' [a | e]]; [apply Hk | exact Hm].
Qed.

Lemma ro_catch {A} (m h : M S A) : raises_only m -> raises_only h -> raises_only (catch_keyerror m h).
Proof.
  intros Hm Hh w. unfold catch_keyerror. specialize (Hm w).
  destruct (m w) as [w' [a | [] ]]; try exact Hm; apply Hh.
Qed.

End RaisesOnly.

#[export] Hint Resolve ro_ret ro_now ro_print ro_sleep : pyrun.

(** [ro_tac]: split a computation into its operations. *)
Ltac ro_tac :=
  repeat match goal with
  | |- raises_only ?P (bind _ _) => apply (ro_bind P); [| intros ?]
  | |- raises_only ?P (catch_keyerror _ _) => apply (ro_catch P)
  | |- raises_only _ (if ?b then _ else _) => destruct b
  | |- raises_only _ (match ?x with _ => _ end) => destruct x
  | |- raises_only ?P exit => apply (ro_raise P)
  | |- raises_only ?P (raise _) => apply (ro_raise P)
  | |- raises_only _ _ => solve [eauto with pyrun]
  end.

(** ** Reachable states of the control plane

    The states a control plane reaches from [s0] by answering requests,
    and the preorder on worlds "every state reachable before is
    reachable after": a run changes the control plane only by sending
    it requests. *)

Inductive reachable {S} `{ControlPlane S} (s0 : S) : S -> Prop :=
| reach_refl : reachable s0 s0
| reach_step s req s' o : reachable s0 s -> serve s req = (s', o) -> reachable s0 s'.

Definition srv_reach {S} `{ControlPlane S} (w w' : World S) : Prop :=
  forall s0, reachable s0 (w_srv w) -> reachable s0 (w_srv w').

#[export] Instance srv_reach_preorder {S} `{ControlPlane S} : PreOrder (@srv_reach S _).
Proof. split; [intros w s0 Hs; exact Hs | intros w1 w2 w3 H12 H23 s0 Hs; auto]. Qed.

Section Reach.
Context {S : Type} `{ControlPlane S}.

Lemma srv_reach_print (s : string) : stable srv_reach (print s).
Proof. intros w s0 Hs. exact Hs. Qed.

Lemma srv_reach_sleep (secs : Z) : stable srv_reach (sleep secs).
Proof. intros w s0 Hs. exact Hs. Qed.

Lemma srv_reach_http (r : HttpRequest) : stable srv_reach (http r).
Proof.
  intros w s0 Hs. unfold http. destruct (serve (w_srv w) r) as [s' o] eqn:E.
  destruct o; eapply reach_step; eauto.
Qed.

End Reach.

#[export] Hint Resolve srv_reach_print srv_reach_sleep srv_reach_http : pyrun.

(** ** Normal termination

    [ok_wp m Q w]: run from [w], [m] returns normally, and its value and
    final world satisfy [Q].  Its rules compute the run one operation at
    a time, so that a run against a stateful control plane can be
    followed with symbolic data. *)

Section OkWp.
Context {S : Type} `{ControlPlane S}.

Definition ok_wp {A} (m : M S A) (Q : A -> World S -> Prop) (w : World S) : Prop :=
  match m w with
  | (w', Ok a) => Q a w'
  | (_, Raise _) => False
  end.

Lemma ok_wp_ret {A} (a : A) (Q : A -> World S -> Prop) w : Q a w -> ok_wp (ret a) Q w.
Proof. easy. Qed.

Lemma ok_wp_lift {A} (a : A) (Q : A -> World S -> Prop) w : Q a w -> ok_wp (lift (Ok a)) Q w.
Proof. easy. Qed.

Lemma ok_wp_print (s : string) (Q : unit -> World S -> Prop) w :
  Q tt (add_out w s) -> ok_wp (print s) Q w.
Proof. easy. Qed.

Lemma ok_wp_sleep (secs : Z) (Q : unit -> World S -> Prop) w :
  Q tt (mkWorld (w_srv w) (w_log w) (w_out w) (w_clock w + secs * 1000)%Z) -> ok_wp (sleep secs) Q w.
Proof. easy. Qed.

Lemma ok_wp_bind {A B} (m : M S A) (k : A -> M S B) (Q : B -> World S -> Prop) w :
  ok_wp m (fun a w' => ok_wp (k a) Q w') w -> ok_wp (bind m k) Q w.
Proof. unfold ok_wp, bind. now destruct (m w) as [w' [a | e]]. Qed.

Lemma ok_wp_catch {A} (m h : M S A) (Q : A -> World S -> Prop) w :
  ok_wp m Q w -> ok_wp (catch_keyerror m h) Q w.
Proof. unfold ok_wp, catch_keyerror. now destruct (m w) as [w' [a | e]]. Qed.

Lemma ok_wp_consequence {A} (m : M S A) (Q Q' : A -> World S -> Prop) w :
  ok_wp m Q w -> (forall a w', Q a w' -> Q' a w') -> ok_wp m Q' w.
Proof. unfold ok_wp. destruct (m w) as [w' [a | e]]; auto. Qed.

(** What [ok_wp] gives about the run. *)
Lemma ok_wp_run {A} (m : M S A) (Q : A -> World S -> Prop) w :
  ok_wp m Q w -> exists a, snd (m w) = Ok a /\ Q a (fst (m w)).
Proof. unfold ok_wp. destruct (m w) as [w' [a | e]]; [intros HQ; exists a; auto | easy]. Qed.

End OkWp.

(** [wp_tac]: compute a run through returns, lifts of normal results,
    prints, sleeps and binds, leaving the calls that need their own
    lemma. *)
Ltac wp_tac :=
  repeat match goal with
    | |- ok_wp (bind _ _) _ _ => apply ok_wp_bind
    | |- ok_wp (ret _) _ _ => apply ok_wp_ret
    | |- ok_wp (lift (Ok _)) _ _ => apply ok_wp_lift
    | |- ok_wp (print _) _ _ => apply ok_wp_print
    | |- ok_wp (sleep _) _ _ => apply ok_wp_sleep
    | |- ok_wp (catch_keyerror _ _) _ _ => apply ok_wp_catch
    | |- ok_wp (lift ?r) _ _ =>
        let r' := eval hnf in r in
        lazymatch r' with Ok _ => change r with r' | _ => fail end
    | |- ok_wp (match ?x with _ => _ end) _ _ =>
        let x' := eval hnf in x in
        lazymatch x' with
        | (_, _) => change x with x'; cbn beta iota
        | true => change x with true; cbn beta iota
        | false => change x with false; cbn beta iota
        | _ => fail
        end
    | |- (fun _ _ => _) _ _ => cbn beta
    end.
