(* ===== verification/Signing.v ===== *)
(** The signed request client, [class CouchbaseCloud] of
    [couchbase_cloud.py]: the signing message, the HMAC-SHA256 signature in
    base64, the two authentication headers, and the dispatch on the method
    string. *)

From Stdlib Require Import String Ascii ZArith List Lia Bool DecimalString.
From S2P Require Import Prelude PyData Bytes Sha256 Hmac Base64 Effects.
Import ListNotations.
Open Scope pystr_scope.
Open Scope pym_scope.

(** The newline character of the f-string ["{method}\n{endpoint}\n{now}"]. *)
Definition nl : string := String (ascii_of_nat 10) EmptyString.

(** [CouchbaseCloud(access_key, secret, url)]: the three attributes as
    they were passed ([os.getenv] gives a [str] or [None]). *)
Record CouchbaseCloud : Type := mkCloud {
  access_key : PyVal;
  secret : PyVal;
  url : PyVal
}.

(** [cbc_api_message = f"{method}\n{endpoint}\n{str(cbc_api_now)}"]. *)
Definition cbc_api_message (method endpoint : string) (now : Z) : string :=
  method +:+ nl +:+ endpoint +:+ nl +:+ py_int_str now.

(** [bytes(x, "utf-8")]: a [str] is encoded; anything else (here [None])
    raises [TypeError]. *)
Definition py_bytes_utf8 (v : PyVal) : Result (list Z) :=
  match v with
  | PStr s => Ok (utf8_encode s)
  | _ => Raise (TypeError "encoding without a string argument")
  end.

(** [base64.b64encode(hmac.new(secret, message, sha256).digest()).decode()]. *)
Definition cbc_api_signature (key : list Z) (message : string) : string :=
  Base64.b64encode (Hmac.hmac_sha256 key (utf8_encode message)).

Definition authorization (akey : PyVal) (signature : string) : string :=
  "Bearer " +:+ py_str akey +:+ ":" +:+ signature.

(** [cbc_api_request_headers]. *)
Definition request_headers (akey : PyVal) (signature : string) (now : Z)
  : list (string * string) :=
  [("Authorization"%string, authorization akey signature);
   ("Couchbase-Timestamp"%string, py_int_str now)].

(** [CouchbaseCloud.request(endpoint, method, data=None)]: a method other
    than GET, POST or DELETE leaves [res] unbound, and [return res]
    raises [UnboundLocalError]. *)
Definition request {S} `{ControlPlane S} (cloud : CouchbaseCloud) (endpoint method : string)
    (data : PyVal) : M S Response :=
  now <- now_ms ;;
  let message := cbc_api_message method endpoint now in
  key <- lift (py_bytes_utf8 (secret cloud)) ;;
  let headers := request_headers (access_key cloud) (cbc_api_signature key message) now in
  let target := py_str (url cloud) +:+ endpoint in
  if String.eqb method "GET" then http (mkRequest GET target headers None)
  else if String.eqb method "POST" then http (mkRequest POST target headers (Some data))
  else if String.eqb method "DELETE" then http (mkRequest DELETE target headers None)
  else raise (UnboundLocalError "res").

(** ** The request a call sends *)

(** The request [request(endpoint, verb_name v, data)] sends at time [now]
    when the secret encodes to [key]. *)
Definition signed_request (cloud : CouchbaseCloud) (endpoint : string) (v : Verb)
    (data : PyVal) (now : Z) (key : list Z) : HttpRequest :=
  mkRequest v (py_str (url cloud) +:+ endpoint)
    (request_headers (access_key cloud)
       (cbc_api_signature key (cbc_api_message (verb_name v) endpoint now)) now)
    (match v with POST => Some data | _ => None end).

(** ** The control plane's authentication check

    What the control plane does with the two headers (specification,
    section 6): it takes the path after its base URL, reads the key and the
    base64 signature after ["Bearer "] (the signature follows the last
    colon), and accepts when the key is the account's and the decoded
    signature is the HMAC-SHA256 of ["METHOD\nPATH\nTIMESTAMP"] under the
    account's secret. *)

Fixpoint strip_prefix (p s : string) : option string :=
  match p, s with
  | EmptyString, _ => Some s
  | String c p', String d s' => if Ascii.eqb c d then strip_prefix p' s' else None
  | String _ _, EmptyString => None
  end.

Fixpoint header_get (name : string) (hs : list (string * string)) : option string :=
  match hs with
  | [] => None
  | (n, v) :: rest => if String.eqb name n then Some v else header_get name rest
  end.

(** Split at the last colon. *)
Fixpoint rsplit_colon (s : string) : option (string * string) :=
  match s with
  | EmptyString => None
  | String c s' =>
      match rsplit_colon s' with
      | Some (a, b) => Some (String c a, b)
      | None => if Ascii.eqb ":"%char c then Some (EmptyString, s') else None
      end
  end.

Definition verify_request (account_key account_secret base : string) (req : HttpRequest) : bool :=
  match strip_prefix base (rq_url req), header_get "Authorization" (rq_headers req),
        header_get "Couchbase-Timestamp" (rq_headers req) with
  | Some path, Some auth, Some ts =>
      match option_map rsplit_colon (strip_prefix "Bearer " auth) with
      | Some (Some (k, sig)) =>
          String.eqb k account_key &&
          match Base64.b64decode sig with
          | Some mac =>
              if list_eq_dec Z.eq_dec mac
                   (Hmac.hmac_sha256 (utf8_encode account_secret)
                      (utf8_encode (verb_name (rq_verb req) +:+ nl +:+ path +:+ nl +:+ ts)))
              then true else false
          | None => false
          end
      | _ => false
      end
  | _, _, _ => false
  end.

Definition verified (account_key account_secret base : string) (req : HttpRequest) : Prop :=
  verify_request account_key account_secret base req = true.

(** ** Lemmas on the check's parsing *)

Lemma strip_prefix_app (p s : string) : strip_prefix p (p +:+ s) = Some s.
Proof.
  induction p as [|c p IH]; [destruct s; reflexivity |].
  simpl. rewrite Ascii.eqb_refl. exact IH.
Qed.

Lemma rsplit_colon_none (s : string) : Base64.has_colon s = false -> rsplit_colon s = None.
Proof.
  induction s as [|c s IH]; simpl; [reflexivity |].
  intros Hc. apply Bool.orb_false_iff in Hc as [Hc Hs]. rewrite IH, Hc by exact Hs. reflexivity.
Qed.

(** The text after the last colon is the signature when it has no colon. *)
Lemma rsplit_colon_app (k sig : string) :
  Base64.has_colon sig = false -> rsplit_colon (k +:+ String ":" sig) = Some (k, sig).
Proof.
  intros Hs. induction k as [|c k IH]; simpl.
  - rewrite rsplit_colon_none by exact Hs. reflexivity.
  - rewrite IH. reflexivity.
Qed.

(** (C26) The signature of a request is the Base64 text of a 32-byte MAC: 44
    characters, none of them a colon, and it decodes back to the MAC. *)
Lemma cbc_api_signature_props (key : list Z) (message : string) :
  String.length (cbc_api_signature key message) = 44%nat /\
  Base64.has_colon (cbc_api_signature key message) = false /\
  Base64.b64decode (cbc_api_signature key message)
  = Some (Hmac.hmac_sha256 key (utf8_encode message)).
Proof.
  destruct (Hmac.hmac_sha256_length key (utf8_encode message)) as [Hl Hok].
  unfold cbc_api_signature. split; [| split].
  - rewrite Base64.b64encode_length, Hl. reflexivity.
  - now apply Base64.b64encode_no_colon.
  - now apply Base64.b64decode_encode.
Qed.

(** The method names are free of newlines. *)
Lemma verb_name_no_nl (v : Verb) : has_char "010" (verb_name v) = false.
Proof. now destruct v. Qed.

(** (C17) The signed message determines the request it signs: two calls
    whose endpoints have no newline sign the same message only when they
    have the same method, the same endpoint and the same timestamp, so
    the MAC of one request does not authenticate another method, path or
    time. *)
Theorem cbc_api_message_injective (v v' : Verb) (endpoint endpoint' : string) (now now' : Z) :
  has_char "010" endpoint = false -> has_char "010" endpoint' = false ->
  cbc_api_message (verb_name v) endpoint now = cbc_api_message (verb_name v') endpoint' now' ->
  v = v' /\ endpoint = endpoint' /\ now = now'.
Proof.
  intros He He' E. unfold cbc_api_message, nl in E. cbn [String.append] in E.
  apply append_sep_inj in E as [Ev E]; [| apply verb_name_no_nl ..].
  apply append_sep_inj in E as [-> Et]; [| assumption ..].
  apply py_int_str_inj in Et. split; [| auto].
  destruct v, v'; easy.
Qed.

Section RequestProps.
Context {S : Type} `{ControlPlane S}.

(** A call with a known method and a [str] secret sends exactly the signed
    request, stamped with the current clock. *)
Lemma request_sends (cloud : CouchbaseCloud) (endpoint : string) (v : Verb) (data : PyVal)
    (w : World S) (sk : string) :
  secret cloud = PStr sk ->
  request cloud endpoint (verb_name v) data w
  = http (signed_request cloud endpoint v data (w_clock w) (utf8_encode sk)) w.
Proof. intros Hs. unfold request, bind, now_ms, lift. simpl. rewrite Hs. destruct v; reflexivity. Qed.

(** The log after [http r] is the log before with [r] appended, whatever
    the control plane answers. *)
Lemma http_log (r : HttpRequest) (w : World S) : w_log (fst (http r w)) = w_log w ++ [r].
Proof. unfold http. destruct (serve (w_srv w) r) as [s' [resp |]]; reflexivity. Qed.

(** A signed call the control plane answers with [r]. *)
Lemma request_answer (cloud : CouchbaseCloud) (endpoint method : string) (v : Verb) (data : PyVal)
    (w : World S) (sk : string) (s' : S) (r : Response) :
  secret cloud = PStr sk ->
  serve (w_srv w) (signed_request cloud endpoint v data (w_clock w) (utf8_encode sk)) = (s', Some r) ->
  method = verb_name v ->
  request cloud endpoint method data w
  = (sent w s' (signed_request cloud endpoint v data (w_clock w) (utf8_encode sk)), Ok r).
Proof. intros Hs Hr ->. rewrite (request_sends _ _ _ _ _ sk Hs). unfold http. now rewrite Hr. Qed.

(** The control plane accepts the signed request of an account. *)
(** A call answered normally returns the answer. *)
Lemma ok_wp_request (cloud : CouchbaseCloud) (endpoint : string) (v : Verb) (data : PyVal)
    (w : World S) (sk : string) (s' : S) (r : Response) (Q : Response -> World S -> Prop) :
  secret cloud = PStr sk ->
  serve (w_srv w) (signed_request cloud endpoint v data (w_clock w) (utf8_encode sk)) = (s', Some r) ->
  Q r (sent w s' (signed_request cloud endpoint v data (w_clock w) (utf8_encode sk))) ->
  ok_wp (request cloud endpoint (verb_name v) data) Q w.
Proof. intros Hs Hr HQ. unfold ok_wp. now rewrite (request_answer cloud endpoint _ v data w sk s' r Hs Hr). Qed.

Lemma signed_request_verifies (cloud : CouchbaseCloud) (endpoint : string) (v : Verb)
    (data : PyVal) (now : Z) (k sk base : string) :
  access_key cloud = PStr k -> url cloud = PStr base ->
  verify_request k sk base (signed_request cloud endpoint v data now (utf8_encode sk)) = true.
Proof.
  intros Hk Hu.
  destruct (cbc_api_signature_props (utf8_encode sk) (cbc_api_message (verb_name v) endpoint now))
    as (_ & Hcolon & Hdec).
  unfold verify_request, signed_request, request_headers, authorization.
  cbn [rq_url rq_headers rq_verb header_get String.eqb Ascii.eqb Bool.eqb andb].
  rewrite Hk, Hu. cbn [py_str].
  rewrite strip_prefix_app.
  cbn [strip_prefix String.append Ascii.eqb Bool.eqb andb option_map].
  rewrite rsplit_colon_app by exact Hcolon.
  rewrite String.eqb_refl, Hdec. cbn [andb].
  destruct (list_eq_dec Z.eq_dec _ _) as [_ | Hne]; [reflexivity | exfalso; apply Hne].
  apply (f_equal (Hmac.hmac_sha256 _)), (f_equal utf8_encode). reflexivity.
Qed.

(** (C12) Every request [request] sends carries the account's key and a valid
    signature of its method, path and timestamp: the control plane's
    check accepts it. *)
Theorem request_authenticated (cloud : CouchbaseCloud) (endpoint : string) (v : Verb)
    (data : PyVal) (w : World S) (k sk base : string) :
  access_key cloud = PStr k -> secret cloud = PStr sk -> url cloud = PStr base ->
  exists req, w_log (fst (request cloud endpoint (verb_name v) data w)) = w_log w ++ [req]
              /\ rq_verb req = v /\ verify_request k sk base req = true.
Proof.
  intros Hk Hs Hu. rewrite (request_sends _ _ _ _ _ sk Hs).
  eexists. split; [apply http_log | split; [reflexivity |]].
  now apply signed_request_verifies.
Qed.

(** (C27) A method other than GET, POST and DELETE sends nothing and raises
    [UnboundLocalError] at [return res]. *)
Lemma request_unknown_method (cloud : CouchbaseCloud) (endpoint method : string) (data : PyVal)
    (w : World S) (sk : string) :
  secret cloud = PStr sk -> method <> "GET"%string -> method <> "POST"%string ->
  method <> "DELETE"%string ->
  request cloud endpoint method data w = (w, Raise (UnboundLocalError "res")).
Proof.
  intros Hs Hg Hp Hd. unfold request, bind, now_ms, lift. simpl. rewrite Hs.
  apply String.eqb_neq in Hg, Hp, Hd. now rewrite Hg, Hp, Hd.
Qed.

Lemma request_log_verified_verb (cloud : CouchbaseCloud) (endpoint : string) (v : Verb)
    (data : PyVal) (w : World S) (k sk base : string) :
  access_key cloud = PStr k -> secret cloud = PStr sk -> url cloud = PStr base ->
  Forall (verified k sk base) (w_log w) ->
  Forall (verified k sk base) (w_log (fst (request cloud endpoint (verb_name v) data w))).
Proof.
  intros Hk Hs Hu Hw.
  destruct (request_authenticated cloud endpoint v data w k sk base Hk Hs Hu) as (req & -> & _ & Hv).
  apply Forall_app. split; [exact Hw | constructor; [exact Hv | constructor]].
Qed.

(** Whatever the method, a call of an account's client only adds requests
    the control plane accepts. *)
Lemma request_log_verified (cloud : CouchbaseCloud) (endpoint method : string) (data : PyVal)
    (w : World S) (k sk base : string) :
  access_key cloud = PStr k -> secret cloud = PStr sk -> url cloud = PStr base ->
  Forall (verified k sk base) (w_log w) ->
  Forall (verified k sk base) (w_log (fst (request cloud endpoint method data w))).
Proof.
  intros Hk Hs Hu Hw.
  destruct (String.eqb_spec method "GET") as [-> | Eg];
    [now apply (request_log_verified_verb _ _ GET) |].
  destruct (String.eqb_spec method "POST") as [-> | Ep];
    [now apply (request_log_verified_verb _ _ POST) |].
  destruct (String.eqb_spec method "DELETE") as [-> | Ed];
    [now apply (request_log_verified_verb _ _ DELETE) |].
  rewrite (request_unknown_method cloud endpoint method data w sk Hs Eg Ep Ed). exact Hw.
Qed.

(** (C28) Without a [str] secret, [bytes(self.secret, "utf-8")] raises
    [TypeError] before anything is sent. *)
Lemma request_secret_unset (cloud : CouchbaseCloud) (endpoint method : string) (data : PyVal)
    (w : World S) :
  secret cloud = PNone ->
  request cloud endpoint method data w = (w, Raise (TypeError "encoding without a string argument")).
Proof. intros Hs. unfold request, bind, now_ms, lift. simpl. now rewrite Hs. Qed.



(** One call sends at most one request and does not move the clock. *)
Lemma request_sent (cloud : CouchbaseCloud) (endpoint method : string) (data : PyVal) :
  grows (@sent_count S) 1 (request cloud endpoint method data).
Proof. unfold request. grows_tac. Qed.

Lemma request_clock (cloud : CouchbaseCloud) (endpoint method : string) (data : PyVal) :
  grows (@clock S) 0 (request cloud endpoint method data).
Proof. unfold request. grows_tac. Qed.

End RequestProps.

(** A request signed by another key than the account's is rejected,
    whatever its URL. *)
Lemma signed_request_wrong_key (cloud : CouchbaseCloud) (endpoint : string) (v : Verb)
    (data : PyVal) (now : Z) (key : list Z) (k account_key sk base : string) :
  access_key cloud = PStr k -> k <> account_key ->
  verify_request account_key sk base (signed_request cloud endpoint v data now key) = false.
Proof.
  intros Hk Hne.
  destruct (cbc_api_signature_props key (cbc_api_message (verb_name v) endpoint now)) as (_ & Hcolon & _).
  unfold verify_request, signed_request, request_headers, authorization.
  cbn [rq_url rq_headers rq_verb header_get String.eqb Ascii.eqb Bool.eqb andb].
  destruct (strip_prefix base _) as [path |]; [| reflexivity].
  rewrite Hk. cbn [py_str strip_prefix String.append Ascii.eqb Bool.eqb andb option_map].
  rewrite rsplit_colon_app by exact Hcolon.
  now rewrite (proj2 (String.eqb_neq _ _) Hne).
Qed.

(** [request] changes the control plane only by the request it sends. *)
Lemma request_reach {S} `{ControlPlane S} (cloud : CouchbaseCloud) (endpoint method : string)
    (data : PyVal) : stable srv_reach (request cloud endpoint method data).
Proof. unfold request. stable_tac. Qed.

#[export] Hint Resolve request_sent request_clock : pyrun.
#[export] Hint Resolve request_reach : pyrun.

(** ** Witnesses *)

Definition demo_cloud : CouchbaseCloud :=
  mkCloud (PStr "AK") (PStr "SK") (PStr "https://cloudapi.cloud.couchbase.com").

Definition demo_world : World (list Response) := mkWorld [] [] [] 1700000000000%Z.

Lemma request_authenticated_witness :
  exists req, w_log (fst (request demo_cloud "/v2/clouds" (verb_name GET) PNone demo_world))
              = w_log demo_world ++ [req]
              /\ rq_verb req = GET
              /\ verify_request "AK" "SK" "https://cloudapi.cloud.couchbase.com" req = true.
Proof.
  exact (request_authenticated demo_cloud "/v2/clouds" GET PNone demo_world "AK" "SK"
           "https://cloudapi.cloud.couchbase.com" eq_refl eq_refl eq_refl).
Defined.

Lemma request_unknown_method_witness :
  request demo_cloud "/v2/clusters" "PUT" PNone demo_world
  = (demo_world, Raise (UnboundLocalError "res")).
Proof.
  apply (request_unknown_method demo_cloud "/v2/clusters" "PUT" PNone demo_world "SK" eq_refl);
    discriminate.
Defined.

Lemma request_secret_unset_witness :
  request (mkCloud (PStr "AK") PNone (PStr "https://cloudapi.cloud.couchbase.com"))
    "/v2/clouds" "GET" PNone demo_world
  = (demo_world, Raise (TypeError "encoding without a string argument")).
Proof.
  exact (request_secret_unset (mkCloud (PStr "AK") PNone (PStr "https://cloudapi.cloud.couchbase.com"))
           "/v2/clouds" "GET" PNone demo_world eq_refl).
Defined.

Lemma cbc_api_message_injective_witness :
  GET = GET /\ "/v2/clouds"%string = "/v2/clouds"%string /\ 1700000000000%Z = 1700000000000%Z.
Proof.
  apply (cbc_api_message_injective GET GET "/v2/clouds" "/v2/clouds" 1700000000000 1700000000000);
    reflexivity.
Defined.
