(* ===== verification/Helpers.v ===== *)
(** The API steps of [cloud_helpers.py]: [check_response_for_errors] and
    one function per endpoint.  Each sends one request through
    [Signing.request], checks its status code against the step's
    allow-list, and reads the field the step needs from [res.json()]. *)

From Stdlib Require Import String Ascii ZArith List Lia Bool.
From S2P Require Import Prelude PyData Bytes Effects Signing.
Import ListNotations.
Open Scope pystr_scope.
Open Scope pym_scope.

Section Helpers.
Context {S : Type} `{ControlPlane S}.

(** [res.status_code in status_codes]. *)
Definition status_in (res : Response) (status_codes : list Z) : bool :=
  existsb (Z.eqb (status_code res)) status_codes.

(** The second line printed on a failed check. *)
Definition error_report (res : Response) (error_type message : PyVal) : string :=
  "Status code: " +:+ py_int_str (status_code res) +:+ nl +:+ "Error Type:"
  +:+ py_str error_type +:+ " " +:+ nl +:+ "Error Message:" +:+ py_str message.

(** [check_response_for_errors(res, check_message, status_codes)]: on a
    status outside the allow-list the f-string reads [res.json()['errorType']]
    and [res.json()['message']] before printing, so a body without them
    raises. *)
Definition check_response_for_errors (res : Response) (check_message : string)
    (status_codes : list Z) : M S (Response * bool) :=
  if status_in res status_codes then
    print (check_message +:+ " Successful") ;;
    ret (res, true)
  else
    print (check_message +:+ " Failed") ;;
    j1 <- lift (res_json res) ;;
    error_type <- lift (py_getitem j1 (KStr "errorType")) ;;
    j2 <- lift (res_json res) ;;
    message <- lift (py_getitem j2 (KStr "message")) ;;
    print (error_report res error_type message) ;;
    ret (res, false).

(** [get_cloud_status(cloud)]: the [try] block assigns [cloud_id] before
    [cloud_provider], so a [KeyError] on ["provider"] keeps the id. *)
Definition get_cloud_status (cloud : CouchbaseCloud) : M S (PyVal * PyVal) :=
  res <- request cloud "/v2/clouds" "GET" PNone ;;
  '(res, success) <- check_response_for_errors res "Check Cloud Connection" [200%Z] ;;
  if success then
    catch_keyerror
      (j <- lift (res_json res) ;;
       data <- lift (py_getitem j (KStr "data")) ;;
       res_json0 <- lift (py_getitem data (KInt 0)) ;;
       cloud_id <- lift (py_getitem res_json0 (KStr "id")) ;;
       catch_keyerror
         (cloud_provider <- lift (py_getitem res_json0 (KStr "provider")) ;;
          ret (cloud_id, cloud_provider))
         (ret (cloud_id, PNone)))
      (ret (PNone, PNone))
  else ret (PNone, PNone).

(** [create_project(cloud, project_name)]. *)
Definition create_project (cloud : CouchbaseCloud) (project_name : PyVal) : M S PyVal :=
  res <- request cloud "/v2/projects" "POST" (PDict [("name"%string, project_name)]) ;;
  '(res, success) <- check_response_for_errors res "Create Project" [201%Z] ;;
  if success then
    catch_keyerror
      (j <- lift (res_json res) ;; lift (py_getitem j (KStr "id")))
      (ret PNone)
  else ret PNone.

(** The fixed topology of [create_cluster]: three m5.xlarge AWS nodes with
    128 GiB of storage, running data, index and query. *)
Definition cluster_servers : PyVal :=
  PList [PDict [("services"%string, PList [PStr "data"; PStr "index"; PStr "query"]);
                ("size"%string, PInt 3);
                ("aws"%string, PDict [("ebsSizeGib"%string, PInt 128);
                                      ("instanceSize"%string, PStr "m5.xlarge")])]].

Definition cluster_request (cluster_name cloud_id project_id : PyVal) : PyVal :=
  PDict [("name"%string, cluster_name); ("cloudId"%string, cloud_id);
         ("projectId"%string, project_id); ("version"%string, PStr "latest");
         ("servers"%string, cluster_servers)].

(** [create_cluster(cloud, cluster_name, cloud_id, project_id)]. *)
Definition create_cluster (cloud : CouchbaseCloud) (cluster_name cloud_id project_id : PyVal)
    : M S bool :=
  res <- request cloud "/v2/clusters" "POST" (cluster_request cluster_name cloud_id project_id) ;;
  '(_, success) <- check_response_for_errors res "Create Cluster" [202%Z] ;;
  ret success.

(** [get_clusters(cloud)]: no [try], so every lookup error escapes. *)
Definition get_clusters (cloud : CouchbaseCloud) : M S PyVal :=
  res <- request cloud "/v2/clusters" "GET" PNone ;;
  '(res, success) <- check_response_for_errors res "Get Clusters" [200%Z] ;;
  if success then
    j <- lift (res_json res) ;;
    data <- lift (py_getitem j (KStr "data")) ;;
    res_json0 <- lift (py_getitem data (KInt 0)) ;;
    lift (py_getitem res_json0 (KStr "id"))
  else ret PNone.

(** [f"/v2/clusters/{cluster_id}"]. *)
Definition cluster_path (cluster_id : PyVal) : string := "/v2/clusters/" +:+ py_str cluster_id.

(** [check_cluster_ready(cloud, cluster_id)]. *)
Definition check_cluster_ready (cloud : CouchbaseCloud) (cluster_id : PyVal)
    : M S (Response * bool) :=
  res <- request cloud (cluster_path cluster_id) "GET" PNone ;;
  check_response_for_errors res "Get Cluster Status" [200%Z].

(** The allow-list rule: every address, permanently. *)
Definition allowlist_rule : PyVal :=
  PDict [("cidrBlock"%string, PStr "0.0.0.0/0"); ("ruleType"%string, PStr "permanent");
         ("comment"%string, PStr "cluster accesss to all")].

(** [enable_access_to_cluster(cloud, cluster_id)]. *)
Definition enable_access_to_cluster (cloud : CouchbaseCloud) (cluster_id : PyVal) : M S bool :=
  res <- request cloud (cluster_path cluster_id +:+ "/allowlist") "POST" allowlist_rule ;;
  '(_, success) <- check_response_for_errors res "Enable Cluster Access" [202%Z] ;;
  ret success.

Definition user_request (username password : PyVal) : PyVal :=
  PDict [("username"%string, username); ("password"%string, password);
         ("allBucketsAccess"%string, PStr "data_writer")].

(** [create_database_user(cloud, cluster_id, username, password)]. *)
Definition create_database_user (cloud : CouchbaseCloud) (cluster_id username password : PyVal)
    : M S bool :=
  res <- request cloud (cluster_path cluster_id +:+ "/users") "POST" (user_request username password) ;;
  '(_, success) <- check_response_for_errors res "Create Database User" [201%Z] ;;
  ret success.

(** [delete_cluster(cloud, cluster_id)]. *)
Definition delete_cluster (cloud : CouchbaseCloud) (cluster_id : PyVal) : M S bool :=
  res <- request cloud (cluster_path cluster_id) "DELETE" PNone ;;
  '(_, success) <- check_response_for_errors res "Delete Cluster" [202%Z] ;;
  ret success.

End Helpers.

(** [unfold_steps]: unfold every step of [main] down to its calls of
    [request]. *)
Ltac unfold_steps :=
  unfold get_cloud_status, create_project, create_cluster, get_clusters, check_cluster_ready,
    enable_access_to_cluster, create_database_user, check_response_for_errors.

(** ** Properties of the response check *)

Section CheckProps.
Context {S : Type} `{ControlPlane S}.

Lemma status_in_spec (res : Response) (codes : list Z) :
  status_in res codes = true <-> In (status_code res) codes.
Proof.
  unfold status_in. rewrite existsb_exists. split.
  - intros (x & Hx & E). apply Z.eqb_eq in E. now subst.
  - intros Hin. exists (status_code res). split; [exact Hin | apply Z.eqb_refl].
Qed.

(** (C1) Whenever [check_response_for_errors] returns, it returns the
    response it was given and a success flag that is true exactly when the
    status code is in the allow-list. *)
Theorem check_response_for_errors_flag (res : Response) (msg : string) (codes : list Z)
    (w : World S) (r : Response) (b : bool) :
  snd (check_response_for_errors res msg codes w) = Ok (r, b) ->
  r = res /\ (b = true <-> In (status_code res) codes).
Proof.
  rewrite <- status_in_spec. unfold check_response_for_errors, bind, lift, print, ret.
  destruct (status_in res codes); simpl.
  - intros Heq. inv Heq. tauto.
  - destruct (res_json res) as [j | e]; simpl; [| intros [=]].
    destruct (py_getitem j (KStr "errorType")); simpl; [| intros [=]].
    destruct (py_getitem j (KStr "message")); simpl; [| intros [=]].
    intros Heq. inv Heq. split; [reflexivity | split; discriminate].
Qed.

(** An allowed status prints ["<step> Successful"] and succeeds. *)
Lemma check_response_accepted (res : Response) (msg : string) (codes : list Z) (w : World S) :
  status_in res codes = true ->
  check_response_for_errors res msg codes w = (add_out w (msg +:+ " Successful"), Ok (res, true)).
Proof. intros E. unfold check_response_for_errors. now rewrite E. Qed.

(** A refused status whose body carries [errorType] and [message] prints
    ["<step> Failed"] and the report, and returns [False]. *)
Lemma check_response_reported (res : Response) (msg : string) (codes : list Z) (w : World S)
    (j et m : PyVal) :
  status_in res codes = false -> res_json res = Ok j ->
  py_getitem j (KStr "errorType") = Ok et -> py_getitem j (KStr "message") = Ok m ->
  check_response_for_errors res msg codes w
  = (add_out (add_out w (msg +:+ " Failed")) (error_report res et m), Ok (res, false)).
Proof.
  intros E Hj He Hm. unfold check_response_for_errors, bind, lift, print, ret.
  rewrite E, Hj. cbn -[py_getitem add_out error_report]. rewrite He, Hm. reflexivity.
Qed.

(** (C25) A refused status whose body is not JSON raises
    [JSONDecodeError] out of the check, after printing ["<step> Failed"]. *)
Theorem check_response_undecodable (res : Response) (msg : string) (codes : list Z)
    (w : World S) :
  status_in res codes = false -> body res = None ->
  check_response_for_errors res msg codes w = (add_out w (msg +:+ " Failed"), Raise JSONDecodeError).
Proof. intros E Hb. unfold check_response_for_errors, res_json. rewrite E, Hb. reflexivity. Qed.

End CheckProps.

(** ** The steps, when the control plane answers *)

Section StepProps.
Context {S : Type} `{ControlPlane S}.

(** Run the step's request, answered as [Hr] says. *)
Local Ltac answer Hs Hr :=
  unfold bind at 1;
  match goal with
  | |- context [request ?c ?ep ?m ?d ?w] =>
      rewrite (request_answer c ep m _ d w _ _ _ Hs Hr) by reflexivity
  end.

(** Run the check on an allowed status [Hc]. *)
Local Ltac accept Hc :=
  unfold bind at 1;
  rewrite check_response_accepted by (unfold status_in; rewrite Hc; reflexivity).

(** (C23) [get_cloud_status] on a [200] whose ["data"] is an empty list: the
    index [[0]] raises [IndexError], which the [except KeyError] does not
    catch. *)
Theorem get_cloud_status_empty (cloud : CouchbaseCloud) (w : World S) (sk : string) (s' : S)
    (r : Response) (j : PyVal) :
  secret cloud = PStr sk ->
  serve (w_srv w) (signed_request cloud "/v2/clouds" GET PNone (w_clock w) (utf8_encode sk))
  = (s', Some r) ->
  status_code r = 200%Z -> res_json r = Ok j -> py_getitem j (KStr "data") = Ok (PList []) ->
  snd (get_cloud_status cloud w) = Raise (IndexError "list index out of range").
Proof.
  intros Hs Hr Hc Hj Hd. unfold get_cloud_status. answer Hs Hr. accept Hc.
  unfold catch_keyerror, bind, lift, ret. rewrite Hj. cbn -[py_getitem]. rewrite Hd.
  reflexivity.
Qed.

(** [get_cloud_status] on a [200] returns the ["id"] and ["provider"] of
    the first entry of ["data"]. *)
Lemma get_cloud_status_first (cloud : CouchbaseCloud) (w : World S) (sk : string) (s' : S)
    (r : Response) (j d x i p : PyVal) :
  secret cloud = PStr sk ->
  serve (w_srv w) (signed_request cloud "/v2/clouds" GET PNone (w_clock w) (utf8_encode sk))
  = (s', Some r) ->
  status_code r = 200%Z -> res_json r = Ok j -> py_getitem j (KStr "data") = Ok d ->
  py_getitem d (KInt 0) = Ok x -> py_getitem x (KStr "id") = Ok i ->
  py_getitem x (KStr "provider") = Ok p ->
  snd (get_cloud_status cloud w) = Ok (i, p).
Proof.
  intros Hs Hr Hc Hj Hd Hx Hi Hp. unfold get_cloud_status. answer Hs Hr. accept Hc.
  unfold catch_keyerror, bind, lift, ret. rewrite Hj. cbn -[py_getitem].
  rewrite Hd, Hx, Hi, Hp. reflexivity.
Qed.

(** (C21) [create_project] on a [201] returns the body's
    ["id"]. *)
Theorem create_project_created (cloud : CouchbaseCloud) (name : PyVal) (w : World S)
    (sk : string) (s' : S) (r : Response) (j i : PyVal) :
  secret cloud = PStr sk ->
  serve (w_srv w) (signed_request cloud "/v2/projects" POST (PDict [("name"%string, name)])
                     (w_clock w) (utf8_encode sk)) = (s', Some r) ->
  status_code r = 201%Z -> res_json r = Ok j -> py_getitem j (KStr "id") = Ok i ->
  snd (create_project cloud name w) = Ok i.
Proof.
  intros Hs Hr Hc Hj Hi. unfold create_project. answer Hs Hr. accept Hc.
  unfold catch_keyerror, bind, lift, ret. rewrite Hj. cbn -[py_getitem]. rewrite Hi.
  reflexivity.
Qed.

(** (C24) [get_clusters] on a [200] whose ["data"] is an
    empty list raises [IndexError]: there is no [try] around the lookup. *)
Theorem get_clusters_empty (cloud : CouchbaseCloud) (w : World S) (sk : string) (s' : S)
    (r : Response) (j : PyVal) :
  secret cloud = PStr sk ->
  serve (w_srv w) (signed_request cloud "/v2/clusters" GET PNone (w_clock w) (utf8_encode sk))
  = (s', Some r) ->
  status_code r = 200%Z -> res_json r = Ok j -> py_getitem j (KStr "data") = Ok (PList []) ->
  snd (get_clusters cloud w) = Raise (IndexError "list index out of range").
Proof.
  intros Hs Hr Hc Hj Hd. unfold get_clusters. answer Hs Hr. accept Hc.
  unfold bind, lift, ret. rewrite Hj. cbn -[py_getitem]. rewrite Hd. reflexivity.
Qed.

End StepProps.

(** ** Traffic and time of the steps *)

Section StepBounds.
Context {S : Type} `{ControlPlane S}.

Lemma check_response_sent (res : Response) (msg : string) (codes : list Z) :
  grows (@sent_count S) 0 (check_response_for_errors res msg codes).
Proof. unfold check_response_for_errors. grows_tac. Qed.

Lemma check_response_clock (res : Response) (msg : string) (codes : list Z) :
  grows (@clock S) 0 (check_response_for_errors res msg codes).
Proof. unfold check_response_for_errors. grows_tac. Qed.

#[local] Hint Resolve check_response_sent check_response_clock : pyrun.

(** Every step sends at most one request and does not wait. *)
Lemma steps_sent (cloud : CouchbaseCloud) (a b c : PyVal) :
  grows (@sent_count S) 1 (get_cloud_status cloud) /\
  grows (@sent_count S) 1 (create_project cloud a) /\
  grows (@sent_count S) 1 (create_cluster cloud a b c) /\
  grows (@sent_count S) 1 (get_clusters cloud) /\
  grows (@sent_count S) 1 (check_cluster_ready cloud a) /\
  grows (@sent_count S) 1 (enable_access_to_cluster cloud a) /\
  grows (@sent_count S) 1 (create_database_user cloud a b c) /\
  grows (@sent_count S) 1 (delete_cluster cloud a).
Proof.
  unfold get_cloud_status, create_project, create_cluster, get_clusters, check_cluster_ready,
    enable_access_to_cluster, create_database_user, delete_cluster.
  repeat split; grows_tac.
Qed.

Lemma steps_clock (cloud : CouchbaseCloud) (a b c : PyVal) :
  grows (@clock S) 0 (get_cloud_status cloud) /\
  grows (@clock S) 0 (create_project cloud a) /\
  grows (@clock S) 0 (create_cluster cloud a b c) /\
  grows (@clock S) 0 (get_clusters cloud) /\
  grows (@clock S) 0 (check_cluster_ready cloud a) /\
  grows (@clock S) 0 (enable_access_to_cluster cloud a) /\
  grows (@clock S) 0 (create_database_user cloud a b c) /\
  grows (@clock S) 0 (delete_cluster cloud a).
Proof.
  unfold get_cloud_status, create_project, create_cluster, get_clusters, check_cluster_ready,
    enable_access_to_cluster, create_database_user, delete_cluster.
  repeat split; grows_tac.
Qed.

End StepBounds.

(** ** Witnesses *)

Definition response_404 : Response :=
  mkResponse 404 (Some (PDict [("errorType"%string, PStr "NotFound");
                               ("message"%string, PStr "no such cluster")])).

Lemma check_response_for_errors_flag_witness :
  snd (check_response_for_errors response_404 "Get Cluster Status" [200%Z] demo_world)
  = Ok (response_404, false) /\
  (response_404 = response_404 /\ (false = true <-> In 404%Z [200%Z])).
Proof.
  split; [reflexivity |].
  apply (check_response_for_errors_flag response_404 "Get Cluster Status" [200%Z] demo_world
           response_404 false).
  reflexivity.
Defined.

Lemma check_response_undecodable_witness :
  check_response_for_errors (mkResponse 502 None) "Get Clusters" [200%Z] demo_world
  = (add_out demo_world "Get Clusters Failed", Raise JSONDecodeError).
Proof. apply check_response_undecodable; reflexivity. Defined.

Definition empty_data : Response := mkResponse 200 (Some (PDict [("data"%string, PList [])])).

Lemma get_cloud_status_empty_witness :
  snd (get_cloud_status demo_cloud (mkWorld [empty_data] [] [] 0%Z))
  = Raise (IndexError "list index out of range").
Proof.
  apply (get_cloud_status_empty demo_cloud (mkWorld [empty_data] [] [] 0%Z) "SK" [] empty_data
           (PDict [("data"%string, PList [])])); reflexivity.
Defined.

Lemma create_project_created_witness :
  snd (create_project demo_cloud (PStr "proj")
         (mkWorld [mkResponse 201 (Some (PDict [("id"%string, PStr "p1")]))] [] [] 0%Z))
  = Ok (PStr "p1").
Proof.
  apply (create_project_created demo_cloud (PStr "proj")
           (mkWorld [mkResponse 201 (Some (PDict [("id"%string, PStr "p1")]))] [] [] 0%Z) "SK" []
           (mkResponse 201 (Some (PDict [("id"%string, PStr "p1")])))
           (PDict [("id"%string, PStr "p1")])); reflexivity.
Defined.

Lemma get_clusters_empty_witness :
  snd (get_clusters demo_cloud (mkWorld [empty_data] [] [] 0%Z))
  = Raise (IndexError "list index out of range").
Proof.
  apply (get_clusters_empty demo_cloud (mkWorld [empty_data] [] [] 0%Z) "SK" [] empty_data
           (PDict [("data"%string, PList [])])); reflexivity.
Defined.
