(* ===== verification/Bootstrap.v ===== *)
(** The orchestrator, [main()] of [cloud_bootstrap.py]: discover the cloud,
    create the project and the cluster, resolve the cluster id, poll the
    cluster status (at most [timeout = 30] checks, one minute apart), open
    the allow-list and create the database user.  Each failed guard prints
    a message and calls [exit()]. *)

From Stdlib Require Import String Ascii ZArith List Lia Bool RelationClasses.
From S2P Require Import Prelude PyData Effects Signing Helpers.
Import ListNotations.
Open Scope pystr_scope.
Open Scope pym_scope.

(** The environment after [load_dotenv()]: each [os.getenv] is a [str] or
    [None]. *)
Record Env : Type := mkEnv {
  CBC_ACCESS_KEY : option string;
  CBC_SECRET_KEY : option string;
  CBC_URL : option string;
  CBC_PROJECT : option string;
  CBC_CLUSTER : option string;
  USERNAME : option string;
  PASSWORD : option string
}.

Definition no_cloud_message : string :=
  "Ensure that the Cloud is connected. " +:+ nl +:+
  "Check the details here:https://docs.couchbase.com/cloud/get-started/deploy-first-cluster.html#connect-a-cloud".

(** The initial value of [timeout]. *)
Definition poll_budget : nat := 30.

(** The final line: [f"Database access URL: {cluster_id}.dp.cloud.couchbase.com"]. *)
Definition access_url (cluster_id : PyVal) : string :=
  py_str cluster_id +:+ ".dp.cloud.couchbase.com".

(** [cloud = CouchbaseCloud(access_key, access_secret, url)]. *)
Definition cloud_of (env : Env) : CouchbaseCloud :=
  mkCloud (of_env (CBC_ACCESS_KEY env)) (of_env (CBC_SECRET_KEY env)) (of_env (CBC_URL env)).

Section Main.
Context {St : Type} `{ControlPlane St}.

(** [while timeout > 0: ...], the recursion on the counter [timeout]
    itself.  A [status] other than ["ready"] sleeps 60 s and decrements
    [timeout]; ["ready"] breaks out; a failed status check exits. *)
Fixpoint poll_cluster (cloud : CouchbaseCloud) (cluster_id : PyVal) (timeout : nat) : M St unit :=
  match timeout with
  | O => ret tt
  | S timeout' =>
      '(res, success) <- check_cluster_ready cloud cluster_id ;;
      if success then
        res_json <- lift (res_json res) ;;
        status <- lift (py_getitem res_json (KStr "status")) ;;
        if py_eq_str status "ready" then print "Cluster is ready"
        else
          print "Checking again in a minute..." ;;
          sleep 60 ;;
          poll_cluster cloud cluster_id timeout'
      else
        print "Cluster not accessible. Please check the Cloud Environment" ;;
        exit
  end.

(** [main()]. *)
Definition main (env : Env) : M St unit :=
  let cloud := cloud_of env in
  '(cloud_id, cloud_provider) <- get_cloud_status cloud ;;
  (if negb (py_truthy (py_or cloud_id cloud_provider))
   then print no_cloud_message ;; exit else ret tt) ;;
  print ("Cloud ID: " +:+ py_str cloud_id) ;;
  print ("Cloud Provider: " +:+ py_str cloud_provider) ;;
  project_id <- create_project cloud (of_env (CBC_PROJECT env)) ;;
  (if negb (py_truthy project_id)
   then print "Project Not Created" ;; exit else ret tt) ;;
  print ("Project Created with ID: " +:+ py_str project_id) ;;
  _ <- create_cluster cloud (of_env (CBC_CLUSTER env)) cloud_id project_id ;;
  cluster_id <- get_clusters cloud ;;
  (if negb (py_truthy cluster_id)
   then print "Cluster Creation Unsuccessful. Please try again" ;; exit else ret tt) ;;
  print ("Cluster Created with ID: " +:+ py_str cluster_id) ;;
  poll_cluster cloud cluster_id poll_budget ;;
  cluster_access <- enable_access_to_cluster cloud cluster_id ;;
  (if negb cluster_access
   then print "Enabling access to cluster failed." ;; exit else ret tt) ;;
  user_creation <- create_database_user cloud cluster_id
                     (of_env (USERNAME env)) (of_env (PASSWORD env)) ;;
  (if negb user_creation
   then print "User not created. Please try again" ;; exit else ret tt) ;;
  print ("Database access URL: " +:+ access_url cluster_id).

End Main.

(** ** Traffic and waiting time of a run *)

Section MainBounds.
Context {St : Type} `{ControlPlane St}.


Lemma poll_cluster_sent (cloud : CouchbaseCloud) (cluster_id : PyVal) (n : nat) :
  grows (@sent_count St) (Z.of_nat n) (poll_cluster cloud cluster_id n).
Proof. induction n as [| n IH]; simpl; unfold_steps; grows_tac. Qed.

Lemma poll_cluster_clock (cloud : CouchbaseCloud) (cluster_id : PyVal) (n : nat) :
  grows (@clock St) (60000 * Z.of_nat n) (poll_cluster cloud cluster_id n).
Proof. induction n as [| n IH]; simpl; unfold_steps; grows_tac. Qed.

#[local] Hint Resolve poll_cluster_sent poll_cluster_clock : pyrun.

(** (C14) A run of [main] sends at most 36 requests, whatever
    the control plane answers: one per step and at most 30 status checks. *)
Theorem main_sent (env : Env) : grows (@sent_count St) 36 (main env).
Proof. unfold main, poll_budget. unfold_steps. grows_tac. Qed.

(** (C15) A run of [main] sleeps at most 30 minutes in all. *)
Theorem main_clock (env : Env) : grows (@clock St) 1800000 (main env).
Proof. unfold main, poll_budget. unfold_steps. grows_tac. Qed.

End MainBounds.

(** ** Invariants of a run

    A preorder on worlds that printing, sleeping and every call of the
    run's client respect holds between the start and the end of [main]. *)

Section MainStable.
Context {St : Type} `{ControlPlane St}.
Context (R : World St -> World St -> Prop) `{PreOrder _ R}.
Context (env : Env).
Hypothesis R_print : forall s, stable R (print s).
Hypothesis R_sleep : forall secs, stable R (sleep secs).
Hypothesis R_request : forall endpoint method data, stable R (request (cloud_of env) endpoint method data).

#[local] Hint Resolve R_print R_sleep R_request : pyrun.


Lemma poll_cluster_stable (cluster_id : PyVal) (n : nat) :
  stable R (poll_cluster (cloud_of env) cluster_id n).
Proof. induction n as [| n IH]; simpl; unfold_steps; stable_tac. Qed.

#[local] Hint Resolve poll_cluster_stable : pyrun.

Lemma main_stable : stable R (main env).
Proof. unfold main. unfold_steps. stable_tac. Qed.

End MainStable.

(** A run of [main] changes the control plane only by its requests. *)
Lemma main_reach {St} `{ControlPlane St} (env : Env) : stable srv_reach (main env).
Proof. apply main_stable; [typeclasses eauto | auto with pyrun ..]. Qed.

(** Every request of the log passes the control plane's check. *)
Definition log_verified {St} (k sk base : string) (w w' : World St) : Prop :=
  Forall (verified k sk base) (w_log w) -> Forall (verified k sk base) (w_log w').

#[export] Instance log_verified_preorder {St} (k sk base : string) :
  PreOrder (@log_verified St k sk base).
Proof. split; [intros w Hw; exact Hw | intros w1 w2 w3 H12 H23 H1; auto]. Qed.

(** (C9) Every request a run of [main] sends carries the account's
    key and a signature that the control plane's check accepts, whatever
    the control plane answers. *)
Theorem main_authenticated {St} `{ControlPlane St} (env : Env) (w : World St)
    (k sk base : string) :
  CBC_ACCESS_KEY env = Some k -> CBC_SECRET_KEY env = Some sk -> CBC_URL env = Some base ->
  Forall (verified k sk base) (w_log w) ->
  Forall (verified k sk base) (w_log (fst (main env w))).
Proof.
  intros Hk Hs Hu. apply (main_stable (log_verified k sk base)).
  - intros s w0. exact (fun h => h).
  - intros secs w0. exact (fun h => h).
  - intros endpoint method data w0 Hw0. apply request_log_verified; [| | | exact Hw0];
      unfold cloud_of; simpl; [now rewrite Hk | now rewrite Hs | now rewrite Hu].
Qed.
