(* ===== verification/Exceptions.v ===== *)
(** The exceptions a run of [main] can end with, for every control plane
    and every environment: [SystemExit] without a code (the [exit()]
    guards), the lookup errors of subscripting a decoded body ([KeyError],
    [IndexError], [TypeError]), [JSONDecodeError] from [res.json()],
    [TypeError] from an unset secret, and [RequestException] from the
    transport; never the [UnboundLocalError] of [CouchbaseCloud.request],
    since every call passes ["GET"] or ["POST"]. *)

From Stdlib Require Import String Ascii ZArith List Lia Bool.
From S2P Require Import Prelude PyData Effects Signing Helpers Bootstrap.
Import ListNotations.
Open Scope pystr_scope.
Open Scope pym_scope.

Definition main_exception (e : PyExc) : Prop :=
  match e with
  | SystemExit v => v = PNone
  | UnboundLocalError _ => False
  | KeyError _ | IndexError _ | TypeError _ | JSONDecodeError | RequestException => True
  end.

Lemma getitem_exception (v : PyVal) (k : PyKey) (e : PyExc) :
  py_getitem v k = Raise e -> main_exception e.
Proof.
  unfold py_getitem. destruct v, k;
    repeat match goal with |- context [match ?x with _ => _ end] => destruct x end;
    intros [= <-]; exact I.
Qed.

Section Ops.
Context {St : Type} `{ControlPlane St}.

Lemma ro_getitem (v : PyVal) (k : PyKey) : raises_only (S := St) main_exception (lift (py_getitem v k)).
Proof. apply ro_lift. apply getitem_exception. Qed.

Lemma ro_res_json (r : Response) : raises_only (S := St) main_exception (lift (res_json r)).
Proof. apply ro_lift. unfold res_json. destruct (body r); intros e [= <-]. exact I. Qed.

Lemma ro_bytes (v : PyVal) : raises_only (S := St) main_exception (lift (py_bytes_utf8 v)).
Proof. apply ro_lift. unfold py_bytes_utf8. destruct v; intros e [= <-]; exact I. Qed.

#[local] Hint Resolve ro_getitem ro_res_json ro_bytes : pyrun.

(** A call with one of the three methods raises only [TypeError] (no
    secret) or [RequestException]. *)
Lemma request_raises (cloud : CouchbaseCloud) (endpoint : string) (v : Verb) (data : PyVal) :
  raises_only (S := St) main_exception (request cloud endpoint (verb_name v) data).
Proof.
  destruct v; unfold request; cbn [verb_name String.eqb Ascii.eqb Bool.eqb andb]; ro_tac;
    apply ro_http; exact I.
Qed.

Lemma request_raises_get (cloud : CouchbaseCloud) (endpoint : string) (data : PyVal) :
  raises_only (S := St) main_exception (request cloud endpoint "GET" data).
Proof. exact (request_raises cloud endpoint GET data). Qed.

Lemma request_raises_post (cloud : CouchbaseCloud) (endpoint : string) (data : PyVal) :
  raises_only (S := St) main_exception (request cloud endpoint "POST" data).
Proof. exact (request_raises cloud endpoint POST data). Qed.

#[local] Hint Resolve request_raises_get request_raises_post : pyrun.


Lemma poll_cluster_raises (cloud : CouchbaseCloud) (cluster_id : PyVal) (n : nat) :
  raises_only main_exception (poll_cluster (St := St) cloud cluster_id n).
Proof. induction n as [| n IH]; cbn [poll_cluster]; unfold_steps; ro_tac; reflexivity. Qed.

#[local] Hint Resolve poll_cluster_raises : pyrun.

(** (C10) The exceptions that can end a run of [main]: whatever the
    control plane answers and whatever the environment holds, a run
    either returns normally or raises [SystemExit] without a code, a
    lookup error, [JSONDecodeError], [TypeError] or [RequestException];
    it never raises [UnboundLocalError] and never exits with a code. *)
Theorem main_exceptions (env : Env) (w : World St) :
  match snd (main env w) with Raise e => main_exception e | Ok _ => True end.
Proof. revert w. change (raises_only main_exception (main (St := St) env)). unfold main. unfold_steps. ro_tac; reflexivity. Qed.

End Ops.
