(* ===== verification/PollLoop.v ===== *)
(** The readiness loop of [main] as it is written in [cloud_bootstrap.py]
    (lines 55-70): an integer counter [timeout = 30], the test
    [while timeout > 0], a body that either breaks or decrements the
    counter, run with fuel since Rocq wants every loop to terminate.
    [Bootstrap.poll_cluster] writes the same loop as a recursion on the
    counter; this file proves the two equal whenever the fuel exceeds the
    counter, so that every theorem about [poll_cluster] is a theorem
    about the loop; with fuel [timeout + 1] the loop does not run out of
    fuel, since [poll_cluster] never raises the [UnboundLocalError] that
    [loop_outcome] gives an exhausted fuel. *)

From Stdlib Require Import String Ascii ZArith List Lia Bool.
From S2P Require Import Prelude PyData Effects Signing Helpers Bootstrap.
Import ListNotations.
Open Scope pystr_scope.
Open Scope pym_scope.

Section Loop.
Context {St : Type} `{ControlPlane St}.
Context (cloud : CouchbaseCloud) (cluster_id : PyVal).

(** One iteration of the body: the new value of [timeout] and whether
    [break] ran. *)
Definition poll_body (timeout : Z) : M St (Z * bool) :=
  '(res, success) <- check_cluster_ready cloud cluster_id ;;
  if success then
    res_json <- lift (res_json res) ;;
    status <- lift (py_getitem res_json (KStr "status")) ;;
    if py_eq_str status "ready" then
      print "Cluster is ready" ;; ret (timeout, true)
    else
      print "Checking again in a minute..." ;;
      sleep 60 ;;
      ret (timeout - 1, false)%Z
  else
    print "Cluster not accessible. Please check the Cloud Environment" ;;
    exit.

(** [while timeout > 0: body], with [fuel] iterations at most: [Some t]
    when the loop ends with [timeout = t], [None] when the fuel runs
    out first. *)
Fixpoint while_loop (fuel : nat) (timeout : Z) : M St (option Z) :=
  match fuel with
  | O => ret None
  | S fuel' =>
      if (0 <? timeout)%Z then
        '(timeout', brk) <- poll_body timeout ;;
        if brk then ret (Some timeout') else while_loop fuel' timeout'
      else ret (Some timeout)
  end.

End Loop.

(** The outcome of the loop, forgetting the final counter. *)
Definition loop_outcome (r : Result (option Z)) : Result unit :=
  match r with
  | Ok (Some _) => Ok tt
  | Ok None => Raise (UnboundLocalError "fuel")
  | Raise e => Raise e
  end.

Section Equivalence.
Context {St : Type} `{ControlPlane St}.
Context (cloud : CouchbaseCloud) (cluster_id : PyVal).

(** (C20) The loop as written and the recursion on the counter agree:
    with more fuel than the counter, [while timeout > 0] ends in the
    same world as [poll_cluster] on [timeout] iterations, with the same
    outcome, and never runs out of fuel. *)
Theorem while_loop_poll_cluster (fuel : nat) (timeout : Z) (w : World St) :
  (Z.to_nat timeout < fuel)%nat ->
  fst (while_loop cloud cluster_id fuel timeout w)
  = fst (poll_cluster cloud cluster_id (Z.to_nat timeout) w) /\
  loop_outcome (snd (while_loop cloud cluster_id fuel timeout w))
  = snd (poll_cluster cloud cluster_id (Z.to_nat timeout) w).
Proof.
  revert timeout w. induction fuel as [| fuel IH]; intros timeout w Hf; [lia |].
  cbn [while_loop]. destruct (Z.ltb_spec 0 timeout) as [Hpos | Hneg].
  - replace (Z.to_nat timeout) with (S (Z.to_nat (timeout - 1))) by lia.
    cbn [poll_cluster]. unfold poll_body, bind, lift, print, ret, sleep, exit, raise.
    destruct (check_cluster_ready cloud cluster_id w) as [w1 [[res [|]] | e]]; [| easy..].
    + destruct (res_json res) as [j | e]; [| easy].
      destruct (py_getitem j (KStr "status")) as [st | e]; [| easy].
      destruct (py_eq_str st "ready"); [easy |]. apply IH. lia.
  - replace (Z.to_nat timeout) with O by lia. easy.
Qed.

End Equivalence.

(** ** Witnesses: the loop of [main], [timeout = 30], with 31 iterations
    of fuel, on a control plane that answers nothing. *)

Definition loop_cloud : CouchbaseCloud := mkCloud (PStr "AK") (PStr "SK") (PStr "https://cloudapi.cloud.couchbase.com").

Definition loop_world : World (list Response) := mkWorld [] [] [] 1700000000000%Z.

Lemma while_loop_poll_cluster_witness :
  fst (while_loop loop_cloud (PStr "clus-1") 31 30 loop_world)
  = fst (poll_cluster loop_cloud (PStr "clus-1") (Z.to_nat 30) loop_world) /\
  loop_outcome (snd (while_loop loop_cloud (PStr "clus-1") 31 30 loop_world))
  = snd (poll_cluster loop_cloud (PStr "clus-1") (Z.to_nat 30) loop_world).
Proof. apply (while_loop_poll_cluster loop_cloud (PStr "clus-1") 31 30 loop_world). cbn. lia. Defined.
