(* ===== verification/Protocol.v ===== *)
(** The provisioning protocol that [main] is meant to follow (specification,
    sections 4.2 and 6) as a step relation on phases, and the refinement
    theorem: the requests of every run of [main], whatever the control
    plane answers, are a run of the protocol, and a run that completes
    normally has gone through every phase.  The proof uses a small program
    logic over [M]: [spec base p m Q] says that from phase [p] the requests
    [m] sends are protocol steps, ending in a phase [q] with [Q r q] for
    the outcome [r]. *)

From Stdlib Require Import String Ascii ZArith List Lia Bool RelationClasses.
From S2P Require Import Prelude PyData Effects Signing Helpers Bootstrap.
Import ListNotations.
Open Scope pystr_scope.
Open Scope pym_scope.

(** ** The protocol *)

Inductive Phase : Type :=
| Start
| CloudsListed
| ProjectRequested
| ClusterRequested
| ClustersListed
| Polling (id : string) (checks : nat)
| AccessRequested (id : string)
| UserRequested (id : string).

(** A request, seen by the control plane: its method and its path. *)
Definition Action : Type := (Verb * string)%type.

Definition status_path (id : string) : string := "/v2/clusters/" +:+ id.

Inductive proto_step : Phase -> Action -> Phase -> Prop :=
| step_clouds : proto_step Start (GET, "/v2/clouds"%string) CloudsListed
| step_project : proto_step CloudsListed (POST, "/v2/projects"%string) ProjectRequested
| step_cluster : proto_step ProjectRequested (POST, "/v2/clusters"%string) ClusterRequested
| step_list : proto_step ClusterRequested (GET, "/v2/clusters"%string) ClustersListed
| step_first_check id : proto_step ClustersListed (GET, status_path id) (Polling id 1)
| step_check id k : (k < 30)%nat -> proto_step (Polling id k) (GET, status_path id) (Polling id (S k))
| step_access id k :
    proto_step (Polling id k) (POST, status_path id +:+ "/allowlist") (AccessRequested id)
| step_user id : proto_step (AccessRequested id) (POST, status_path id +:+ "/users") (UserRequested id).

Inductive runs : Phase -> list Action -> Phase -> Prop :=
| runs_nil p : runs p [] p
| runs_cons p a q t r : proto_step p a q -> runs q t r -> runs p (a :: t) r.

(** The action of a request sent to the base URL [base]. *)
Definition action (base : string) (req : HttpRequest) : Action :=
  (rq_verb req, match strip_prefix base (rq_url req) with Some p => p | None => rq_url req end).

(** ** The program logic *)

Section Logic.
Context {S : Type} `{ControlPlane S}.
Context (base : string).

Definition spec {A} (p : Phase) (m : M S A) (Q : Result A -> Phase -> Prop) : Prop :=
  forall w, exists t q, w_log (fst (m w)) = w_log w ++ t /\
                        runs p (map (action base) t) q /\ Q (snd (m w)) q.

Lemma runs_app p t q t' r : runs p t q -> runs q t' r -> runs p (t ++ t') r.
Proof. induction 1; simpl; [auto | intros; econstructor; eauto]. Qed.

Lemma spec_consequence {A} p (m : M S A) (Q Q' : Result A -> Phase -> Prop) :
  spec p m Q -> (forall r q, Q r q -> Q' r q) -> spec p m Q'.
Proof. intros Hm HQ w. destruct (Hm w) as (t & q & E & R & HQr). exists t, q. auto. Qed.

Lemma spec_bind {A B} p (m : M S A) (k : A -> M S B) (Q : Result A -> Phase -> Prop)
    (R : Result B -> Phase -> Prop) :
  spec p m Q ->
  (forall a q, Q (Ok a) q -> spec q (k a) R) ->
  (forall e q, Q (Raise e) q -> R (Raise e) q) ->
  spec p (bind m k) R.
Proof.
  intros Hm Hk He w. destruct (Hm w) as (t & q & E & Rn & HQ). unfold bind.
  destruct (m w) as [w' [a | e]]; simpl in *.
  - destruct (Hk a q HQ w') as (t' & q' & E' & Rn' & HR).
    exists (t ++ t'), q'. rewrite E', E, app_assoc, map_app.
    split; [reflexivity | split; [eapply runs_app; eauto | exact HR]].
  - exists t, q. auto.
Qed.

End Logic.

(** [ok_at q]: a normal outcome ends in phase [q]; an exception may end
    anywhere the protocol reached. *)
Definition ok_at {A} (q : Phase) (r : Result A) (q' : Phase) : Prop :=
  match r with Ok _ => q' = q | Raise _ => True end.

(** Programs that send nothing. *)
Definition same_log {S} (w w' : World S) : Prop := w_log w' = w_log w.

#[export] Instance same_log_preorder {S} : PreOrder (@same_log S).
Proof. split; [intros w; reflexivity | intros w1 w2 w3 E1 E2; unfold same_log in *; congruence]. Qed.

Section Rules.
Context {S : Type} `{ControlPlane S}.

Lemma same_log_print (s : string) : stable (@same_log S) (print s).
Proof. intros w. reflexivity. Qed.

Lemma same_log_sleep (secs : Z) : stable (@same_log S) (sleep secs).
Proof. intros w. reflexivity. Qed.

Lemma spec_quiet {A} base p (m : M S A) :
  stable same_log m -> spec base p m (fun _ q => q = p).
Proof.
  intros Hm w. exists [], p. split; [| split; [constructor | reflexivity]].
  rewrite app_nil_r. apply Hm.
Qed.

(** One call of [request] on a method of the protocol step [p --(v, ep)--> q]. *)
Lemma spec_request (cloud : CouchbaseCloud) (endpoint method : string) (v : Verb) (data : PyVal)
    (p q : Phase) :
  method = verb_name v -> proto_step p (v, endpoint) q ->
  spec (py_str (url cloud)) p (request cloud endpoint method data) (ok_at q).
Proof.
  intros -> Hstep w. unfold request, bind, now_ms, lift. cbv beta iota zeta.
  destruct (py_bytes_utf8 (secret cloud)) as [key | e].
  - set (req := mkRequest v (py_str (url cloud) +:+ endpoint)
                  (request_headers (access_key cloud)
                     (cbc_api_signature key (cbc_api_message (verb_name v) endpoint (w_clock w)))
                     (w_clock w))
                  (match v with POST => Some data | _ => None end)).
    assert (Hdisp : (if String.eqb (verb_name v) "GET" then http (mkRequest GET (rq_url req) (rq_headers req) None)
                     else if String.eqb (verb_name v) "POST" then http (mkRequest POST (rq_url req) (rq_headers req) (Some data))
                     else if String.eqb (verb_name v) "DELETE" then http (mkRequest DELETE (rq_url req) (rq_headers req) None)
                     else raise (UnboundLocalError "res")) = http req) by (destruct v; reflexivity).
    cbn [rq_url rq_headers req] in Hdisp. rewrite Hdisp.
    exists [req], q. split; [apply http_log | split].
    + unfold action. cbn [map req rq_verb rq_url]. rewrite strip_prefix_app.
      econstructor; [exact Hstep | constructor].
    + destruct (snd (http req w)); reflexivity.
  - exists [], p. split; [now rewrite app_nil_r | split; [constructor | exact I]].
Qed.

(** A quiet prefix keeps the phase. *)
Lemma spec_quiet_bind {A B} base p (m : M S A) (k : A -> M S B) (R : Result B -> Phase -> Prop) :
  stable same_log m -> (forall a, spec base p (k a) R) -> (forall e, R (Raise e) p) ->
  spec base p (bind m k) R.
Proof.
  intros Hm Hk He. eapply spec_bind; [apply (spec_quiet base p m Hm) | |].
  - intros a q ->. apply Hk.
  - intros e q ->. apply He.
Qed.

(** A step: one request of the protocol step [p --(v, ep)--> q], then
    nothing more is sent. *)
Lemma spec_step {A} (cloud : CouchbaseCloud) (endpoint method : string) (v : Verb) (data : PyVal)
    (p q : Phase) (k : Response -> M S A) :
  method = verb_name v -> proto_step p (v, endpoint) q -> (forall res, stable same_log (k res)) ->
  spec (py_str (url cloud)) p (bind (request cloud endpoint method data) k) (ok_at q).
Proof.
  intros Hm Hs Hk. eapply spec_bind; [eapply spec_request; eauto | | intros; exact I].
  intros a q' Hq. cbn in Hq. subst q'.
  eapply spec_consequence; [apply spec_quiet, Hk |]. intros [] q' ->; reflexivity.
Qed.

End Rules.

#[export] Hint Resolve same_log_print same_log_sleep : pyrun.

(** [quiet_tac]: the rest of a step sends nothing. *)
Ltac quiet_tac := intros; unfold check_response_for_errors; stable_tac.

(** ** Each step is a protocol step *)

Section Steps.
Context {S : Type} `{ControlPlane S}.
Context (cloud : CouchbaseCloud).

Lemma get_cloud_status_step : spec (py_str (url cloud)) Start (get_cloud_status (S := S) cloud) (ok_at CloudsListed).
Proof. apply (spec_step _ _ _ GET); [reflexivity | constructor | quiet_tac]. Qed.

Lemma create_project_step (name : PyVal) :
  spec (py_str (url cloud)) CloudsListed (create_project (S := S) cloud name) (ok_at ProjectRequested).
Proof. apply (spec_step _ _ _ POST); [reflexivity | constructor | quiet_tac]. Qed.

Lemma create_cluster_step (a b c : PyVal) :
  spec (py_str (url cloud)) ProjectRequested (create_cluster (S := S) cloud a b c) (ok_at ClusterRequested).
Proof. apply (spec_step _ _ _ POST); [reflexivity | constructor | quiet_tac]. Qed.

Lemma get_clusters_step : spec (py_str (url cloud)) ClusterRequested (get_clusters (S := S) cloud) (ok_at ClustersListed).
Proof. apply (spec_step _ _ _ GET); [reflexivity | constructor | quiet_tac]. Qed.

Lemma check_cluster_ready_step (cid : PyVal) (p q : Phase) :
  proto_step p (GET, status_path (py_str cid)) q ->
  spec (py_str (url cloud)) p (check_cluster_ready (S := S) cloud cid) (ok_at q).
Proof. intros Hs. apply (spec_step _ _ _ GET); [reflexivity | exact Hs | quiet_tac]. Qed.

Lemma enable_access_step (cid : PyVal) (k : nat) :
  spec (py_str (url cloud)) (Polling (py_str cid) k) (enable_access_to_cluster (S := S) cloud cid)
    (ok_at (AccessRequested (py_str cid))).
Proof. apply (spec_step _ _ _ POST); [reflexivity | constructor | quiet_tac]. Qed.

Lemma create_database_user_step (cid u pw : PyVal) :
  spec (py_str (url cloud)) (AccessRequested (py_str cid)) (create_database_user (S := S) cloud cid u pw)
    (ok_at (UserRequested (py_str cid))).
Proof. apply (spec_step _ _ _ POST); [reflexivity | constructor | quiet_tac]. Qed.

End Steps.

(** ** The polling loop *)

Section Poll.
Context {St : Type} `{ControlPlane St}.
Context (cloud : CouchbaseCloud) (cid : PyVal).

(** What a normal end of the loop leaves: some number of status checks. *)
Definition polled (r : Result unit) (q : Phase) : Prop :=
  match r with Ok _ => exists k, q = Polling (py_str cid) k | Raise _ => True end.

(** One round of the loop body, once its status check took the protocol
    to [Polling id k]: the rest goes on with [rest] or ends. *)
Lemma poll_round (k : nat) (res : Response) (success : bool) (rest : M St unit) :
  spec (py_str (url cloud)) (Polling (py_str cid) k) rest polled ->
  spec (py_str (url cloud)) (Polling (py_str cid) k)
    (if success then
       res_json <- lift (res_json res) ;;
       status <- lift (py_getitem res_json (KStr "status")) ;;
       if py_eq_str status "ready" then print "Cluster is ready"
       else print "Checking again in a minute..." ;; sleep 60 ;; rest
     else print "Cluster not accessible. Please check the Cloud Environment" ;; exit)
    polled.
Proof.
  intros Hrest. destruct success.
  - apply spec_quiet_bind; [stable_tac | intros j | intros; exact I].
    apply spec_quiet_bind; [stable_tac | intros st | intros; exact I].
    destruct (py_eq_str st "ready").
    + eapply spec_consequence; [apply spec_quiet; stable_tac |]. intros [] q ->; [eexists |]; easy.
    + apply spec_quiet_bind; [stable_tac | intros _ | intros; exact I].
      apply spec_quiet_bind; [stable_tac | intros _; exact Hrest | intros; exact I].
  - eapply spec_consequence; [apply spec_quiet; stable_tac |]. intros [] q ->; [eexists |]; easy.
Qed.

(** From [Polling id k], the remaining [n] iterations stay within the
    budget of 30 checks when [k + n <= 30]. *)
Lemma poll_cluster_polling (n k : nat) :
  (k + n <= 30)%nat ->
  spec (py_str (url cloud)) (Polling (py_str cid) k) (poll_cluster cloud cid n) polled.
Proof.
  revert k. induction n as [| n IH]; intros k Hk; simpl.
  - eapply spec_consequence; [apply spec_quiet; stable_tac |]. intros [] q ->; [eexists |]; easy.
  - eapply spec_bind; [apply check_cluster_ready_step, step_check; lia | | intros; exact I].
    intros [res success] q ->. apply poll_round, IH. lia.
Qed.

(** The loop as [main] runs it: its first check leaves [ClustersListed]. *)
Lemma poll_cluster_listed (n : nat) :
  (n < 30)%nat -> spec (py_str (url cloud)) ClustersListed (poll_cluster cloud cid (S n)) polled.
Proof.
  intros Hn. simpl.
  eapply spec_bind; [apply check_cluster_ready_step, step_first_check | | intros; exact I].
  intros [res success] q ->. apply poll_round, poll_cluster_polling. lia.
Qed.

End Poll.

(** ** The refinement theorem *)

Section MainProtocol.
Context {St : Type} `{ControlPlane St}.

Local Ltac step lem :=
  eapply spec_bind; [apply lem | intros ? ? Hq; cbn in Hq; subst | intros ? ? ? Habs; discriminate Habs].
Local Ltac quiet_guard :=
  apply spec_quiet_bind; [stable_tac | intros _ | intros ? Habs; discriminate Habs].

(** (C2) Refinement of the provisioning protocol: whatever the control
    plane answers, the requests a run of [main] appends to the log, read
    as (method, path under [CBC_URL]), form a run of the protocol
    [proto_step] from [Start]; a run that ends normally has reached
    [UserRequested], so it created the project and the cluster, listed
    the clusters, checked the status at most 30 times, and opened the
    allow-list before creating the database user. *)
Theorem main_follows_protocol (env : Env) (w : World St) :
  exists t q, w_log (fst (main env w)) = w_log w ++ t /\
    runs Start (map (action (py_str (of_env (CBC_URL env)))) t) q /\
    (snd (main env w) = Ok tt -> exists id, q = UserRequested id).
Proof.
  revert w.
  change (spec (py_str (url (cloud_of env))) Start (main (St := St) env)
            (fun r q => r = Ok tt -> exists id, q = UserRequested id)).
  unfold main.
  eapply spec_bind; [apply get_cloud_status_step | | intros ? ? ? Habs; discriminate Habs].
  intros [cloud_id provider] q Hq. cbn in Hq. subst.
  do 3 quiet_guard. step create_project_step. do 2 quiet_guard. step create_cluster_step.
  step get_clusters_step. do 2 quiet_guard.
  eapply spec_bind; [apply (poll_cluster_listed _ _ 29); lia | | intros ? ? ? Habs; discriminate Habs].
  intros [] q [k ->]. step enable_access_step. quiet_guard. step create_database_user_step. quiet_guard.
  eapply spec_consequence; [apply spec_quiet; stable_tac |].
  intros [] q -> Habs; [eexists; reflexivity | discriminate Habs].
Qed.

End MainProtocol.
