(* ===== verification/Confidential.v ===== *)
(** Confidentiality of the credentials (non-interference).  Two runs of
    [main] whose environments differ only in [CBC_ACCESS_KEY] and
    [CBC_SECRET_KEY], against the same control plane, are compared step
    by step: when the control plane's answers do not depend on the
    headers of a request, the two runs print the same lines, end with the
    same outcome and send requests that differ in their headers only.  So
    no line [main] prints, and no exception it ends with, carries the key,
    the secret or anything computed from them (the signature).

    The comparison is the relation [low_run] between two programs: from
    low-equivalent worlds ([low_eq]: same control plane, console and
    clock, and logs equal but for the headers) they reach low-equivalent
    worlds with equal results.  It is closed under [bind], [try] and the
    primitive steps, and [low_tac] follows two programs of the same shape
    along it. *)

From Stdlib Require Import String ZArith List Lia Bool RelationClasses.
From S2P Require Import Prelude PyData Bytes Effects Signing Helpers Bootstrap.
Import ListNotations.
Open Scope pystr_scope.
Open Scope pym_scope.

(** ** Low equivalence *)

(** Two requests that differ at most in their headers. *)
Definition same_but_headers (r1 r2 : HttpRequest) : Prop :=
  rq_verb r1 = rq_verb r2 /\ rq_url r1 = rq_url r2 /\ rq_json r1 = rq_json r2.

#[export] Instance same_but_headers_equiv : Equivalence same_but_headers.
Proof.
  split; unfold same_but_headers.
  - intros r. auto.
  - intros r1 r2 (? & ? & ?). auto.
  - intros r1 r2 r3 (? & ? & ?) (? & ? & ?). repeat split; congruence.
Qed.

(** Two worlds an observer of the console, the clock, the control plane
    and the requests' methods, URLs and bodies cannot tell apart. *)
Definition low_eq {S} (w1 w2 : World S) : Prop :=
  w_srv w1 = w_srv w2 /\ w_out w1 = w_out w2 /\ w_clock w1 = w_clock w2 /\
  Forall2 same_but_headers (w_log w1) (w_log w2).

Lemma Forall2_equiv_refl {A} (R : A -> A -> Prop) `{Reflexive A R} (l : list A) : Forall2 R l l.
Proof. induction l; constructor; auto. Qed.

Lemma Forall2_equiv_sym {A} (R : A -> A -> Prop) `{Symmetric A R} (l1 l2 : list A) :
  Forall2 R l1 l2 -> Forall2 R l2 l1.
Proof. induction 1; constructor; auto. Qed.

Lemma Forall2_equiv_trans {A} (R : A -> A -> Prop) `{Transitive A R} (l1 l2 l3 : list A) :
  Forall2 R l1 l2 -> Forall2 R l2 l3 -> Forall2 R l1 l3.
Proof.
  intros H12. revert l3. induction H12; intros l3 H23; inversion H23; subst; constructor; eauto.
Qed.

#[export] Instance low_eq_equiv {S} : Equivalence (@low_eq S).
Proof.
  split; unfold low_eq.
  - intros w. repeat split; auto. apply Forall2_equiv_refl. typeclasses eauto.
  - intros w1 w2 (? & ? & ? & ?). repeat split; auto. apply Forall2_equiv_sym; [typeclasses eauto | auto].
  - intros w1 w2 w3 (? & ? & ? & ?) (? & ? & ? & ?). repeat split; try congruence.
    eapply Forall2_equiv_trans; [typeclasses eauto | eauto | eauto].
Qed.

(** A control plane whose answer and next state do not depend on the
    headers of a request. *)
Definition header_blind (S : Type) `{ControlPlane S} : Prop :=
  forall s r1 r2, same_but_headers r1 r2 -> serve s r1 = serve s r2.

Lemma script_plane_blind : header_blind (list Response).
Proof. intros s r1 r2 _. reflexivity. Qed.

(** Whether [bytes(secret, 'utf-8')] succeeds, and with which exception
    it fails: the only thing of the secret a run may reveal. *)
Definition key_agree (v1 v2 : PyVal) : Prop :=
  match py_bytes_utf8 v1, py_bytes_utf8 v2 with
  | Ok _, Ok _ => True
  | Raise e1, Raise e2 => e1 = e2
  | _, _ => False
  end.

(** ** Two runs in step *)

Section LowRun.
Context {S : Type} `{ControlPlane S}.

Definition low_run {A} (m1 m2 : M S A) : Prop :=
  forall w1 w2, low_eq w1 w2 -> low_eq (fst (m1 w1)) (fst (m2 w2)) /\ snd (m1 w1) = snd (m2 w2).

Lemma low_ret {A} (a : A) : low_run (ret a) (ret a).
Proof. intros w1 w2 Hw. auto. Qed.

Lemma low_raise {A} (e : PyExc) : low_run (A := A) (raise e) (raise e).
Proof. intros w1 w2 Hw. auto. Qed.

Lemma low_lift {A} (r : Result A) : low_run (lift r) (lift r).
Proof. intros w1 w2 Hw. auto. Qed.

Lemma low_now : low_run now_ms now_ms.
Proof. intros w1 w2 Hw. cbn. split; [exact Hw | f_equal; apply Hw]. Qed.

Lemma low_print (s : string) : low_run (print s) (print s).
Proof.
  intros w1 w2 (Hs & Ho & Hc & Hl). cbn. split; [| reflexivity].
  repeat split; cbn; congruence.
Qed.

Lemma low_sleep (secs : Z) : low_run (sleep secs) (sleep secs).
Proof.
  intros w1 w2 (Hs & Ho & Hc & Hl). cbn. split; [| reflexivity].
  repeat split; cbn; try congruence; exact Hl.
Qed.

Lemma low_bind {A B} (m1 m2 : M S A) (g1 g2 : A -> M S B) :
  low_run m1 m2 -> (forall a, low_run (g1 a) (g2 a)) -> low_run (bind m1 g1) (bind m2 g2).
Proof.
  intros Hm Hg w1 w2 Hw. unfold bind. specialize (Hm w1 w2 Hw).
  destruct (m1 w1) as [w1' r1], (m2 w2) as [w2' r2]. cbn in Hm. destruct Hm as [Hw' <-].
  destruct r1 as [a | e]; [apply Hg; exact Hw' | auto].
Qed.

Lemma low_catch {A} (m1 m2 h1 h2 : M S A) :
  low_run m1 m2 -> low_run h1 h2 -> low_run (catch_keyerror m1 h1) (catch_keyerror m2 h2).
Proof.
  intros Hm Hh w1 w2 Hw. unfold catch_keyerror. specialize (Hm w1 w2 Hw).
  destruct (m1 w1) as [w1' r1], (m2 w2) as [w2' r2]. cbn in Hm. destruct Hm as [Hw' <-].
  destruct r1 as [a | [] ]; auto.
Qed.

(** A raise of [bytes(secret)] ends both runs alike, and two keys that
    encode let both runs go on. *)
Lemma low_lift_keys {A B} (k1 k2 : A) (g1 g2 : A -> M S B) :
  low_run (g1 k1) (g2 k2) -> low_run (bind (lift (Ok k1)) g1) (bind (lift (Ok k2)) g2).
Proof. intros Hg w1 w2 Hw. exact (Hg w1 w2 Hw). Qed.

Lemma low_lift_raise {A B} (e : PyExc) (g1 g2 : A -> M S B) :
  low_run (bind (lift (Raise e)) g1) (bind (lift (Raise e)) g2).
Proof. intros w1 w2 Hw. auto. Qed.

End LowRun.

Create HintDb lowrun.

(** [low_tac]: follow two programs of the same shape, splitting them
    along [bind], [try], [if] and [match] (the two sides share the values
    they branch on, since [low_run] makes the results equal), closing the
    primitive steps by their rules and the calls by the hints of [lowrun]. *)
Ltac low_tac :=
  repeat match goal with
  | |- low_run (bind _ _) (bind _ _) => apply low_bind; [| intros ?]
  | |- low_run (catch_keyerror _ _) (catch_keyerror _ _) => apply low_catch
  | |- low_run (if ?b then _ else _) _ => destruct b
  | |- low_run (match ?x with _ => _ end) _ => destruct x
  | |- low_run (ret _) (ret _) => apply low_ret
  | |- low_run (raise _) (raise _) => apply low_raise
  | |- low_run exit exit => apply low_raise
  | |- low_run (lift _) (lift _) => apply low_lift
  | |- low_run now_ms now_ms => apply low_now
  | |- low_run (print _) (print _) => apply low_print
  | |- low_run (sleep _) (sleep _) => apply low_sleep
  | |- low_run _ _ => solve [eauto with lowrun]
  end.

(** ** The steps of [main] in step *)

(** The environment [env] with other credentials. *)
Definition with_credentials (env : Env) (access_key secret_key : option string) : Env :=
  mkEnv access_key secret_key (CBC_URL env) (CBC_PROJECT env) (CBC_CLUSTER env)
    (USERNAME env) (PASSWORD env).

Lemma key_agree_of_env (s1 s2 : option string) :
  (s1 = None <-> s2 = None) -> key_agree (of_env s1) (of_env s2).
Proof.
  unfold key_agree. destruct s1, s2; cbn; intuition congruence.
Qed.

Section Blind.
Context {S : Type} `{ControlPlane S}.
Hypothesis blind : header_blind S.

Lemma low_http (r1 r2 : HttpRequest) : same_but_headers r1 r2 -> low_run (http r1) (http r2).
Proof.
  intros Hr w1 w2 (Hs & Ho & Hc & Hl). unfold http.
  rewrite Hs, (blind (w_srv w2) r1 r2 Hr).
  destruct (serve (w_srv w2) r2) as [s' [resp |]]; cbn;
    (split; [repeat split; auto; apply Forall2_app; auto | reflexivity]).
Qed.

(** Two clients on the same URL whose secrets both encode, or both fail
    to, send requests that differ in their headers only. *)
Lemma low_request (c1 c2 : CouchbaseCloud) (endpoint method : string) (data : PyVal) :
  url c1 = url c2 -> key_agree (secret c1) (secret c2) ->
  low_run (request c1 endpoint method data) (request c2 endpoint method data).
Proof.
  intros Hu Hk. unfold request. apply low_bind; [apply low_now | intros now].
  unfold key_agree in Hk.
  destruct (py_bytes_utf8 (secret c1)) as [k1 | e1], (py_bytes_utf8 (secret c2)) as [k2 | e2];
    try contradiction; [apply low_lift_keys | subst; apply low_lift_raise].
  repeat match goal with |- low_run (if ?b then _ else _) _ => destruct b end;
    try apply low_raise; apply low_http; repeat split; cbn; congruence.
Qed.

#[local] Hint Resolve low_request : lowrun.

Lemma low_poll_cluster (c1 c2 : CouchbaseCloud) (cluster_id : PyVal) (n : nat) :
  url c1 = url c2 -> key_agree (secret c1) (secret c2) ->
  low_run (poll_cluster c1 cluster_id n) (poll_cluster c2 cluster_id n).
Proof.
  intros Hu Hk. induction n as [| n IH]; cbn [poll_cluster]; unfold_steps; low_tac.
Qed.

#[local] Hint Resolve low_poll_cluster : lowrun.

Lemma low_main (env : Env) (access_key secret_key : option string) :
  (CBC_SECRET_KEY env = None <-> secret_key = None) ->
  low_run (main env) (main (with_credentials env access_key secret_key)).
Proof.
  intros Hs. pose proof (key_agree_of_env _ _ Hs) as Hk.
  assert (Hu : url (cloud_of env) = url (cloud_of (with_credentials env access_key secret_key)))
    by reflexivity.
  unfold main, poll_budget. cbv zeta. unfold_steps. low_tac.
Qed.

End Blind.

(** (C7) Confidentiality of the credentials: against a control plane
    whose answers do not depend on the headers of a request, two runs of
    [main] whose environments differ only in the access key and the secret
    key (both secrets set, or both unset) print the same lines, end with
    the same outcome and send requests with the same methods, URLs and
    bodies.  No line [main] prints and no exception it ends with depends
    on the credentials. *)
Theorem main_credentials_confidential {St : Type} `{ControlPlane St} (Hblind : header_blind St)
    (env : Env) (access_key secret_key : option string) (w : World St) :
  (CBC_SECRET_KEY env = None <-> secret_key = None) ->
  let w1 := main env w in
  let w2 := main (with_credentials env access_key secret_key) w in
  w_out (fst w1) = w_out (fst w2) /\ snd w1 = snd w2 /\
  Forall2 same_but_headers (w_log (fst w1)) (w_log (fst w2)).
Proof.
  intros Hs. cbv zeta.
  destruct (low_main Hblind env access_key secret_key Hs w w (reflexivity w))
    as [(_ & Ho & _ & Hl) Hr].
  auto.
Qed.

(** ** Witness: a scripted control plane, two different key pairs *)

Definition conf_env : Env :=
  mkEnv (Some "AK1"%string) (Some "SK1"%string) (Some "https://cloudapi.cloud.couchbase.com"%string) (Some "proj"%string)
    (Some "clus"%string) (Some "user"%string) (Some "pass"%string).

Definition conf_script : list Response :=
  [mkResponse 200 (Some (PDict [("data"%string, PList [PDict [("id"%string, PStr "cloud-1");
                                                           ("provider"%string, PStr "aws")]])]));
   mkResponse 201 (Some (PDict [("id"%string, PStr "proj-1")]))].

Lemma main_credentials_confidential_witness :
  (CBC_SECRET_KEY conf_env = None <-> Some "SK2"%string = None) /\
  let w := mkWorld conf_script [] [] 1700000000000%Z in
  w_out (fst (main conf_env w))
  = w_out (fst (main (with_credentials conf_env (Some "AK2"%string) (Some "SK2"%string)) w)).
Proof.
  split; [cbn; split; discriminate |].
  apply (main_credentials_confidential script_plane_blind conf_env (Some "AK2"%string) (Some "SK2"%string)).
  cbn. split; discriminate.
Defined.
