(* ===== verification/CloudApi.v ===== *)
(** A stateful model of the control-plane API of spec section 6, as an
    instance of [ControlPlane]: the account it authenticates against, the
    connected clouds, the projects and the clusters it holds, each cluster
    with its allow-list and its database users.  A request is checked with
    [verify_request] (answer 401 otherwise), its path under the base URL
    is routed to the table's eight endpoints, and every other path is
    answered 404.  A cluster is ready from the time given by the
    [Couchbase-Timestamp] header of its creation plus the deployment time
    [cp_deploy_ms].  Each step of [main] is run against the model by its
    own lemma, with the total-correctness predicate [ok_wp]; [CloudMain]
    composes them. *)

From Stdlib Require Import String Ascii ZArith List Lia Bool DecimalString.
From S2P Require Import Prelude PyData Bytes Effects Signing Helpers Bootstrap.
Import ListNotations.
Open Scope pystr_scope.
Open Scope pym_scope.

(** ** The state of the control plane *)

(** The account the API keys belong to, and the base URL it serves. *)
Record Account : Type := mkAccount {
  ac_key : string;
  ac_secret : string;
  ac_base : string
}.

Record Cluster : Type := mkCluster {
  cl_id : string;
  cl_name : PyVal;
  cl_project : string;
  cl_ready_at : Z;              (** epoch ms at which the deployment ends *)
  cl_allowlist : list PyVal;
  cl_users : list PyVal
}.

Record Plane : Type := mkPlane {
  cp_account : Account;
  cp_clouds : list PyVal;             (** the entries of [GET /v2/clouds] *)
  cp_projects : list (string * PyVal);  (** id and name *)
  cp_clusters : list Cluster;
  cp_next : nat;                      (** the counter fresh ids are made of *)
  cp_deploy_ms : Z                    (** how long a deployment takes *)
}.

Definition set_projects (st : Plane) (ps : list (string * PyVal)) : Plane :=
  mkPlane (cp_account st) (cp_clouds st) ps (cp_clusters st) (cp_next st) (cp_deploy_ms st).

Definition set_clusters (st : Plane) (cs : list Cluster) : Plane :=
  mkPlane (cp_account st) (cp_clouds st) (cp_projects st) cs (cp_next st) (cp_deploy_ms st).

Definition bump (st : Plane) : Plane :=
  mkPlane (cp_account st) (cp_clouds st) (cp_projects st) (cp_clusters st) (S (cp_next st))
    (cp_deploy_ms st).

Definition fresh_id (prefix : string) (n : nat) : string := prefix +:+ py_int_str (Z.of_nat n).

(** ** Responses *)

Definition respond (code : Z) (v : PyVal) : Response := mkResponse code (Some v).

Definition api_error (code : Z) (error_type message : string) : Response :=
  respond code (PDict [("errorType"%string, PStr error_type); ("message"%string, PStr message)]).

Definition unauthorized : Response := api_error 401 "Unauthorized" "invalid signature".
Definition not_found : Response := api_error 404 "NotFound" "no such resource".
Definition invalid : Response := api_error 422 "InvalidRequest" "malformed request body".

(** ** Clusters *)

Definition find_cluster (id : string) (cs : list Cluster) : option Cluster :=
  find (fun c => String.eqb (cl_id c) id) cs.

Definition update_cluster (id : string) (f : Cluster -> Cluster) (cs : list Cluster) : list Cluster :=
  map (fun c => if String.eqb (cl_id c) id then f c else c) cs.

Definition add_rule (rule : PyVal) (c : Cluster) : Cluster :=
  mkCluster (cl_id c) (cl_name c) (cl_project c) (cl_ready_at c) (cl_allowlist c ++ [rule]) (cl_users c).

Definition add_user (user : PyVal) (c : Cluster) : Cluster :=
  mkCluster (cl_id c) (cl_name c) (cl_project c) (cl_ready_at c) (cl_allowlist c) (cl_users c ++ [user]).

Definition cluster_status (now : Z) (c : Cluster) : string :=
  if (cl_ready_at c <=? now)%Z then "ready" else "deploying".

Definition cluster_summary (c : Cluster) : PyVal :=
  PDict [("id"%string, PStr (cl_id c)); ("name"%string, cl_name c)].

(** ** The endpoints *)

Definition h_list_clouds (st : Plane) : Plane * Response :=
  (st, respond 200 (PDict [("data"%string, PList (cp_clouds st))])).

Definition h_create_project (st : Plane) (body : option PyVal) : Plane * Response :=
  match body with
  | Some (PDict kv) =>
      match dict_get "name" kv with
      | Some name =>
          let id := fresh_id "proj-" (cp_next st) in
          (bump (set_projects st (cp_projects st ++ [(id, name)])),
           respond 201 (PDict [("id"%string, PStr id)]))
      | None => (st, invalid)
      end
  | _ => (st, invalid)
  end.

Definition h_create_cluster (st : Plane) (body : option PyVal) (now : Z) : Plane * Response :=
  match body with
  | Some (PDict kv) =>
      match dict_get "projectId" kv, dict_get "name" kv with
      | Some (PStr pid), Some name =>
          if existsb (fun p => String.eqb (fst p) pid) (cp_projects st) then
            let c := mkCluster (fresh_id "clus-" (cp_next st)) name pid (now + cp_deploy_ms st) [] [] in
            (bump (set_clusters st (cp_clusters st ++ [c])), mkResponse 202 None)
          else (st, not_found)
      | _, _ => (st, invalid)
      end
  | _ => (st, invalid)
  end.

Definition h_list_clusters (st : Plane) : Plane * Response :=
  (st, respond 200 (PDict [("data"%string, PList (map cluster_summary (cp_clusters st)))])).

Definition h_cluster_status (st : Plane) (id : string) (now : Z) : Plane * Response :=
  match find_cluster id (cp_clusters st) with
  | Some c => (st, respond 200 (PDict [("id"%string, PStr id); ("status"%string, PStr (cluster_status now c))]))
  | None => (st, not_found)
  end.

Definition h_cluster_post (st : Plane) (id : string) (f : PyVal -> Cluster -> Cluster) (code : Z)
    (body : option PyVal) : Plane * Response :=
  match find_cluster id (cp_clusters st), body with
  | Some _, Some v => (set_clusters st (update_cluster id (f v) (cp_clusters st)), mkResponse code None)
  | None, _ => (st, not_found)
  | Some _, None => (st, invalid)
  end.

Definition h_delete_cluster (st : Plane) (id : string) : Plane * Response :=
  match find_cluster id (cp_clusters st) with
  | Some _ => (set_clusters st (filter (fun c => negb (String.eqb (cl_id c) id)) (cp_clusters st)),
               mkResponse 202 None)
  | None => (st, not_found)
  end.

(** ** Routing *)

(** Split at the first slash. *)
Fixpoint split_slash (s : string) : string * option string :=
  match s with
  | EmptyString => (EmptyString, None)
  | String c s' =>
      if Ascii.eqb c "/" then (EmptyString, Some s')
      else let '(a, b) := split_slash s' in (String c a, b)
  end.

(** [/v2/clusters/{id}] and [/v2/clusters/{id}/{sub}]. *)
Definition cluster_route (path : string) : option (string * option string) :=
  option_map split_slash (strip_prefix "/v2/clusters/" path).

Definition route (st : Plane) (v : Verb) (path : string) (body : option PyVal) (now : Z)
    : Plane * Response :=
  match v with
  | GET =>
      if String.eqb path "/v2/clouds" then h_list_clouds st
      else if String.eqb path "/v2/clusters" then h_list_clusters st
      else match cluster_route path with
           | Some (id, None) => h_cluster_status st id now
           | _ => (st, not_found)
           end
  | POST =>
      if String.eqb path "/v2/projects" then h_create_project st body
      else if String.eqb path "/v2/clusters" then h_create_cluster st body now
      else match cluster_route path with
           | Some (id, Some sub) =>
               if String.eqb sub "allowlist" then h_cluster_post st id add_rule 202 body
               else if String.eqb sub "users" then h_cluster_post st id add_user 201 body
               else (st, not_found)
           | _ => (st, not_found)
           end
  | DELETE =>
      match cluster_route path with
      | Some (id, None) => h_delete_cluster st id
      | _ => (st, not_found)
      end
  end.

(** The time of a request: its [Couchbase-Timestamp] header. *)
Definition request_time (req : HttpRequest) : option Z :=
  match header_get "Couchbase-Timestamp" (rq_headers req) with
  | Some ts => py_int_parse ts
  | None => None
  end.

#[export] Instance cloud_api : ControlPlane Plane :=
  fun st req =>
    let acc := cp_account st in
    if verify_request (ac_key acc) (ac_secret acc) (ac_base acc) req then
      match strip_prefix (ac_base acc) (rq_url req), request_time req with
      | Some path, Some now =>
          let '(st', res) := route st (rq_verb req) path (rq_json req) now in (st', Some res)
      | _, _ => (st, Some unauthorized)
      end
    else (st, Some unauthorized).

(** ** Lemmas on ids and paths *)

Lemma digits_no_slash (u : Decimal.uint) : has_char "/" (NilEmpty.string_of_uint u) = false.
Proof. induction u; simpl; first [reflexivity | exact IHu]. Qed.

Lemma py_int_str_no_slash (z : Z) : has_char "/" (py_int_str z) = false.
Proof.
  unfold py_int_str, NilZero.string_of_int, NilZero.string_of_uint.
  destruct (Z.to_int z) as [u | u]; simpl; destruct u; simpl;
    first [reflexivity | apply digits_no_slash].
Qed.

Lemma fresh_id_no_slash (prefix : string) (n : nat) :
  has_char "/" prefix = false -> has_char "/" (fresh_id prefix n) = false.
Proof.
  unfold fresh_id. induction prefix as [| c p IH]; cbn [String.append has_char].
  - intros _. apply py_int_str_no_slash.
  - intros H. apply orb_false_iff in H as [-> H]. auto.
Qed.

Lemma split_slash_plain (s : string) : has_char "/" s = false -> split_slash s = (s, None).
Proof.
  induction s as [| c s IH]; cbn [split_slash has_char]; [reflexivity |].
  intros H. apply orb_false_iff in H as [Hc H]. rewrite Ascii.eqb_sym, Hc, IH by exact H. reflexivity.
Qed.

Lemma split_slash_sub (s t : string) :
  has_char "/" s = false -> split_slash (s +:+ String "/" t) = (s, Some t).
Proof.
  induction s as [| c s IH]; cbn [split_slash has_char String.append]; [reflexivity |].
  intros H. apply orb_false_iff in H as [Hc H]. rewrite Ascii.eqb_sym, Hc, IH by exact H. reflexivity.
Qed.

Lemma cluster_route_id (id : string) :
  has_char "/" id = false -> cluster_route ("/v2/clusters/" +:+ id) = Some (id, None).
Proof. intros H. unfold cluster_route. rewrite strip_prefix_app. cbn [option_map]. now rewrite split_slash_plain. Qed.

Lemma cluster_route_sub (id sub : string) :
  has_char "/" id = false ->
  cluster_route ("/v2/clusters/" +:+ id +:+ "/" +:+ sub) = Some (id, Some sub).
Proof.
  intros H. unfold cluster_route. rewrite strip_prefix_app. cbn [option_map].
  change ("/" +:+ sub) with (String "/" sub). now rewrite split_slash_sub.
Qed.

(** ** A signed request is routed *)

(** The client of [acc]: key, secret and base URL as [main] passes them. *)
Definition client (acc : Account) : CouchbaseCloud :=
  mkCloud (PStr (ac_key acc)) (PStr (ac_secret acc)) (PStr (ac_base acc)).

Lemma serve_signed (st : Plane) (endpoint : string) (v : Verb) (data : PyVal) (now : Z) :
  serve st (signed_request (client (cp_account st)) endpoint v data now
              (utf8_encode (ac_secret (cp_account st))))
  = let '(st', res) := route st v endpoint (match v with POST => Some data | _ => None end) now in
    (st', Some res).
Proof.
  unfold serve, cloud_api.
  rewrite (signed_request_verifies _ _ _ _ _ (ac_key (cp_account st)) _ (ac_base (cp_account st)))
    by reflexivity.
  unfold request_time. cbn [signed_request rq_url rq_headers rq_verb rq_json client url py_str].
  rewrite strip_prefix_app. cbn [request_headers header_get String.eqb Ascii.eqb Bool.eqb andb].
  rewrite py_int_str_roundtrip. reflexivity.
Qed.

(** The cluster paths the helpers build reach the cluster endpoints. *)
Lemma route_status (st : Plane) (id : string) (now : Z) :
  has_char "/" id = false ->
  route st GET (cluster_path (PStr id)) None now = h_cluster_status st id now.
Proof. intros H. unfold route, cluster_path, py_str. now rewrite cluster_route_id. Qed.

Lemma route_sub (st : Plane) (id sub : string) (body : option PyVal) (now : Z) :
  has_char "/" id = false ->
  route st POST (cluster_path (PStr id) +:+ String "/" sub) body now
  = if String.eqb sub "allowlist" then h_cluster_post st id add_rule 202 body
    else if String.eqb sub "users" then h_cluster_post st id add_user 201 body
    else (st, not_found).
Proof.
  intros H. unfold route, cluster_path, py_str. rewrite append_assoc_str.
  change (String "/" sub) with ("/" +:+ sub). now rewrite cluster_route_sub.
Qed.

Lemma existsb_project (ps : list (string * PyVal)) (pid : string) :
  In pid (map fst ps) -> existsb (fun p => String.eqb (fst p) pid) ps = true.
Proof.
  intros Hin. apply existsb_exists. apply in_map_iff in Hin as ((k, v) & <- & Hin).
  exists (k, v). split; [exact Hin | apply String.eqb_refl].
Qed.

(** ** The steps of [main] against the model *)

Section Steps.
Context (acc : Account).

(** A call of the client of [acc] is answered by [route]. *)
Lemma ok_wp_api (endpoint : string) (v : Verb) (data : PyVal) (w : World Plane)
    (Q : Response -> World Plane -> Prop) :
  cp_account (w_srv w) = acc ->
  (let '(st', res) := route (w_srv w) v endpoint (match v with POST => Some data | _ => None end)
                        (w_clock w) in
   Q res (sent w st' (signed_request (client acc) endpoint v data (w_clock w)
                        (utf8_encode (ac_secret acc))))) ->
  ok_wp (request (client acc) endpoint (verb_name v) data) Q w.
Proof.
  intros Hacc HQ.
  destruct (route (w_srv w) v endpoint _ (w_clock w)) as [st' res] eqn:E.
  apply (ok_wp_request _ _ _ _ _ (ac_secret acc) st' res); [reflexivity | | exact HQ].
  rewrite <- Hacc, serve_signed, E. reflexivity.
Qed.

(** An accepted status: the check prints its line and succeeds. *)
Lemma ok_wp_check_accepted (res : Response) (msg : string) (codes : list Z) (w : World Plane)
    (Q : Response * bool -> World Plane -> Prop) :
  status_in res codes = true -> Q (res, true) (add_out w (msg +:+ " Successful")) ->
  ok_wp (check_response_for_errors res msg codes) Q w.
Proof. intros Hs HQ. unfold check_response_for_errors. now rewrite Hs. Qed.

Lemma get_cloud_status_api (w : World Plane) (kv : list (string * PyVal)) (rest : list PyVal)
    (cid prov : PyVal) :
  cp_account (w_srv w) = acc -> cp_clouds (w_srv w) = PDict kv :: rest ->
  dict_get "id" kv = Some cid -> dict_get "provider" kv = Some prov ->
  ok_wp (get_cloud_status (client acc))
    (fun a w' => a = (cid, prov) /\ w_srv w' = w_srv w /\ w_clock w' = w_clock w) w.
Proof.
  intros Ha Hc Hi Hp. unfold get_cloud_status.
  apply ok_wp_bind, (ok_wp_api _ GET); [exact Ha |]. cbn beta iota zeta.
  apply ok_wp_bind, ok_wp_check_accepted; [reflexivity |]. cbn beta iota.
  wp_tac. rewrite Hc. wp_tac. cbn [py_getitem]. rewrite Hi. wp_tac. rewrite Hp. wp_tac. auto.
Qed.

Lemma create_project_api (w : World Plane) (name : PyVal) :
  cp_account (w_srv w) = acc ->
  ok_wp (create_project (client acc) name)
    (fun a w' => a = PStr (fresh_id "proj-" (cp_next (w_srv w))) /\
       w_srv w' = bump (set_projects (w_srv w)
                          (cp_projects (w_srv w) ++ [(fresh_id "proj-" (cp_next (w_srv w)), name)])) /\
       w_clock w' = w_clock w) w.
Proof.
  intros Ha. unfold create_project.
  apply ok_wp_bind, (ok_wp_api _ POST); [exact Ha |]. cbn beta iota zeta.
  apply ok_wp_bind, ok_wp_check_accepted; [reflexivity |]. wp_tac. auto.
Qed.

Lemma create_cluster_api (w : World Plane) (name cloud_id : PyVal) (pid : string) :
  cp_account (w_srv w) = acc -> In pid (map fst (cp_projects (w_srv w))) ->
  ok_wp (create_cluster (client acc) name cloud_id (PStr pid))
    (fun a w' => a = true /\
       w_srv w' = bump (set_clusters (w_srv w) (cp_clusters (w_srv w) ++
                    [mkCluster (fresh_id "clus-" (cp_next (w_srv w))) name pid
                       (w_clock w + cp_deploy_ms (w_srv w)) [] []])) /\
       w_clock w' = w_clock w) w.
Proof.
  intros Ha Hp. unfold create_cluster.
  apply ok_wp_bind, (ok_wp_api _ POST); [exact Ha |].
  cbn [route String.eqb Ascii.eqb Bool.eqb andb h_create_cluster cluster_request dict_get].
  rewrite existsb_project by exact Hp. cbn beta iota zeta.
  apply ok_wp_bind, ok_wp_check_accepted; [reflexivity |]. wp_tac. auto.
Qed.

Lemma get_clusters_api (w : World Plane) (c : Cluster) (rest : list Cluster) :
  cp_account (w_srv w) = acc -> cp_clusters (w_srv w) = c :: rest ->
  ok_wp (get_clusters (client acc))
    (fun a w' => a = PStr (cl_id c) /\ w_srv w' = w_srv w /\ w_clock w' = w_clock w) w.
Proof.
  intros Ha Hc. unfold get_clusters.
  apply ok_wp_bind, (ok_wp_api _ GET); [exact Ha |]. cbn beta iota zeta.
  apply ok_wp_bind, ok_wp_check_accepted; [reflexivity |]. wp_tac. rewrite Hc. wp_tac. auto.
Qed.

Lemma check_cluster_ready_api (w : World Plane) (c : Cluster) :
  cp_account (w_srv w) = acc -> has_char "/" (cl_id c) = false ->
  find_cluster (cl_id c) (cp_clusters (w_srv w)) = Some c ->
  ok_wp (check_cluster_ready (client acc) (PStr (cl_id c)))
    (fun a w' => a = (respond 200 (PDict [("id"%string, PStr (cl_id c));
                                         ("status"%string, PStr (cluster_status (w_clock w) c))]), true)
                 /\ w_srv w' = w_srv w /\ w_clock w' = w_clock w) w.
Proof.
  intros Ha Hs Hf. unfold check_cluster_ready.
  apply ok_wp_bind, (ok_wp_api _ GET); [exact Ha |]. rewrite route_status by exact Hs.
  unfold h_cluster_status. rewrite Hf. cbn beta iota zeta.
  apply ok_wp_check_accepted; [reflexivity |]. auto.
Qed.

Lemma enable_access_api (w : World Plane) (id : string) :
  cp_account (w_srv w) = acc -> has_char "/" id = false ->
  find_cluster id (cp_clusters (w_srv w)) <> None ->
  ok_wp (enable_access_to_cluster (client acc) (PStr id))
    (fun a w' => a = true /\
       w_srv w' = set_clusters (w_srv w) (update_cluster id (add_rule allowlist_rule) (cp_clusters (w_srv w))) /\
       w_clock w' = w_clock w) w.
Proof.
  intros Ha Hs Hf. unfold enable_access_to_cluster.
  apply ok_wp_bind, (ok_wp_api _ POST); [exact Ha |]. rewrite route_sub by exact Hs.
  unfold h_cluster_post. destruct (find_cluster id _); [| contradiction]. cbn beta iota zeta.
  apply ok_wp_bind, ok_wp_check_accepted; [reflexivity |]. wp_tac. auto.
Qed.

Lemma create_database_user_api (w : World Plane) (id : string) (user pw : PyVal) :
  cp_account (w_srv w) = acc -> has_char "/" id = false ->
  find_cluster id (cp_clusters (w_srv w)) <> None ->
  ok_wp (create_database_user (client acc) (PStr id) user pw)
    (fun a w' => a = true /\
       w_srv w' = set_clusters (w_srv w)
                    (update_cluster id (add_user (user_request user pw)) (cp_clusters (w_srv w))) /\
       w_clock w' = w_clock w) w.
Proof.
  intros Ha Hs Hf. unfold create_database_user.
  apply ok_wp_bind, (ok_wp_api _ POST); [exact Ha |]. rewrite route_sub by exact Hs.
  unfold h_cluster_post. destruct (find_cluster id _); [| contradiction]. cbn beta iota zeta.
  apply ok_wp_bind, ok_wp_check_accepted; [reflexivity |]. wp_tac. auto.
Qed.

End Steps.

(** ** The readiness poll against the model *)

Section PollApi.
Context (acc : Account) (c : Cluster).
Hypothesis Hslash : has_char "/" (cl_id c) = false.

(** One turn of the loop: a status check, then either "ready" or a
    minute of sleep and the rest of the loop. *)
Lemma poll_turn_api (n : nat) (w : World Plane) (Q : unit -> World Plane -> Prop) :
  cp_account (w_srv w) = acc -> find_cluster (cl_id c) (cp_clusters (w_srv w)) = Some c ->
  (forall w1, w_srv w1 = w_srv w -> w_clock w1 = w_clock w ->
     ((cl_ready_at c <= w_clock w)%Z -> Q tt (add_out w1 "Cluster is ready")) /\
     ((w_clock w < cl_ready_at c)%Z ->
        ok_wp (poll_cluster (client acc) (PStr (cl_id c)) n) Q
          (mkWorld (w_srv w1) (w_log w1) (w_out w1 ++ ["Checking again in a minute..."%string])
                   (w_clock w1 + 60 * 1000)))) ->
  ok_wp (poll_cluster (client acc) (PStr (cl_id c)) (S n)) Q w.
Proof.
  intros Ha Hf Hk. cbn [poll_cluster]. apply ok_wp_bind.
  eapply ok_wp_consequence; [apply check_cluster_ready_api; assumption |].
  intros a w1 (-> & Hs & Hc). destruct (Hk w1 Hs Hc) as [Hready Hwait].
  cbn beta iota. wp_tac. unfold cluster_status.
  destruct (Z.leb_spec (cl_ready_at c) (w_clock w)) as [Hle | Hlt]; cbn; [now apply Hready |].
  wp_tac. now apply Hwait.
Qed.

(** A cluster that is ready at the [n+1]-th check: the loop returns
    normally at the first check that sees it ready, with the control
    plane unchanged. *)
Lemma poll_ready_api (n : nat) (w : World Plane) :
  cp_account (w_srv w) = acc -> find_cluster (cl_id c) (cp_clusters (w_srv w)) = Some c ->
  (cl_ready_at c <= w_clock w + 60000 * Z.of_nat n)%Z ->
  ok_wp (poll_cluster (client acc) (PStr (cl_id c)) (S n))
    (fun _ w' => w_srv w' = w_srv w /\
                 (cl_ready_at c <= w_clock w' <= w_clock w + 60000 * Z.of_nat n)%Z) w.
Proof.
  revert w. induction n as [| n IH]; intros w Ha Hf Hr;
    apply poll_turn_api; auto; intros w1 Hs Hc;
    (split; [intros Hle; cbn; rewrite Hs, Hc; split; [reflexivity | lia] |]); intros Hlt.
  - lia.
  - eapply ok_wp_consequence; [apply IH; cbn [w_srv w_clock]; rewrite ?Hs, ?Hc; auto; lia |].
    intros [] w' [Hs' Hc']. cbn [w_srv w_clock] in Hs', Hc'. rewrite Hs in Hs'. rewrite Hc in Hc'.
    split; [exact Hs' | lia].
Qed.

(** A cluster that is not ready at any of the [n] checks: the loop
    returns normally after [n] minutes, with the control plane
    unchanged. *)
Lemma poll_exhausted_api (n : nat) (w : World Plane) :
  cp_account (w_srv w) = acc -> find_cluster (cl_id c) (cp_clusters (w_srv w)) = Some c ->
  (w_clock w + 60000 * Z.of_nat n < cl_ready_at c + 60000)%Z ->
  ok_wp (poll_cluster (client acc) (PStr (cl_id c)) n)
    (fun _ w' => w_srv w' = w_srv w /\ w_clock w' = (w_clock w + 60000 * Z.of_nat n)%Z) w.
Proof.
  revert w. induction n as [| n IH]; intros w Ha Hf Hr.
  - apply ok_wp_ret. cbn. split; [reflexivity | lia].
  - apply poll_turn_api; auto. intros w1 Hs Hc. split; [lia |]. intros Hlt.
    eapply ok_wp_consequence; [apply IH; cbn [w_srv w_clock]; rewrite ?Hs, ?Hc; auto; lia |].
    intros [] w' [Hs' Hc']. cbn [w_srv w_clock] in Hs', Hc'. rewrite Hs in Hs'. rewrite Hc in Hc'.
    split; [exact Hs' | lia].
Qed.

(** Whatever the deployment time: the loop returns normally, with the
    control plane unchanged. *)
Lemma poll_any_api (n : nat) (w : World Plane) :
  cp_account (w_srv w) = acc -> find_cluster (cl_id c) (cp_clusters (w_srv w)) = Some c ->
  ok_wp (poll_cluster (client acc) (PStr (cl_id c)) n) (fun _ w' => w_srv w' = w_srv w) w.
Proof.
  revert w. induction n as [| n IH]; intros w Ha Hf; [now apply ok_wp_ret |].
  apply poll_turn_api; auto. intros w1 Hs _. split; [intros _; exact Hs |]. intros _.
  eapply ok_wp_consequence; [apply IH; cbn [w_srv]; rewrite Hs; auto |].
  intros [] w' Hs'. cbn [w_srv] in Hs'. congruence.
Qed.

End PollApi.
