(* ===== verification/CloudMain.v ===== *)
(** Runs of [main] against the control-plane model of [CloudApi],
    composed from the per-step lemmas there: with deployments of at most
    29 minutes [main] provisions a ready cluster; with longer ones it
    reports success on a cluster that is still deploying; with a cluster
    already in the account it configures that older cluster instead of
    the one it created (the "first entry" correlation of spec section 9). *)

From Stdlib Require Import String Ascii ZArith List Lia Bool.
From S2P Require Import Prelude PyData Bytes Effects Signing Helpers Bootstrap CloudApi.
Import ListNotations.
Open Scope pystr_scope.
Open Scope pym_scope.

(** ** [main] against the model *)

(** The environment of a run: the account's credentials and base URL,
    and the names [main] reads. *)
Definition env_for (acc : Account) (project cluster user password : string) : Env :=
  mkEnv (Some (ac_key acc)) (Some (ac_secret acc)) (Some (ac_base acc))
        (Some project) (Some cluster) (Some user) (Some password).

Lemma find_cluster_single (c : Cluster) : find_cluster (cl_id c) [c] = Some c.
Proof. unfold find_cluster. cbn. now rewrite String.eqb_refl. Qed.

Lemma update_cluster_single (id : string) (c : Cluster) (f : Cluster -> Cluster) :
  cl_id c = id -> update_cluster id f [c] = [f c].
Proof. intros <-. unfold update_cluster. cbn. now rewrite String.eqb_refl. Qed.

Lemma find_cluster_one (c c' : Cluster) : cl_id c' = cl_id c -> find_cluster (cl_id c) [c'] <> None.
Proof. intros E. unfold find_cluster. cbn. now rewrite E, String.eqb_refl. Qed.

Lemma find_cluster_head (c : Cluster) (cs : list Cluster) : find_cluster (cl_id c) (c :: cs) = Some c.
Proof. unfold find_cluster. cbn. now rewrite String.eqb_refl. Qed.

Lemma find_cluster_head_some (c : Cluster) (cs : list Cluster) : find_cluster (cl_id c) (c :: cs) <> None.
Proof. now rewrite find_cluster_head. Qed.

Lemma find_cluster_update_head (c : Cluster) (cs : list Cluster) (f : Cluster -> Cluster) :
  cl_id (f c) = cl_id c -> find_cluster (cl_id c) (update_cluster (cl_id c) f (c :: cs)) <> None.
Proof. intros E. unfold find_cluster, update_cluster. cbn. now rewrite String.eqb_refl, E, String.eqb_refl. Qed.

Lemma in_update_same (c : Cluster) (cs : list Cluster) (id : string) (f : Cluster -> Cluster) :
  In c cs -> cl_id c = id -> In (f c) (update_cluster id f cs).
Proof.
  intros Hin <-. unfold update_cluster. apply in_map_iff. exists c. now rewrite String.eqb_refl.
Qed.

Lemma in_update_other (c : Cluster) (cs : list Cluster) (id : string) (f : Cluster -> Cluster) :
  In c cs -> cl_id c <> id -> In c (update_cluster id f cs).
Proof.
  intros Hin Hne. unfold update_cluster. apply in_map_iff. exists c.
  now rewrite (proj2 (String.eqb_neq _ _) Hne).
Qed.

Lemma in_last_project (ps : list (string * PyVal)) (pid : string) (v : PyVal) :
  In pid (map fst (ps ++ [(pid, v)])).
Proof. rewrite map_app, in_app_iff. right. left. reflexivity. Qed.

(** [world_norm]: rewrite the worlds of a run back to its first one. *)
Local Ltac world_norm :=
  repeat (cbn [w_srv w_clock w_out add_out cp_account cp_projects cp_clusters cp_next cp_deploy_ms
               cl_ready_at bump set_projects set_clusters app];
          match goal with
          | H : w_srv _ = _ |- _ => progress rewrite H
          | H : w_clock _ = _ |- _ => progress rewrite H
          | H : cp_clusters (w_srv _) = _ |- _ => progress rewrite H
          end);
  cbn [cp_account cp_projects cp_clusters cp_next cp_deploy_ms cl_ready_at bump set_projects
       set_clusters app];
  repeat rewrite update_cluster_single by reflexivity.

(** [api_step L]: run one helper by its lemma [L] against the model. *)
Local Ltac api_step L :=
  eapply ok_wp_consequence;
  [eapply L; world_norm;
   first [solve [eauto using in_last_project, fresh_id_no_slash, find_cluster_single, find_cluster_head,
                        find_cluster_head_some]
         | lia | solve [apply find_cluster_one; reflexivity]
         | solve [apply find_cluster_update_head; reflexivity]] |].

(** [run_main Htr Hct Hpoll]: follow a run of [main] through its steps,
    its guards on the cloud and the cluster id by [Htr] and [Hct], the
    poll by [Hpoll], up to its last [print]. *)
Local Ltac run_main Htr Hct Hpoll :=
  lazymatch goal with
  | |- ok_wp (main (env_for ?a ?p ?c ?u ?pw)) _ _ =>
      unfold main; cbv zeta; change (cloud_of (env_for a p c u pw)) with (client a)
  end;
  wp_tac; api_step get_cloud_status_api; intros ? w1 (-> & Hs1 & Hc1); cbn beta iota;
  rewrite Htr; wp_tac;
  api_step create_project_api; intros ? w2 (-> & Hs2 & Hc2); wp_tac;
  api_step create_cluster_api; intros ? w3 (-> & Hs3 & Hc3); wp_tac;
  api_step get_clusters_api; intros ? w4 (-> & Hs4 & Hc4); try rewrite Hct; wp_tac;
  unfold poll_budget; api_step Hpoll; intros [] w5 [Hs5 Hc5]; wp_tac;
  api_step enable_access_api; intros ? w6 (-> & Hs6 & Hc6); wp_tac;
  api_step create_database_user_api; intros ? w7 (-> & Hs7 & Hc7); wp_tac;
  world_norm; rewrite last_last.

(** The cluster a run creates from [st] at time [now], and the same
    cluster once its allow-list rule and its user are added. *)
Definition created_cluster (st : Plane) (now : Z) (cluster : string) : Cluster :=
  mkCluster (fresh_id "clus-" (S (cp_next st))) (PStr cluster) (fresh_id "proj-" (cp_next st))
    (now + cp_deploy_ms st) [] [].

Definition provisioned_cluster (st : Plane) (now : Z) (cluster user password : string) : Cluster :=
  add_user (user_request (PStr user) (PStr password))
    (add_rule allowlist_rule (created_cluster st now cluster)).

(** A run of [main] on a control plane with a connected cloud and no
    cluster, given what the readiness poll does ([Ppoll] of the time it
    ends): it returns normally, having created one project and one
    cluster, opened the cluster's allow-list and created the user, and
    prints the access URL last. *)
Lemma main_api_with (acc : Account) (project cluster user password : string) (w : World Plane)
    (kv : list (string * PyVal)) (rest : list PyVal) (cid : string) (prov : PyVal)
    (Ppoll : Z -> Prop) :
  cp_account (w_srv w) = acc -> cp_clouds (w_srv w) = PDict kv :: rest ->
  dict_get "id" kv = Some (PStr cid) -> dict_get "provider" kv = Some prov -> cid <> ""%string ->
  cp_clusters (w_srv w) = [] ->
  (forall w0, cp_account (w_srv w0) = acc ->
     find_cluster (cl_id (created_cluster (w_srv w) (w_clock w) cluster)) (cp_clusters (w_srv w0))
     = Some (created_cluster (w_srv w) (w_clock w) cluster) ->
     w_clock w0 = w_clock w ->
     ok_wp (poll_cluster (client acc) (PStr (cl_id (created_cluster (w_srv w) (w_clock w) cluster))) 30)
       (fun _ w' => w_srv w' = w_srv w0 /\ Ppoll (w_clock w')) w0) ->
  ok_wp (main (env_for acc project cluster user password))
    (fun _ w' =>
       let cl := provisioned_cluster (w_srv w) (w_clock w) cluster user password in
       cp_clusters (w_srv w') = [cl] /\
       cp_projects (w_srv w') = cp_projects (w_srv w) ++ [(fresh_id "proj-" (cp_next (w_srv w)), PStr project)] /\
       Ppoll (w_clock w') /\
       last (w_out w') ""%string = "Database access URL: " +:+ cl_id cl +:+ ".dp.cloud.couchbase.com") w.
Proof.
  intros Ha Hcl Hid Hprov Hcid Hnil Hpoll.
  assert (Htr : py_truthy (py_or (PStr cid) prov) = true) by (destruct cid; [congruence | reflexivity]).
  run_main Htr Htr Hpoll.
  repeat split; try reflexivity. exact Hc5.
Qed.

(** A run of [main] on an account that already holds clusters, [old]
    first: [get_clusters] answers with the first cluster listed, so the
    poll, the allow-list and the user all go to [old]; the cluster the
    run created is appended after it and left as it was created. *)
Lemma main_api_existing (acc : Account) (project cluster user password : string) (w : World Plane)
    (kv : list (string * PyVal)) (rest : list PyVal) (cid : string) (prov : PyVal)
    (old : Cluster) (others : list Cluster) (Ppoll : Z -> Prop) :
  cp_account (w_srv w) = acc -> cp_clouds (w_srv w) = PDict kv :: rest ->
  dict_get "id" kv = Some (PStr cid) -> dict_get "provider" kv = Some prov -> cid <> ""%string ->
  cp_clusters (w_srv w) = old :: others -> has_char "/" (cl_id old) = false -> cl_id old <> ""%string ->
  (forall w0, cp_account (w_srv w0) = acc ->
     find_cluster (cl_id old) (cp_clusters (w_srv w0)) = Some old -> w_clock w0 = w_clock w ->
     ok_wp (poll_cluster (client acc) (PStr (cl_id old)) 30)
       (fun _ w' => w_srv w' = w_srv w0 /\ Ppoll (w_clock w')) w0) ->
  ok_wp (main (env_for acc project cluster user password))
    (fun _ w' =>
       cp_clusters (w_srv w') =
         update_cluster (cl_id old) (add_user (user_request (PStr user) (PStr password)))
           (update_cluster (cl_id old) (add_rule allowlist_rule)
              (old :: others ++ [created_cluster (w_srv w) (w_clock w) cluster])) /\
       Ppoll (w_clock w') /\
       last (w_out w') ""%string = "Database access URL: " +:+ cl_id old +:+ ".dp.cloud.couchbase.com") w.
Proof.
  intros Ha Hcl Hid Hprov Hcid Hold Hslash Hne Hpoll.
  assert (Htr : py_truthy (py_or (PStr cid) prov) = true) by (destruct cid; [congruence | reflexivity]).
  assert (Hct : py_truthy (PStr (cl_id old)) = true) by (destruct (cl_id old); [congruence | reflexivity]).
  run_main Htr Hct Hpoll. repeat split; try reflexivity. exact Hc5.
Qed.

(** (C3) Functional correctness against the control-plane model: on a
    control plane with a connected cloud and no cluster, whose clusters
    deploy within 29 minutes, a run of [main] with the account's
    credentials returns normally; the control plane then holds exactly
    one cluster, named after [CBC_CLUSTER], ready, whose allow-list holds
    the rule [0.0.0.0/0] and whose users are [USERNAME] with
    [data_writer] access; the last line printed is its access URL. *)
Theorem main_provisions (acc : Account) (project cluster user password : string) (w : World Plane)
    (kv : list (string * PyVal)) (rest : list PyVal) (cid : string) (prov : PyVal) :
  cp_account (w_srv w) = acc -> cp_clouds (w_srv w) = PDict kv :: rest ->
  dict_get "id" kv = Some (PStr cid) -> dict_get "provider" kv = Some prov -> cid <> ""%string ->
  cp_clusters (w_srv w) = [] -> (cp_deploy_ms (w_srv w) <= 29 * 60000)%Z ->
  let '(w', r) := main (env_for acc project cluster user password) w in
  r = Ok tt /\
  exists cl, cp_clusters (w_srv w') = [cl] /\ cl_name cl = PStr cluster /\
    cluster_status (w_clock w') cl = "ready"%string /\
    cl_allowlist cl = [allowlist_rule] /\ cl_users cl = [user_request (PStr user) (PStr password)] /\
    last (w_out w') ""%string = "Database access URL: " +:+ cl_id cl +:+ ".dp.cloud.couchbase.com".
Proof.
  intros Ha Hcl Hid Hprov Hcid Hnil Hdep.
  pose proof (main_api_with acc project cluster user password w kv rest cid prov
                (fun t => cl_ready_at (created_cluster (w_srv w) (w_clock w) cluster) <= t)%Z
                Ha Hcl Hid Hprov Hcid Hnil) as H.
  specialize (H ltac:(intros w0 Ha0 Hf0 Hc0; eapply ok_wp_consequence;
    [apply (poll_ready_api acc (created_cluster (w_srv w) (w_clock w) cluster)
       (fresh_id_no_slash "clus-" _ eq_refl) 29); auto;
     rewrite Hc0; cbn; lia |];
    intros [] w1 [Hs Hc]; split; [exact Hs | lia])).
  unfold ok_wp in H. destruct (main _ w) as [w' [[] | e]]; [| contradiction].
  destruct H as (Hc & _ & Hready & Hout). split; [reflexivity |].
  eexists. split; [exact Hc |]. unfold cluster_status.
  cbn [provisioned_cluster created_cluster add_user add_rule cl_ready_at cl_name cl_allowlist cl_users]
    in *.
  rewrite (proj2 (Z.leb_le _ _) Hready). repeat split; exact Hout.
Qed.

(** (C4) A cluster that deploys for longer than the run waits: the 30
    status checks all see "deploying", the loop falls through after 30
    minutes, and [main] goes on to open the allow-list and create the
    user on the cluster that is still deploying, prints the access URL
    and returns normally, i.e. reports success. *)
Theorem main_unready_success (acc : Account) (project cluster user password : string)
    (w : World Plane) (kv : list (string * PyVal)) (rest : list PyVal) (cid : string) (prov : PyVal) :
  cp_account (w_srv w) = acc -> cp_clouds (w_srv w) = PDict kv :: rest ->
  dict_get "id" kv = Some (PStr cid) -> dict_get "provider" kv = Some prov -> cid <> ""%string ->
  cp_clusters (w_srv w) = [] -> (30 * 60000 < cp_deploy_ms (w_srv w))%Z ->
  let '(w', r) := main (env_for acc project cluster user password) w in
  r = Ok tt /\ w_clock w' = (w_clock w + 30 * 60000)%Z /\
  exists cl, cp_clusters (w_srv w') = [cl] /\
    cluster_status (w_clock w') cl = "deploying"%string /\
    cl_allowlist cl = [allowlist_rule] /\ cl_users cl = [user_request (PStr user) (PStr password)] /\
    last (w_out w') ""%string = "Database access URL: " +:+ cl_id cl +:+ ".dp.cloud.couchbase.com".
Proof.
  intros Ha Hcl Hid Hprov Hcid Hnil Hdep.
  pose proof (main_api_with acc project cluster user password w kv rest cid prov
                (fun t => t = w_clock w + 30 * 60000)%Z Ha Hcl Hid Hprov Hcid Hnil) as H.
  specialize (H ltac:(intros w0 Ha0 Hf0 Hc0; eapply ok_wp_consequence;
    [apply (poll_exhausted_api acc (created_cluster (w_srv w) (w_clock w) cluster)
       (fresh_id_no_slash "clus-" _ eq_refl) 30); auto; rewrite Hc0; cbn; lia |];
    intros [] w1 [Hs Hc]; split; [exact Hs | rewrite Hc, Hc0; reflexivity])).
  unfold ok_wp in H. destruct (main _ w) as [w' [[] | e]]; [| contradiction].
  destruct H as (Hc & _ & Hend & Hout). split; [reflexivity | split; [exact Hend |]].
  eexists. split; [exact Hc |]. unfold cluster_status.
  cbn [provisioned_cluster created_cluster add_user add_rule cl_ready_at cl_allowlist cl_users] in *.
  rewrite (proj2 (Z.leb_gt _ _)) by lia. repeat split; exact Hout.
Qed.

(** (C5) Correlation by position (spec section 9): on an account that
    already holds a cluster [old], listed first and ready within 29
    minutes, a run of [main] creates its new cluster but then polls
    [old], opens [old]'s allow-list, creates the user on [old] and
    prints [old]'s access URL; the cluster it created is left with no
    allow-list rule and no user. *)
Theorem main_configures_first_cluster (acc : Account) (project cluster user password : string)
    (w : World Plane) (kv : list (string * PyVal)) (rest : list PyVal) (cid : string) (prov : PyVal)
    (old : Cluster) (others : list Cluster) :
  cp_account (w_srv w) = acc -> cp_clouds (w_srv w) = PDict kv :: rest ->
  dict_get "id" kv = Some (PStr cid) -> dict_get "provider" kv = Some prov -> cid <> ""%string ->
  cp_clusters (w_srv w) = old :: others -> has_char "/" (cl_id old) = false -> cl_id old <> ""%string ->
  cl_id old <> cl_id (created_cluster (w_srv w) (w_clock w) cluster) ->
  (cl_ready_at old <= w_clock w + 29 * 60000)%Z ->
  let '(w', r) := main (env_for acc project cluster user password) w in
  r = Ok tt /\
  In (created_cluster (w_srv w) (w_clock w) cluster) (cp_clusters (w_srv w')) /\
  In (add_user (user_request (PStr user) (PStr password)) (add_rule allowlist_rule old))
     (cp_clusters (w_srv w')) /\
  last (w_out w') ""%string = "Database access URL: " +:+ cl_id old +:+ ".dp.cloud.couchbase.com".
Proof.
  intros Ha Hcl Hid Hprov Hcid Hold Hslash Hne Hdiff Hready.
  pose proof (main_api_existing acc project cluster user password w kv rest cid prov old others
                (fun _ => True) Ha Hcl Hid Hprov Hcid Hold Hslash Hne) as H.
  specialize (H ltac:(intros w0 Ha0 Hf0 Hc0; eapply ok_wp_consequence;
    [apply (poll_ready_api acc old Hslash 29); auto; rewrite Hc0; cbn; lia |];
    intros [] w1 [Hs _]; split; [exact Hs | exact I])).
  unfold ok_wp in H. destruct (main _ w) as [w' [[] | e]]; [| contradiction].
  destruct H as (Hc & _ & Hout). rewrite Hc. split; [reflexivity | split; [| split; [| exact Hout]]].
  - apply in_update_other; [apply in_update_other |].
    + right. apply in_or_app. right. now left.
    + intros E. now apply Hdiff.
    + intros E. now apply Hdiff.
  - apply in_update_same; [apply in_update_same |]; [now left | reflexivity ..].
Qed.

(** ** Witnesses *)

Definition demo_account : Account := mkAccount "AK" "SK" "https://cloudapi.cloud.couchbase.com".

Definition demo_cloud_entry : list (string * PyVal) :=
  [("id"%string, PStr "cloud-1"); ("provider"%string, PStr "aws")].

(** A control plane with one connected cloud, whose deployments take
    [deploy_ms]. *)
Definition demo_plane (deploy_ms : Z) : World Plane :=
  mkWorld (mkPlane demo_account [PDict demo_cloud_entry] [] [] 0 deploy_ms) [] [] 1700000000000%Z.

Lemma main_provisions_witness :
  let '(w', r) := main (env_for demo_account "proj" "clus" "user" "pw") (demo_plane 600000) in
  r = Ok tt /\
  exists cl, cp_clusters (w_srv w') = [cl] /\ cl_name cl = PStr "clus" /\
    cluster_status (w_clock w') cl = "ready"%string /\
    cl_allowlist cl = [allowlist_rule] /\ cl_users cl = [user_request (PStr "user") (PStr "pw")] /\
    last (w_out w') ""%string = "Database access URL: " +:+ cl_id cl +:+ ".dp.cloud.couchbase.com".
Proof.
  exact (main_provisions demo_account "proj" "clus" "user" "pw" (demo_plane 600000) demo_cloud_entry []
           "cloud-1" (PStr "aws") eq_refl eq_refl eq_refl eq_refl ltac:(discriminate) eq_refl
           ltac:(cbn; lia)).
Defined.

Lemma main_unready_success_witness :
  let '(w', r) := main (env_for demo_account "proj" "clus" "user" "pw") (demo_plane 3600000) in
  r = Ok tt /\ w_clock w' = (1700000000000 + 30 * 60000)%Z /\
  exists cl, cp_clusters (w_srv w') = [cl] /\
    cluster_status (w_clock w') cl = "deploying"%string /\
    cl_allowlist cl = [allowlist_rule] /\ cl_users cl = [user_request (PStr "user") (PStr "pw")] /\
    last (w_out w') ""%string = "Database access URL: " +:+ cl_id cl +:+ ".dp.cloud.couchbase.com".
Proof.
  exact (main_unready_success demo_account "proj" "clus" "user" "pw" (demo_plane 3600000)
           demo_cloud_entry [] "cloud-1" (PStr "aws") eq_refl eq_refl eq_refl eq_refl
           ltac:(discriminate) eq_refl ltac:(cbn; lia)).
Defined.

(** An account that already holds the ready cluster [clus-old]. *)
Definition old_cluster : Cluster := mkCluster "clus-old" (PStr "old") "proj-old" 0 [] [].

Definition plane_with_old : World Plane :=
  mkWorld (mkPlane demo_account [PDict demo_cloud_entry] [] [old_cluster] 0 600000) [] [] 1700000000000%Z.

Lemma main_configures_first_cluster_witness :
  let '(w', r) := main (env_for demo_account "proj" "clus" "user" "pw") plane_with_old in
  r = Ok tt /\
  In (created_cluster (w_srv plane_with_old) (w_clock plane_with_old) "clus") (cp_clusters (w_srv w')) /\
  In (add_user (user_request (PStr "user") (PStr "pw")) (add_rule allowlist_rule old_cluster))
     (cp_clusters (w_srv w')) /\
  last (w_out w') ""%string = "Database access URL: " +:+ cl_id old_cluster +:+ ".dp.cloud.couchbase.com".
Proof.
  exact (main_configures_first_cluster demo_account "proj" "clus" "user" "pw" plane_with_old
           demo_cloud_entry [] "cloud-1" (PStr "aws") old_cluster [] eq_refl eq_refl eq_refl eq_refl
           ltac:(discriminate) eq_refl eq_refl ltac:(discriminate) ltac:(discriminate) ltac:(cbn; lia)).
Defined.
