(* ===== verification/CloudInvariant.v ===== *)
(** The well-formedness invariant of the control-plane model of
    [CloudApi]: project ids and cluster ids are unique, every id was
    drawn from the counter below its current value, and every cluster
    belongs to a known project.  Every request preserves it, so does
    every sequence of requests (rule induction on [reachable]), and so
    does every run of [main], whatever its credentials and whatever
    the answers. *)

From Stdlib Require Import String Ascii ZArith List Lia Bool.
From S2P Require Import Prelude PyData Effects Signing Helpers Bootstrap CloudApi CloudMain.
Import ListNotations.
Open Scope pystr_scope.

(** [x] was drawn from the counter [prefix-k] with [k] below [n]. *)
Definition drawn (prefix : string) (n : nat) (x : string) : Prop :=
  exists k, (k < n)%nat /\ x = fresh_id prefix k.

Definition wf_plane (st : Plane) : Prop :=
  NoDup (map fst (cp_projects st)) /\
  NoDup (map cl_id (cp_clusters st)) /\
  Forall (fun p => drawn "proj-" (cp_next st) (fst p)) (cp_projects st) /\
  Forall (fun c => drawn "clus-" (cp_next st) (cl_id c) /\ In (cl_project c) (map fst (cp_projects st)))
    (cp_clusters st).

(** ** Fresh ids *)

Lemma fresh_id_inj (prefix : string) (k k' : nat) : fresh_id prefix k = fresh_id prefix k' -> k = k'.
Proof. unfold fresh_id. intros E. apply append_cancel_l, py_int_str_inj in E. lia. Qed.

Lemma fresh_not_drawn {A} (g : A -> string) (prefix : string) (n : nat) (l : list A) :
  Forall (fun x => drawn prefix n (g x)) l -> ~ In (fresh_id prefix n) (map g l).
Proof.
  intros Hl Hin. apply in_map_iff in Hin as (x & Hx & Hin).
  rewrite Forall_forall in Hl. destruct (Hl x Hin) as (k & Hk & E).
  rewrite E in Hx. apply fresh_id_inj in Hx. lia.
Qed.

Lemma drawn_bump (prefix : string) (n : nat) (x : string) : drawn prefix n x -> drawn prefix (S n) x.
Proof. intros (k & Hk & E). exists k. split; [lia | exact E]. Qed.

Lemma NoDup_snoc {A} (l : list A) (x : A) : NoDup l -> ~ In x l -> NoDup (l ++ [x]).
Proof.
  intros Hl Hx. apply NoDup_app; [exact Hl | repeat constructor; easy |].
  intros a Ha [-> | []]. contradiction.
Qed.

Lemma NoDup_map_filter {A B} (g : A -> B) (p : A -> bool) (l : list A) :
  NoDup (map g l) -> NoDup (map g (filter p l)).
Proof.
  induction l as [| a l IH]; cbn; [auto |]. intros Hl. inversion Hl as [| ? ? Hnin Hl']; subst.
  destruct (p a); cbn; [| auto]. constructor; [| auto].
  intros Hin. apply Hnin. apply in_map_iff in Hin as (x & <- & Hin). apply filter_In in Hin.
  now apply in_map.
Qed.

Lemma map_update_cluster {B} (g : Cluster -> B) (id : string) (f : Cluster -> Cluster) (cs : list Cluster) :
  (forall c, g (f c) = g c) -> map g (update_cluster id f cs) = map g cs.
Proof.
  intros Hf. unfold update_cluster. rewrite map_map. apply map_ext. intros c.
  destruct (String.eqb (cl_id c) id); auto.
Qed.

Lemma Forall_update_cluster (P : Cluster -> Prop) (id : string) (f : Cluster -> Cluster) (cs : list Cluster) :
  (forall c, P c -> P (f c)) -> Forall P cs -> Forall P (update_cluster id f cs).
Proof.
  intros Hf Hcs. unfold update_cluster. apply Forall_map. eapply Forall_impl; [| exact Hcs].
  intros c Hc. destruct (String.eqb (cl_id c) id); auto.
Qed.

Lemma Forall_drawn_bump {A} (g : A -> string) (prefix : string) (n : nat) (l : list A) :
  Forall (fun x => drawn prefix n (g x)) l -> Forall (fun x => drawn prefix (S n) (g x)) l.
Proof. apply Forall_impl. intros x. apply drawn_bump. Qed.

(** ** Every endpoint preserves the invariant *)

Section Endpoints.
Context (st : Plane).
Hypothesis Hwf : wf_plane st.

Lemma h_create_project_wf (body : option PyVal) : wf_plane (fst (h_create_project st body)).
Proof.
  destruct Hwf as (Hp & Hc & Hfp & Hfc). unfold h_create_project.
  destruct body as [[| b | z | s | xs | l] |]; try exact Hwf. destruct (dict_get "name" l) as [name |]; [| exact Hwf].
  unfold wf_plane; cbn [fst bump set_projects cp_projects cp_clusters cp_next].
  rewrite map_app. repeat split.
  - apply NoDup_snoc; [exact Hp | exact (fresh_not_drawn fst _ _ _ Hfp)].
  - exact Hc.
  - apply Forall_app. split; [now apply Forall_drawn_bump |].
    repeat constructor. exists (cp_next st). split; [lia | reflexivity].
  - eapply Forall_impl; [| exact Hfc]. intros c [Hd Hin].
    split; [now apply drawn_bump | apply in_or_app; now left].
Qed.

Lemma h_create_cluster_wf (body : option PyVal) (now : Z) : wf_plane (fst (h_create_cluster st body now)).
Proof.
  destruct Hwf as (Hp & Hc & Hfp & Hfc). unfold h_create_cluster.
  destruct body as [[| b | z | s | xs | l] |]; try exact Hwf.
  destruct (dict_get "name" l) as [name |]; destruct (dict_get "projectId" l) as [[] |]; try exact Hwf.
  destruct (existsb _ _) eqn:Hex; [| exact Hwf].
  apply existsb_exists in Hex as ((pid, pname) & Hin & Heq). apply String.eqb_eq in Heq. cbn in Heq.
  subst s.
  unfold wf_plane; cbn [fst bump set_clusters cp_projects cp_clusters cp_next cl_id cl_project].
  rewrite map_app. repeat split.
  - exact Hp.
  - apply NoDup_snoc; [exact Hc |].
    apply (fresh_not_drawn cl_id). eapply Forall_impl; [| exact Hfc]. now intros c [Hd _].
  - now apply Forall_drawn_bump.
  - apply Forall_app. split.
    + eapply Forall_impl; [| exact Hfc]. intros c [Hd Hin']. split; [now apply drawn_bump | exact Hin'].
    + repeat constructor; [exists (cp_next st); split; [lia | reflexivity] |].
      cbn [cl_project]. apply in_map_iff. exists (pid, pname). auto.
Qed.

Lemma h_cluster_post_wf (id : string) (f : PyVal -> Cluster -> Cluster) (code : Z) (body : option PyVal) :
  (forall v c, cl_id (f v c) = cl_id c /\ cl_project (f v c) = cl_project c) ->
  wf_plane (fst (h_cluster_post st id f code body)).
Proof.
  intros Hf. destruct Hwf as (Hp & Hc & Hfp & Hfc). unfold h_cluster_post.
  destruct (find_cluster id (cp_clusters st)) as [c0 |], body as [v |]; try exact Hwf.
  unfold wf_plane; cbn [fst set_clusters cp_projects cp_clusters cp_next]. repeat split; try assumption.
  - rewrite map_update_cluster; [exact Hc | intros c; apply Hf].
  - apply Forall_update_cluster; [| exact Hfc]. intros c. now rewrite (proj1 (Hf v c)), (proj2 (Hf v c)).
Qed.

Lemma h_delete_cluster_wf (id : string) : wf_plane (fst (h_delete_cluster st id)).
Proof.
  destruct Hwf as (Hp & Hc & Hfp & Hfc). unfold h_delete_cluster.
  destruct (find_cluster id (cp_clusters st)) as [c0 |]; [| exact Hwf].
  unfold wf_plane; cbn [fst set_clusters cp_projects cp_clusters cp_next]. repeat split; try assumption.
  - now apply NoDup_map_filter.
  - rewrite Forall_forall in Hfc |- *. intros c Hin. apply filter_In in Hin as [Hin _]. auto.
Qed.

Lemma route_wf (v : Verb) (path : string) (body : option PyVal) (now : Z) :
  wf_plane (fst (route st v path body now)).
Proof.
  unfold route. destruct v.
  - destruct (String.eqb path _); [exact Hwf |]. destruct (String.eqb path _); [exact Hwf |].
    destruct (cluster_route path) as [[id [sub |]] |]; [exact Hwf | | exact Hwf].
    unfold h_cluster_status. destruct (find_cluster id _); exact Hwf.
  - destruct (String.eqb path _); [apply h_create_project_wf |].
    destruct (String.eqb path _); [apply h_create_cluster_wf |].
    destruct (cluster_route path) as [[id [sub |]] |]; try exact Hwf.
    destruct (String.eqb sub _); [apply h_cluster_post_wf; split; reflexivity |].
    destruct (String.eqb sub _); [apply h_cluster_post_wf; split; reflexivity | exact Hwf].
  - destruct (cluster_route path) as [[id [sub |]] |]; try exact Hwf. apply h_delete_cluster_wf.
Qed.

End Endpoints.

(** ** Invariants of the control plane by rule induction

    A property of the state that every route preserves is preserved by
    every request the control plane answers (a refused one leaves the
    state alone), hence by every sequence of requests. *)

Section Preserved.
Variable P : Plane -> Prop.
Hypothesis route_P : forall st v path body now, P st -> P (fst (route st v path body now)).

Lemma serve_preserves (st st' : Plane) (req : HttpRequest) (o : option Response) :
  P st -> serve st req = (st', o) -> P st'.
Proof.
  intros HP. unfold serve, cloud_api.
  destruct (verify_request _ _ _ req); [| intros [= <- _]; exact HP].
  destruct (strip_prefix _ (rq_url req)) as [path |], (request_time req) as [now |];
    try (intros [= <- _]; exact HP).
  pose proof (route_P st (rq_verb req) path (rq_json req) now HP) as Hr.
  destruct (route st (rq_verb req) path (rq_json req) now) as [st1 res].
  intros [= <- _]. exact Hr.
Qed.

Lemma reachable_preserves (st0 st : Plane) : P st0 -> reachable st0 st -> P st.
Proof.
  intros H0 Hr. induction Hr as [| s req s' o _ IH Hs]; [exact H0 | exact (serve_preserves s s' req o IH Hs)].
Qed.

End Preserved.

(** Every state reachable from a well-formed one is well-formed. *)
Lemma reachable_wf (st0 st : Plane) : wf_plane st0 -> reachable st0 st -> wf_plane st.
Proof. apply reachable_preserves. intros s v path body now Hwf. now apply route_wf. Qed.

(** No request changes the account or the connected clouds. *)
Lemma route_keeps_account (st : Plane) (v : Verb) (path : string) (body : option PyVal) (now : Z) :
  cp_account (fst (route st v path body now)) = cp_account st /\
  cp_clouds (fst (route st v path body now)) = cp_clouds st.
Proof.
  unfold route, h_list_clouds, h_list_clusters, h_cluster_status, h_create_project,
    h_create_cluster, h_cluster_post, h_delete_cluster.
  repeat match goal with |- context [match ?x with _ => _ end] => destruct x end; auto.
Qed.

Lemma reachable_account (st0 st : Plane) :
  reachable st0 st -> cp_account st = cp_account st0 /\ cp_clouds st = cp_clouds st0.
Proof.
  apply (reachable_preserves (fun st => cp_account st = cp_account st0 /\ cp_clouds st = cp_clouds st0));
    [| auto]. intros s v path body now [Ha Hc]. rewrite <- Ha, <- Hc. apply route_keeps_account.
Qed.

(** The state after a run of [main] is reachable from the state before. *)
Lemma main_reachable (env : Env) (w : World Plane) : reachable (w_srv w) (w_srv (fst (main env w))).
Proof. apply main_reach, reach_refl. Qed.

(** ** Every run succeeds on a well-formed control plane *)

Lemma drawn_cluster_id (n : nat) (x : string) :
  drawn "clus-" n x -> has_char "/" x = false /\ x <> ""%string.
Proof.
  intros (k & _ & ->). split; [now apply fresh_id_no_slash | unfold fresh_id; discriminate].
Qed.

Lemma in_cluster_config (c : Cluster) (rule user : PyVal) :
  In rule (cl_allowlist (add_user user (add_rule rule c))) /\
  In user (cl_users (add_user user (add_rule rule c))).
Proof. cbn. split; apply in_or_app; right; left; reflexivity. Qed.

(** (C6) Total success against the model: on a well-formed control
    plane with a connected cloud, a run of [main] with the account's
    credentials returns normally, whatever clusters the account already
    holds and however long deployments take; the cluster whose access
    URL it prints last is in the control plane with the allow-list rule
    and the database user.  So every failure of [main] comes from the
    credentials, the cloud or answers the model never gives. *)
Theorem main_succeeds (acc : Account) (project cluster user password : string) (w : World Plane)
    (kv : list (string * PyVal)) (rest : list PyVal) (cid : string) (prov : PyVal) :
  wf_plane (w_srv w) -> cp_account (w_srv w) = acc -> cp_clouds (w_srv w) = PDict kv :: rest ->
  dict_get "id" kv = Some (PStr cid) -> dict_get "provider" kv = Some prov -> cid <> ""%string ->
  let '(w', r) := main (env_for acc project cluster user password) w in
  r = Ok tt /\
  exists c, In c (cp_clusters (w_srv w')) /\ In allowlist_rule (cl_allowlist c) /\
    In (user_request (PStr user) (PStr password)) (cl_users c) /\
    last (w_out w') ""%string = "Database access URL: " +:+ cl_id c +:+ ".dp.cloud.couchbase.com".
Proof.
  intros Hwf Ha Hcl Hid Hprov Hcid.
  destruct (cp_clusters (w_srv w)) as [| old others] eqn:Hcs.
  - pose proof (main_api_with acc project cluster user password w kv rest cid prov (fun _ => True)
                  Ha Hcl Hid Hprov Hcid Hcs) as H.
    specialize (H ltac:(intros w0 Ha0 Hf0 _; eapply ok_wp_consequence;
      [apply poll_any_api; [apply fresh_id_no_slash; reflexivity | exact Ha0 | exact Hf0] |];
      intros a w1 Hs; split; [exact Hs | exact I])).
    unfold ok_wp in H. destruct (main _ w) as [w' [[] | e]]; [| contradiction].
    destruct H as (Hc & _ & _ & Hout). split; [reflexivity |].
    eexists. rewrite Hc. split; [left; reflexivity |]. split; [| split]; [apply in_cluster_config.. | exact Hout].
  - destruct Hwf as (_ & _ & _ & Hf). rewrite Hcs in Hf. apply Forall_inv in Hf as [Hd _].
    destruct (drawn_cluster_id _ _ Hd) as [Hslash Hne].
    pose proof (main_api_existing acc project cluster user password w kv rest cid prov old others
                  (fun _ => True) Ha Hcl Hid Hprov Hcid Hcs Hslash Hne) as H.
    specialize (H ltac:(intros w0 Ha0 Hf0 _; eapply ok_wp_consequence;
      [apply poll_any_api; [exact Hslash | exact Ha0 | exact Hf0] |];
      intros a w1 Hs; split; [exact Hs | exact I])).
    unfold ok_wp in H. destruct (main _ w) as [w' [[] | e]]; [| contradiction].
    destruct H as (Hc & _ & Hout). split; [reflexivity |].
    exists (add_user (user_request (PStr user) (PStr password)) (add_rule allowlist_rule old)).
    rewrite Hc. split; [| split; [| split]]; [| apply in_cluster_config.. | exact Hout].
    apply in_update_same; [apply in_update_same; [left |] |]; reflexivity.
Qed.

(** A well-formed control plane whose account already holds a cluster
    that never becomes ready within the run. *)
Definition busy_world : World Plane :=
  mkWorld (mkPlane demo_account [PDict demo_cloud_entry] [("proj-0"%string, PStr "p")]
             [mkCluster "clus-0" (PStr "c") "proj-0" 0 [] []] 1 1000000000)
    [] [] 1700000000000%Z.

Lemma main_succeeds_witness :
  wf_plane (w_srv busy_world) /\
  let '(w', r) := main (env_for demo_account "proj" "clus" "user" "pw") busy_world in
  r = Ok tt /\
  exists c, In c (cp_clusters (w_srv w')) /\ In allowlist_rule (cl_allowlist c) /\
    In (user_request (PStr "user") (PStr "pw")) (cl_users c) /\
    last (w_out w') ""%string = "Database access URL: " +:+ cl_id c +:+ ".dp.cloud.couchbase.com".
Proof.
  assert (H0 : wf_plane (w_srv busy_world)).
  { unfold wf_plane. cbn. split; [| split; [| split]];
      repeat first [constructor; [intros [] | constructor] | constructor];
      first [exists 0%nat; split; [lia | reflexivity] | left; reflexivity]. }
  split; [exact H0 |].
  apply (main_succeeds demo_account "proj" "clus" "user" "pw" busy_world demo_cloud_entry []
           "cloud-1" (PStr "aws")); first [exact H0 | reflexivity | discriminate].
Defined.

(** ** Running [main] twice *)

Lemma update_cluster_two (c d : Cluster) (f : Cluster -> Cluster) :
  cl_id d <> cl_id c -> update_cluster (cl_id c) f [c; d] = [f c; d].
Proof.
  intros Hne. unfold update_cluster. cbn. now rewrite String.eqb_refl, (proj2 (String.eqb_neq _ _) Hne).
Qed.

(** The cluster a run creates has an id no earlier cluster has. *)
Lemma created_cluster_fresh (st : Plane) (now : Z) (cluster : string) (c : Cluster) :
  drawn "clus-" (cp_next st) (cl_id c) -> cl_id (created_cluster st now cluster) <> cl_id c.
Proof. intros (k & Hk & ->) E. apply fresh_id_inj in E. lia. Qed.

Lemma poll_any_30 (acc : Account) (c : Cluster) (w0 : World Plane) :
  has_char "/" (cl_id c) = false -> cp_account (w_srv w0) = acc ->
  find_cluster (cl_id c) (cp_clusters (w_srv w0)) = Some c ->
  ok_wp (poll_cluster (client acc) (PStr (cl_id c)) 30) (fun _ w' => w_srv w' = w_srv w0 /\ True) w0.
Proof.
  intros Hs Ha Hf. eapply ok_wp_consequence; [apply poll_any_api; assumption |].
  intros a w1 H1. split; [exact H1 | exact I].
Qed.

(** (C11) Running the script again: on a well-formed account with a
    connected cloud and no cluster, two runs of [main] with the same
    environment both return normally and print the same access URL, that
    of the first run's cluster.  The second run creates a second cluster
    but, correlating by position, opens the first cluster's allow-list
    again and creates the same database user on it again: the first
    cluster ends with the rule and the user twice, the second with
    neither. *)
Theorem main_rerun (acc : Account) (project cluster user password : string) (w : World Plane)
    (kv : list (string * PyVal)) (rest : list PyVal) (cid : string) (prov : PyVal) :
  wf_plane (w_srv w) -> cp_account (w_srv w) = acc -> cp_clouds (w_srv w) = PDict kv :: rest ->
  dict_get "id" kv = Some (PStr cid) -> dict_get "provider" kv = Some prov -> cid <> ""%string ->
  cp_clusters (w_srv w) = [] ->
  let env := env_for acc project cluster user password in
  let u := user_request (PStr user) (PStr password) in
  let '(w1, r1) := main env w in
  let '(w2, r2) := main env w1 in
  r1 = Ok tt /\ r2 = Ok tt /\
  exists c1 c2, cp_clusters (w_srv w2) = [c1; c2] /\
    cl_allowlist c1 = [allowlist_rule; allowlist_rule] /\ cl_users c1 = [u; u] /\
    cl_name c2 = PStr cluster /\ cl_allowlist c2 = [] /\ cl_users c2 = [] /\
    last (w_out w1) ""%string = "Database access URL: " +:+ cl_id c1 +:+ ".dp.cloud.couchbase.com" /\
    last (w_out w2) ""%string = "Database access URL: " +:+ cl_id c1 +:+ ".dp.cloud.couchbase.com".
Proof.
  intros Hwf Ha Hcl Hid Hprov Hcid Hnil. cbv zeta.
  set (old := provisioned_cluster (w_srv w) (w_clock w) cluster user password).
  assert (Hslash : has_char "/" (cl_id old) = false) by (apply fresh_id_no_slash; reflexivity).
  assert (Hne : cl_id old <> ""%string) by (unfold old; cbn; unfold fresh_id; discriminate).
  pose proof (main_api_with acc project cluster user password w kv rest cid prov (fun _ => True)
                Ha Hcl Hid Hprov Hcid Hnil
                (fun w0 Ha0 Hf0 _ => poll_any_30 acc (created_cluster (w_srv w) (w_clock w) cluster) w0
                   (fresh_id_no_slash "clus-" _ eq_refl) Ha0 Hf0))
    as H1.
  pose proof (main_reachable (env_for acc project cluster user password) w) as Hr1.
  unfold ok_wp in H1. destruct (main _ w) as [w1 [[] | e]]; [| contradiction].
  destruct H1 as (Hc1 & _ & _ & Hout1). cbn [fst] in Hr1.
  destruct (reachable_account _ _ Hr1) as [Ha1 Hcl1].
  pose proof (reachable_wf _ _ Hwf Hr1) as Hwf1.
  pose proof (main_api_existing acc project cluster user password w1 kv rest cid prov old []
                (fun _ => True) ltac:(congruence) ltac:(congruence) Hid Hprov Hcid Hc1 Hslash Hne
                (fun w0 Ha0 Hf0 _ => poll_any_30 acc old w0 Hslash Ha0 Hf0)) as H2.
  unfold ok_wp in H2. destruct (main _ w1) as [w2 [[] | e]]; [| contradiction].
  destruct H2 as (Hc2 & _ & Hout2). split; [reflexivity | split; [reflexivity |]].
  destruct Hwf1 as (_ & _ & _ & Hf1). rewrite Hc1 in Hf1. apply Forall_inv in Hf1 as [Hd _].
  pose proof (created_cluster_fresh (w_srv w1) (w_clock w1) cluster old Hd) as Hfresh.
  cbn [app] in Hc2. rewrite update_cluster_two in Hc2 by exact Hfresh.
  rewrite (update_cluster_two (add_rule allowlist_rule old)) in Hc2 by exact Hfresh.
  eexists _, _. split; [exact Hc2 |]. repeat split; [exact Hout1 | exact Hout2].
Qed.

Lemma main_rerun_witness :
  wf_plane (w_srv (demo_plane 600000)) /\
  let env := env_for demo_account "proj" "clus" "user" "pw" in
  let u := user_request (PStr "user") (PStr "pw") in
  let '(w1, r1) := main env (demo_plane 600000) in
  let '(w2, r2) := main env w1 in
  r1 = Ok tt /\ r2 = Ok tt /\
  exists c1 c2, cp_clusters (w_srv w2) = [c1; c2] /\
    cl_allowlist c1 = [allowlist_rule; allowlist_rule] /\ cl_users c1 = [u; u] /\
    cl_name c2 = PStr "clus" /\ cl_allowlist c2 = [] /\ cl_users c2 = [] /\
    last (w_out w1) ""%string = "Database access URL: " +:+ cl_id c1 +:+ ".dp.cloud.couchbase.com" /\
    last (w_out w2) ""%string = "Database access URL: " +:+ cl_id c1 +:+ ".dp.cloud.couchbase.com".
Proof.
  assert (H0 : wf_plane (w_srv (demo_plane 600000))) by (unfold wf_plane; cbn; repeat constructor).
  split; [exact H0 |].
  apply (main_rerun demo_account "proj" "clus" "user" "pw" (demo_plane 600000) demo_cloud_entry []
           "cloud-1" (PStr "aws")); first [exact H0 | reflexivity | discriminate].
Defined.
