(* ===== verification/CloudRuns.v ===== *)
(** Further runs against the control-plane model of [CloudApi]: a client
    whose access key is not the account's is refused on every request,
    and [main] stops at its first guard with [exit()]; the disabled step
    [delete_cluster] removes exactly the cluster it names. *)

From Stdlib Require Import String Ascii ZArith List Lia Bool.
From S2P Require Import Prelude PyData Bytes Effects Signing Helpers Bootstrap CloudApi CloudMain.
Import ListNotations.
Open Scope pystr_scope.
Open Scope pym_scope.

(** ** A wrong access key *)

Lemma serve_wrong_key (st : Plane) (cloud : CouchbaseCloud) (endpoint : string) (v : Verb)
    (data : PyVal) (now : Z) (key : list Z) (k : string) :
  access_key cloud = PStr k -> k <> ac_key (cp_account st) ->
  serve st (signed_request cloud endpoint v data now key) = (st, Some unauthorized).
Proof.
  intros Hk Hne. unfold serve, cloud_api.
  now rewrite (signed_request_wrong_key cloud endpoint v data now key k).
Qed.

(** The answer of the first step: 401, reported, and no cloud. *)
Lemma get_cloud_status_wrong_key (cloud : CouchbaseCloud) (w : World Plane) (k sk : string) :
  access_key cloud = PStr k -> secret cloud = PStr sk -> k <> ac_key (cp_account (w_srv w)) ->
  get_cloud_status cloud w
  = (add_out (add_out (sent w (w_srv w) (signed_request cloud "/v2/clouds" GET PNone (w_clock w)
                                           (utf8_encode sk)))
                "Check Cloud Connection Failed")
       (error_report unauthorized (PStr "Unauthorized") (PStr "invalid signature")),
     Ok (PNone, PNone)).
Proof.
  intros Hk Hs Hne. unfold get_cloud_status, bind at 1.
  rewrite (request_answer cloud "/v2/clouds" "GET" GET PNone w sk (w_srv w) unauthorized Hs)
    by (try reflexivity; now apply (serve_wrong_key _ _ _ _ _ _ _ k)).
  unfold bind at 1.
  rewrite (check_response_reported _ _ _ _
             (PDict [("errorType"%string, PStr "Unauthorized"); ("message"%string, PStr "invalid signature")])
             (PStr "Unauthorized") (PStr "invalid signature")) by reflexivity.
  reflexivity.
Qed.

(** (C19) Authentication failure: with an access key that is not the
    account's (and a secret set), the control-plane model refuses the
    first request with 401; [get_cloud_status] reports the failure and
    yields no cloud, and [main] prints the remediation hint and calls
    [exit()]: one request sent, the control plane unchanged, and the
    process exit status 0. *)
Theorem main_wrong_key (env : Env) (w : World Plane) (k sk : string) :
  CBC_ACCESS_KEY env = Some k -> CBC_SECRET_KEY env = Some sk -> k <> ac_key (cp_account (w_srv w)) ->
  let '(w', r) := main env w in
  r = Raise (SystemExit PNone) /\ exit_status r = 0%Z /\ w_srv w' = w_srv w /\
  length (w_log w') = S (length (w_log w)) /\
  w_out w' = w_out w ++ ["Check Cloud Connection Failed"%string;
                         error_report unauthorized (PStr "Unauthorized") (PStr "invalid signature");
                         no_cloud_message].
Proof.
  intros Hk Hs Hne. unfold main. cbv zeta. unfold bind at 1.
  rewrite (get_cloud_status_wrong_key (cloud_of env) w k sk) by (cbn; rewrite ?Hk, ?Hs; auto).
  unfold bind, print, exit, raise. cbn [py_or py_truthy negb].
  cbn [fst snd w_srv w_out w_log add_out sent]. rewrite length_app, <- !app_assoc.
  repeat split; cbn; lia.
Qed.

(** ** The delete step *)

Lemma route_delete (st : Plane) (id : string) (now : Z) :
  has_char "/" id = false -> route st DELETE (cluster_path (PStr id)) None now = h_delete_cluster st id.
Proof. intros H. unfold route, cluster_path, py_str. now rewrite cluster_route_id. Qed.

Lemma delete_cluster_api (acc : Account) (w : World Plane) (id : string) :
  cp_account (w_srv w) = acc -> has_char "/" id = false ->
  find_cluster id (cp_clusters (w_srv w)) <> None ->
  ok_wp (delete_cluster (client acc) (PStr id))
    (fun a w' => a = true /\
       cp_clusters (w_srv w') = filter (fun c => negb (String.eqb (cl_id c) id)) (cp_clusters (w_srv w)))
    w.
Proof.
  intros Ha Hs Hf. unfold delete_cluster.
  apply ok_wp_bind, (ok_wp_api _ _ DELETE); [exact Ha |]. rewrite route_delete by exact Hs.
  unfold h_delete_cluster. destruct (find_cluster id _); [| contradiction]. cbn beta iota zeta.
  apply ok_wp_bind, ok_wp_check_accepted; [reflexivity |]. wp_tac. auto.
Qed.

(** (C22) [delete_cluster] (step 8 of the specification, disabled in
    [main]) on a cluster the control plane holds: it reports success,
    the cluster is gone, and every other cluster is kept. *)
Theorem delete_cluster_removes (acc : Account) (w : World Plane) (id : string) :
  cp_account (w_srv w) = acc -> has_char "/" id = false ->
  find_cluster id (cp_clusters (w_srv w)) <> None ->
  let '(w', r) := delete_cluster (client acc) (PStr id) w in
  r = Ok true /\ ~ In id (map cl_id (cp_clusters (w_srv w'))) /\
  (forall c, In c (cp_clusters (w_srv w)) -> cl_id c <> id -> In c (cp_clusters (w_srv w'))).
Proof.
  intros Ha Hs Hf. pose proof (delete_cluster_api acc w id Ha Hs Hf) as H. unfold ok_wp in H.
  destruct (delete_cluster _ _ w) as [w' [a | e]]; [| contradiction].
  destruct H as [-> Hc]. rewrite Hc. split; [reflexivity | split].
  - intros Hin. apply in_map_iff in Hin as (c & Hid & Hin). apply filter_In in Hin as [_ Hneg].
    rewrite Hid, String.eqb_refl in Hneg. discriminate.
  - intros c Hin Hne. apply filter_In. split; [exact Hin |].
    now rewrite (proj2 (String.eqb_neq _ _) Hne).
Qed.

(** ** Witnesses *)

Definition wrong_key_env : Env :=
  mkEnv (Some "BK"%string) (Some "SK"%string) (Some "https://cloudapi.cloud.couchbase.com"%string)
        (Some "proj"%string) (Some "clus"%string) (Some "user"%string) (Some "pw"%string).

Lemma main_wrong_key_witness :
  let '(w', r) := main wrong_key_env (demo_plane 600000) in
  r = Raise (SystemExit PNone) /\ exit_status r = 0%Z /\ w_srv w' = w_srv (demo_plane 600000) /\
  length (w_log w') = S (length (w_log (demo_plane 600000))) /\
  w_out w' = w_out (demo_plane 600000) ++
               ["Check Cloud Connection Failed"%string;
                error_report unauthorized (PStr "Unauthorized") (PStr "invalid signature");
                no_cloud_message].
Proof. apply (main_wrong_key wrong_key_env (demo_plane 600000) "BK" "SK"); [reflexivity | reflexivity | discriminate]. Defined.

(** A control plane holding one cluster, [clus-0]. *)
Definition one_cluster_world : World Plane :=
  mkWorld (mkPlane demo_account [] [] [mkCluster "clus-0" (PStr "clus") "proj-0" 0 [] []] 1 0)
    [] [] 1700000000000%Z.

Lemma delete_cluster_removes_witness :
  let '(w', r) := delete_cluster (client demo_account) (PStr "clus-0") one_cluster_world in
  r = Ok true /\ ~ In "clus-0"%string (map cl_id (cp_clusters (w_srv w'))) /\
  (forall c, In c (cp_clusters (w_srv one_cluster_world)) -> cl_id c <> "clus-0"%string ->
             In c (cp_clusters (w_srv w'))).
Proof. apply (delete_cluster_removes demo_account one_cluster_world "clus-0"); [reflexivity | reflexivity | discriminate]. Defined.
