(* ===== verification/CloudCount.v ===== *)
(** How many projects and clusters a run of [main] creates on the
    control-plane model of [CloudApi], whatever the credentials, names
    and base URL of the environment and whatever the model's state.  Only
    [POST /v2/projects] adds a project and only [POST /v2/clusters] adds a
    cluster, one at a time; the other endpoints [main] posts to end in
    ["/allowlist"], ["/users"] or the other collection's name, and no base
    URL makes such a target reach the path of a collection.  So a run
    adds at most one project and one cluster: [main] never retries a
    creation, and the readiness loop only reads. *)

From Stdlib Require Import String Ascii ZArith List Lia Bool.
From S2P Require Import Prelude PyData Bytes Effects Signing Helpers Bootstrap CloudApi.
Import ListNotations.
Open Scope pystr_scope.
Open Scope pym_scope.

(** ** The two counts *)

Definition n_projects (st : Plane) : nat := length (cp_projects st).
Definition n_clusters (st : Plane) : nat := length (cp_clusters st).

(** A measure of worlds from a count of the control plane's state. *)
Definition srv_count (cnt : Plane -> nat) (w : World Plane) : Z := Z.of_nat (cnt (w_srv w)).

(** No prefix puts [ep] and [target] at the end of the same string. *)
Definition avoids (ep target : string) : Prop := forall a b, a +:+ ep <> b +:+ target.

(** ** Strings *)

Lemma strip_prefix_spec (p s r : string) : strip_prefix p s = Some r -> s = p +:+ r.
Proof.
  revert s. induction p as [| c p IH]; intros [| d s] H; cbn in *; try congruence.
  destruct (Ascii.eqb_spec c d) as [-> |]; [| discriminate]. cbn. f_equal. now apply IH.
Qed.

(** Two strings equal up to equally long ends have equal ends. *)
Lemma append_suffix_eq (a b s t : string) :
  String.length s = String.length t -> a +:+ s = b +:+ t -> s = t.
Proof.
  revert b. induction a as [| c a IH]; intros [| d b] Hl E; cbn in E; auto.
  1,2: apply (f_equal String.length) in E; cbn in E; rewrite length_append_str in E; lia.
  injection E as _ E. eauto.
Qed.

Lemma avoids_suffix (ep target x s y t : string) :
  ep = x +:+ s -> target = y +:+ t -> String.length s = String.length t -> s <> t ->
  avoids ep target.
Proof.
  intros -> -> Hl Hne a b E. apply Hne, (append_suffix_eq (a +:+ x) (b +:+ y)); [exact Hl |].
  now rewrite !append_assoc_str.
Qed.

(** The end of a cluster path, split off its last four characters. *)
Lemma cluster_path_sub (id : PyVal) (sub tail : string) :
  cluster_path id +:+ (sub +:+ tail) = (cluster_path id +:+ sub) +:+ tail.
Proof. now rewrite append_assoc_str. Qed.

(** ** The routes that change a count *)

Lemma route_get (st : Plane) (path : string) (body : option PyVal) (now : Z) :
  fst (route st GET path body now) = st.
Proof.
  unfold route. destruct (String.eqb path "/v2/clouds"); [reflexivity |].
  destruct (String.eqb path "/v2/clusters"); [reflexivity |].
  destruct (cluster_route path) as [[id [|]] |]; try reflexivity.
  unfold h_cluster_status. now destruct (find_cluster id (cp_clusters st)).
Qed.

Lemma length_update_cluster (id : string) (f : Cluster -> Cluster) (cs : list Cluster) :
  length (update_cluster id f cs) = length cs.
Proof. apply length_map. Qed.

Lemma length_filter_le {A} (p : A -> bool) (l : list A) : (length (filter p l) <= length l)%nat.
Proof. induction l as [| x l IH]; cbn; [lia | destruct (p x); cbn; lia]. Qed.

(** The state after any route, as a case analysis the counts share. *)
Ltac route_cases :=
  unfold route, h_list_clouds, h_list_clusters, h_cluster_status, h_create_project,
    h_create_cluster, h_cluster_post, h_delete_cluster;
  repeat match goal with
  | |- context [match ?v with GET => _ | POST => _ | DELETE => _ end] => destruct v
  | |- context [if ?b then _ else _] => destruct b eqn:?
  | |- context [match ?x with Some _ => _ | None => _ end] => destruct x
  | |- context [match ?x with pair _ _ => _ end] => destruct x
  | |- context [match ?x with PNone => _ | _ => _ end] => destruct x
  end;
  cbn [fst set_projects set_clusters bump cp_projects cp_clusters];
  rewrite ?length_app, ?length_update_cluster; cbn [length];
  try match goal with |- context [filter ?p ?l] => pose proof (length_filter_le p l) end;
  try lia.

Lemma route_projects (st : Plane) (v : Verb) (path : string) (body : option PyVal) (now : Z) :
  (n_projects (fst (route st v path body now))
   <= n_projects st + if String.eqb path "/v2/projects" then 1 else 0)%nat.
Proof. unfold n_projects. route_cases. Qed.

Lemma route_clusters (st : Plane) (v : Verb) (path : string) (body : option PyVal) (now : Z) :
  (n_clusters (fst (route st v path body now))
   <= n_clusters st + if String.eqb path "/v2/clusters" then 1 else 0)%nat.
Proof. unfold n_clusters. route_cases. Qed.

(** ** Ends of literal strings *)

(** Split a string after its first [n] characters. *)
Fixpoint split_at (n : nat) (s : string) : string * string :=
  match n, s with
  | O, _ => (EmptyString, s)
  | S n', String c s' => let '(a, b) := split_at n' s' in (String c a, b)
  | S _, EmptyString => (EmptyString, EmptyString)
  end.

Lemma split_at_app (n : nat) (s : string) : fst (split_at n s) +:+ snd (split_at n s) = s.
Proof.
  revert s. induction n as [| n IH]; intros [| c s]; try reflexivity.
  cbn. specialize (IH s). destruct (split_at n s). cbn in *. now rewrite IH.
Qed.

(** Two ends, of the same length and different, cannot end one string. *)
Lemma avoids_tail (s t : string) (i j : nat) :
  String.length (snd (split_at i s)) = String.length (snd (split_at j t)) ->
  snd (split_at i s) <> snd (split_at j t) -> avoids s t.
Proof. intros. eapply avoids_suffix; eauto; symmetry; apply split_at_app. Qed.

Lemma avoids_app (x s t : string) : avoids s t -> avoids (x +:+ s) t.
Proof. intros Hs a b E. apply (Hs (a +:+ x) b). now rewrite append_assoc_str. Qed.

(** [avoid_tac] proves [avoids ep target] for a literal [target] and an
    endpoint that ends in a literal: it compares their common end. *)
Ltac avoid_tac :=
  lazymatch goal with
  | |- avoids (_ +:+ ?s) _ => apply avoids_app; avoid_tac
  | |- avoids ?s ?t =>
      let k := constr:(Nat.min (String.length s) (String.length t)) in
      apply (avoids_tail s t (String.length s - k) (String.length t - k));
      vm_compute; [reflexivity | intros E; discriminate E]
  end.

(** ** What one request can do to a count *)

Lemma serve_get (st : Plane) (req : HttpRequest) : rq_verb req = GET -> fst (serve st req) = st.
Proof.
  intros Hv. unfold serve, cloud_api.
  destruct (verify_request _ _ _ req); [| reflexivity].
  destruct (strip_prefix _ (rq_url req)) as [path |]; [| reflexivity].
  destruct (request_time req) as [now |]; [| reflexivity].
  rewrite Hv. pose proof (route_get st path (rq_json req) now).
  destruct (route st GET path (rq_json req) now). cbn in *. congruence.
Qed.

Section Count.
Variable cnt : Plane -> nat.
Variable target : string.
Hypothesis route_cnt : forall st v path body now,
  (cnt (fst (route st v path body now)) <= cnt st + if String.eqb path target then 1 else 0)%nat.

(** A request served at [path] changes the count by the route's bound,
    and a refused one leaves the state alone. *)
Lemma serve_cnt_path (st : Plane) (req : HttpRequest) :
  (cnt (fst (serve st req)) <= cnt st
     + match strip_prefix (ac_base (cp_account st)) (rq_url req) with
       | Some path => if String.eqb path target then 1 else 0
       | None => 0
       end)%nat.
Proof.
  unfold serve, cloud_api.
  destruct (verify_request _ _ _ req); [| cbn; lia].
  destruct (strip_prefix _ (rq_url req)) as [path |]; [| cbn; lia].
  destruct (request_time req) as [now |]; [| cbn; lia].
  pose proof (route_cnt st (rq_verb req) path (rq_json req) now).
  destruct (route st (rq_verb req) path (rq_json req) now). exact H.
Qed.

Lemma http_cnt (r : HttpRequest) : grows (srv_count cnt) 1 (http r).
Proof.
  intros w. unfold srv_count, http. pose proof (serve_cnt_path (w_srv w) r).
  destruct (serve (w_srv w) r) as [s' [resp |]]; cbn in *;
    destruct (strip_prefix _ _); try destruct (String.eqb _ _); lia.
Qed.

Lemma http_cnt_get (r : HttpRequest) : rq_verb r = GET -> grows (srv_count cnt) 0 (http r).
Proof.
  intros Hv w. unfold srv_count, http. pose proof (serve_get (w_srv w) r Hv).
  destruct (serve (w_srv w) r) as [s' [resp |]]; cbn in *; subst; lia.
Qed.

Lemma http_cnt_avoid (u ep : string) (v : Verb) hs body :
  avoids ep target -> grows (srv_count cnt) 0 (http (mkRequest v (u +:+ ep) hs body)).
Proof.
  intros Ha w. unfold srv_count, http. pose proof (serve_cnt_path (w_srv w) (mkRequest v (u +:+ ep) hs body)) as Hc.
  cbn [rq_url] in Hc. destruct (strip_prefix _ _) as [path |] eqn:Hp.
  - apply strip_prefix_spec in Hp. destruct (String.eqb_spec path target) as [-> |].
    + destruct (Ha _ _ Hp).
    + destruct (serve _ _) as [s' [resp |]]; cbn in *; lia.
  - destruct (serve _ _) as [s' [resp |]]; cbn in *; lia.
Qed.

Lemma print_cnt (s : string) : grows (srv_count cnt) 0 (print s).
Proof. intros w. unfold srv_count. cbn [print fst add_out w_srv]. lia. Qed.

Lemma sleep_cnt (secs : Z) : grows (srv_count cnt) 0 (sleep secs).
Proof. intros w. unfold srv_count. cbn [sleep fst w_srv]. lia. Qed.

#[local] Hint Resolve http_cnt_get http_cnt_avoid print_cnt sleep_cnt : pyrun.
#[local] Hint Extern 1 (avoids _ _) => avoid_tac : pyrun.
#[local] Hint Extern 1 (rq_verb _ = _) => reflexivity : pyrun.

(** Every request adds at most one; a [GET], or a request to an endpoint
    that avoids [target], adds nothing. *)
Lemma request_cnt (cloud : CouchbaseCloud) (ep m : string) (data : PyVal) :
  grows (srv_count cnt) 1 (request cloud ep m data).
Proof. pose proof http_cnt as Hh. unfold request. grows_tac. Qed.

Lemma request_cnt_get (cloud : CouchbaseCloud) (ep : string) (data : PyVal) :
  grows (srv_count cnt) 0 (request cloud ep "GET" data).
Proof. unfold request. rewrite String.eqb_refl. grows_tac. Qed.

Lemma request_cnt_avoid (cloud : CouchbaseCloud) (ep m : string) (data : PyVal) :
  avoids ep target -> grows (srv_count cnt) 0 (request cloud ep m data).
Proof. intros Ha. unfold request. grows_tac. Qed.

#[local] Hint Resolve request_cnt_get : pyrun.

(** The readiness loop only reads. *)
Lemma poll_cluster_cnt (cloud : CouchbaseCloud) (cluster_id : PyVal) (n : nat) :
  grows (srv_count cnt) 0 (poll_cluster cloud cluster_id n).
Proof. induction n as [| n IH]; cbn [poll_cluster]; unfold_steps; grows_tac. Qed.

End Count.

(** [count_tac]: bound the growth of a count along a run of [main]; a
    request is charged nothing when it reads or when its endpoint avoids
    the count's collection, and one otherwise. *)
#[local] Hint Resolve request_cnt_get poll_cluster_cnt print_cnt sleep_cnt | 0 : pyrun.
#[local] Hint Resolve request_cnt_avoid | 1 : pyrun.
#[local] Hint Resolve request_cnt | 5 : pyrun.
#[local] Hint Extern 1 (avoids _ _) => avoid_tac : pyrun.

Ltac count_tac Hr := unfold main, poll_budget; unfold_steps; pose proof Hr; grows_tac.

Lemma main_projects (env : Env) : grows (srv_count n_projects) 1 (main env).
Proof. count_tac route_projects. Qed.

Lemma main_clusters (env : Env) : grows (srv_count n_clusters) 1 (main env).
Proof. count_tac route_clusters. Qed.

(** (C8) Whatever the environment (credentials, names, base URL) and
    whatever the state of the control plane, a run of [main] adds at most
    one project and at most one cluster: no step is retried, the
    readiness loop only reads, and no other request [main] sends can
    reach [POST /v2/projects] or [POST /v2/clusters]. *)
Theorem main_creates_at_most_one (env : Env) (w : World Plane) :
  (n_projects (w_srv (fst (main env w))) <= n_projects (w_srv w) + 1)%nat /\
  (n_clusters (w_srv (fst (main env w))) <= n_clusters (w_srv w) + 1)%nat.
Proof.
  pose proof (main_projects env w). pose proof (main_clusters env w).
  unfold srv_count in *. lia.
Qed.
