(* ===== verification/Scenarios.v ===== *)
(** The readiness poll: on a scripted control plane ([script_plane]: each
    request is answered by the next response of a list), on any script of
    "not ready" answers with or without a final "ready" one; on any
    control plane, a status answer without ["status"].  The witnesses run
    the scenarios of the specification. *)

From Stdlib Require Import String Ascii ZArith List Lia Bool.
From S2P Require Import Prelude PyData Bytes Effects Signing Helpers Bootstrap.
Import ListNotations.
Open Scope pystr_scope.
Open Scope pym_scope.

(** ** Responses *)

Definition status_response (status : string) : Response :=
  mkResponse 200 (Some (PDict [("status"%string, PStr status)])).

Definition not_ready : Response := status_response "deploying".
Definition ready : Response := status_response "ready".

(** ** One turn of the poll loop on a scripted control plane *)

Section Poll.
Context (cloud : CouchbaseCloud) (cluster_id : PyVal) (sk : string).
Hypothesis Hsk : secret cloud = PStr sk.

(** The world after one status check answered by [r] from the script [r :: rest]. *)
Definition checked (w : World (list Response)) (rest : list Response) : World (list Response) :=
  add_out (sent w rest (signed_request cloud (cluster_path cluster_id) GET PNone (w_clock w)
                          (utf8_encode sk)))
          "Get Cluster Status Successful".

Lemma check_cluster_ready_script (w : World (list Response)) (r : Response)
    (rest : list Response) :
  w_srv w = r :: rest -> status_code r = 200%Z ->
  check_cluster_ready cloud cluster_id w = (checked w rest, Ok (r, true)).
Proof.
  intros Hw Hc. unfold check_cluster_ready, bind at 1.
  rewrite (request_answer cloud (cluster_path cluster_id) "GET" GET PNone w sk rest r Hsk)
    by (try reflexivity; unfold serve, script_plane; now rewrite Hw).
  apply check_response_accepted. unfold status_in. now rewrite Hc.
Qed.

(** A "not ready" answer: print, sleep a minute, and loop with one check
    less. *)
Lemma poll_not_ready (w : World (list Response)) (rest : list Response) (n : nat) :
  w_srv w = not_ready :: rest ->
  poll_cluster cloud cluster_id (S n) w
  = poll_cluster cloud cluster_id n
      (fst (sleep (S := list Response) 60 (add_out (checked w rest) "Checking again in a minute..."))).
Proof.
  intros Hw. cbn [poll_cluster]. unfold bind at 1.
  rewrite (check_cluster_ready_script w not_ready rest Hw eq_refl). reflexivity.
Qed.

Lemma poll_ready (w : World (list Response)) (rest : list Response) (n : nat) :
  w_srv w = ready :: rest ->
  poll_cluster cloud cluster_id (S n) w = (add_out (checked w rest) "Cluster is ready", Ok tt).
Proof.
  intros Hw. cbn [poll_cluster]. unfold bind at 1.
  rewrite (check_cluster_ready_script w ready rest Hw eq_refl). reflexivity.
Qed.

End Poll.

(** ** The readiness poll *)

(** (C13) On a script of [k] "not ready" answers and then a
    "ready" one, with [k] below the loop budget [n], the loop stops at the
    [k+1]-th check: it returns normally, has consumed exactly those
    answers, sent [k+1] requests and slept [k] minutes. *)
Theorem poll_cluster_stops_when_ready (cloud : CouchbaseCloud) (cluster_id : PyVal) (sk : string)
    (k n : nat) (w : World (list Response)) (rest : list Response) :
  secret cloud = PStr sk -> (k < n)%nat -> w_srv w = repeat not_ready k ++ ready :: rest ->
  snd (poll_cluster cloud cluster_id n w) = Ok tt /\
  w_srv (fst (poll_cluster cloud cluster_id n w)) = rest /\
  length (w_log (fst (poll_cluster cloud cluster_id n w))) = (length (w_log w) + S k)%nat /\
  w_clock (fst (poll_cluster cloud cluster_id n w)) = (w_clock w + 60000 * Z.of_nat k)%Z.
Proof.
  intros Hsk. revert n w. induction k as [| k IH]; intros [| n] w Hk Hw; try lia.
  - rewrite (poll_ready cloud cluster_id sk Hsk w rest n Hw). cbn.
    rewrite length_app. simpl. repeat split; lia.
  - rewrite (poll_not_ready cloud cluster_id sk Hsk w (repeat not_ready k ++ ready :: rest) n Hw).
    match goal with |- context [poll_cluster _ _ n ?w1] =>
      destruct (IH n w1 ltac:(lia) eq_refl) as (H1 & H2 & H3 & H4) end.
    cbn [fst sleep add_out checked sent w_log w_clock w_srv w_out] in *.
    rewrite length_app in H3. cbn [length] in H3.
    repeat split; [exact H1 | exact H2 | lia | lia].
Qed.

(** (C16) On [n] "not ready" answers the loop of budget [n]
    ends without an error: it returns normally after [n] checks and [n]
    minutes of sleep, the last one after the last check. *)
Theorem poll_cluster_exhausted (cloud : CouchbaseCloud) (cluster_id : PyVal) (sk : string)
    (n : nat) (w : World (list Response)) (rest : list Response) :
  secret cloud = PStr sk -> w_srv w = repeat not_ready n ++ rest ->
  snd (poll_cluster cloud cluster_id n w) = Ok tt /\
  w_srv (fst (poll_cluster cloud cluster_id n w)) = rest /\
  length (w_log (fst (poll_cluster cloud cluster_id n w))) = (length (w_log w) + n)%nat /\
  w_clock (fst (poll_cluster cloud cluster_id n w)) = (w_clock w + 60000 * Z.of_nat n)%Z.
Proof.
  intros Hsk. revert w. induction n as [| n IH]; intros w Hw.
  - simpl in *. repeat split; [exact Hw | lia | lia].
  - rewrite (poll_not_ready cloud cluster_id sk Hsk w (repeat not_ready n ++ rest) n Hw).
    match goal with |- context [poll_cluster _ _ n ?w1] =>
      destruct (IH w1 eq_refl) as (H1 & H2 & H3 & H4) end.
    cbn [fst sleep add_out checked sent w_log w_clock w_srv w_out] in *.
    rewrite length_app in H3. cbn [length] in H3.
    repeat split; [exact H1 | exact H2 | lia | lia].
Qed.

(** ** A status answer without ["status"], on any control plane *)

(** (C18) The loop reads [res_json["status"]] without a guard: whatever
    the control plane and the loop budget, a status check accepted with
    [200] whose JSON object has no ["status"] field raises [KeyError] out
    of the loop right after ["Get Cluster Status Successful"], with one
    request sent and no sleep; [main] does not catch it, so the run ends
    with a traceback before the allow-list is opened. *)
Theorem poll_cluster_status_missing {St : Type} `{ControlPlane St} (cloud : CouchbaseCloud)
    (cluster_id : PyVal) (sk : string) (n : nat) (w : World St) (s' : St) (r : Response)
    (kv : list (string * PyVal)) :
  secret cloud = PStr sk ->
  serve (w_srv w) (signed_request cloud (cluster_path cluster_id) GET PNone (w_clock w) (utf8_encode sk))
  = (s', Some r) ->
  status_code r = 200%Z -> res_json r = Ok (PDict kv) -> dict_get "status" kv = None ->
  poll_cluster cloud cluster_id (S n) w
  = (add_out (sent w s' (signed_request cloud (cluster_path cluster_id) GET PNone (w_clock w)
                           (utf8_encode sk)))
       "Get Cluster Status Successful",
     Raise (KeyError (KStr "status"))).
Proof.
  intros Hsk Hr Hc Hj Hd. cbn [poll_cluster]. unfold check_cluster_ready, bind at 1 2.
  rewrite (request_answer cloud (cluster_path cluster_id) "GET" GET PNone w sk s' r Hsk Hr eq_refl).
  rewrite check_response_accepted by (unfold status_in; now rewrite Hc).
  unfold bind, lift. rewrite Hj. cbn -[add_out sent signed_request]. rewrite Hd. reflexivity.
Qed.

(** ** Concrete runs *)

Definition env_demo : Env :=
  mkEnv (Some "AK"%string) (Some "SK"%string) (Some "https://cloudapi.cloud.couchbase.com"%string)
        (Some "proj"%string) (Some "clus"%string) (Some "user"%string) (Some "pw"%string).

Definition start (script : list Response) : World (list Response) :=
  mkWorld script [] [] 1700000000000%Z.

Definition clouds_ok : Response :=
  mkResponse 200 (Some (PDict [("data"%string,
    PList [PDict [("id"%string, PStr "cloud-1"); ("provider"%string, PStr "aws")]])])).
Definition project_ok : Response := mkResponse 201 (Some (PDict [("id"%string, PStr "proj-1")])).
Definition accepted : Response := mkResponse 202 None.
Definition created : Response := mkResponse 201 None.
Definition clusters_ok : Response :=
  mkResponse 200 (Some (PDict [("data"%string, PList [PDict [("id"%string, PStr "clus-1")]])])).

(** The end-to-end scenario of the specification. *)
Definition happy_script : list Response :=
  [clouds_ok; project_ok; accepted; clusters_ok; ready; accepted; created].

(** The readiness scenario of the specification: two "not ready" answers
    and a "ready" one stop the loop at the third check. *)
Lemma poll_cluster_stops_when_ready_witness :
  let w := start [not_ready; not_ready; ready] in
  snd (poll_cluster (cloud_of env_demo) (PStr "clus-1") poll_budget w) = Ok tt /\
  w_srv (fst (poll_cluster (cloud_of env_demo) (PStr "clus-1") poll_budget w)) = [] /\
  length (w_log (fst (poll_cluster (cloud_of env_demo) (PStr "clus-1") poll_budget w))) = 3%nat /\
  w_clock (fst (poll_cluster (cloud_of env_demo) (PStr "clus-1") poll_budget w))
  = (1700000000000 + 60000 * 2)%Z.
Proof.
  exact (poll_cluster_stops_when_ready (cloud_of env_demo) (PStr "clus-1") "SK" 2 poll_budget
           (start [not_ready; not_ready; ready]) [] eq_refl ltac:(unfold poll_budget; lia) eq_refl).
Defined.

Lemma poll_cluster_exhausted_witness :
  let w := start (repeat not_ready 30) in
  snd (poll_cluster (cloud_of env_demo) (PStr "clus-1") 30 w) = Ok tt /\
  w_srv (fst (poll_cluster (cloud_of env_demo) (PStr "clus-1") 30 w)) = [] /\
  length (w_log (fst (poll_cluster (cloud_of env_demo) (PStr "clus-1") 30 w))) = (0 + 30)%nat /\
  w_clock (fst (poll_cluster (cloud_of env_demo) (PStr "clus-1") 30 w))
  = (1700000000000 + 60000 * Z.of_nat 30)%Z.
Proof.
  exact (poll_cluster_exhausted (cloud_of env_demo) (PStr "clus-1") "SK" 30
           (start (repeat not_ready 30)) [] eq_refl (eq_sym (app_nil_r _))).
Defined.

(** The authentication invariant on the end-to-end run. *)
Lemma poll_cluster_status_missing_witness :
  let no_status := mkResponse 200 (Some (PDict [("id"%string, PStr "clus-1")])) in
  poll_cluster (cloud_of env_demo) (PStr "clus-1") 29 (start [no_status])
  = (add_out (sent (start [no_status]) []
                (signed_request (cloud_of env_demo) (cluster_path (PStr "clus-1")) GET PNone
                   1700000000000 (utf8_encode "SK")))
       "Get Cluster Status Successful",
     Raise (KeyError (KStr "status"))).
Proof.
  exact (poll_cluster_status_missing (cloud_of env_demo) (PStr "clus-1") "SK" 28
           (start [mkResponse 200 (Some (PDict [("id"%string, PStr "clus-1")]))]) []
           (mkResponse 200 (Some (PDict [("id"%string, PStr "clus-1")])))
           [("id"%string, PStr "clus-1")] eq_refl eq_refl eq_refl eq_refl eq_refl).
Defined.

Lemma main_authenticated_witness :
  Forall (verified "AK" "SK" "https://cloudapi.cloud.couchbase.com")
    (w_log (fst (main env_demo (start happy_script)))).
Proof.
  exact (main_authenticated env_demo (start happy_script) "AK" "SK"
           "https://cloudapi.cloud.couchbase.com" eq_refl eq_refl eq_refl (Forall_nil _)).
Defined.
